(** * redash-loader: fetch.py and push.py

    A shallow embedding of the synchronisation engine of redash-loader
    (src/fetch.py, src/push.py) and the properties it satisfies.

    - Python dicts are insertion-ordered: they are association lists
      with unique keys ([dict]); [dict_set] overwrites in place or
      appends, as assignment to a Python dict does.
    - A failing lookup raises: fallible code returns a [result].
    - The documents fetch.py handles are arbitrary JSON/YAML trees
      ([json]); push.py reads fixed keys of them, which are record
      fields, optional where the code adds, deletes or tests the key.
    - Regular expressions are kept as syntax ([Re.regex]) and run by a
      backtracking matcher with Python's greedy, leftmost-alternative
      order. *)

From Stdlib Require Import String Ascii List ZArith Lia Bool Arith.
From Stdlib Require Import Numbers.DecimalString.
From Stdlib Require Import Sorting.Permutation Sorting.Sorted.
From Stdlib Require OrderedTypeEx.
Import ListNotations.

Open Scope string_scope.
Open Scope list_scope.

Set Warnings "-register-all".

(* ================================================================= *)
(** ** Python values: exceptions, dicts *)

Inductive exn :=
| KeyError (key : string)
| TypeError
| AttributeError
| RuntimeError.

(** The outcome of running a piece of Python: a value, a raised
    exception, or the recursion budget of the model used up (Python's
    own recursion limit). *)
Inductive result (A : Type) :=
| Ok (a : A)
| Raise (e : exn)
| OutOfFuel.

Arguments Ok {A} a.
Arguments Raise {A} e.
Arguments OutOfFuel {A}.

Definition bind {A B} (m : result A) (f : A -> result B) : result B :=
  match m with
  | Ok a => f a
  | Raise e => Raise e
  | OutOfFuel => OutOfFuel
  end.

Notation "x <- m ;; k" := (bind m (fun x => k))
  (at level 61, m at next level, right associativity).
Notation "' p <- m ;; k" := (bind m (fun x => match x with p => k end))
  (at level 61, p pattern, m at next level, right associativity).

(** [d[key]] on an optional field. *)
Definition item {A} (key : string) (o : option A) : result A :=
  match o with
  | Some a => Ok a
  | None => Raise (KeyError key)
  end.

Definition dict (V : Type) := list (string * V).

Section Dict.
Context {V : Type}.

Fixpoint dict_get (k : string) (d : dict V) : option V :=
  match d with
  | [] => None
  | (k', v) :: d' => if String.eqb k k' then Some v else dict_get k d'
  end.

Definition dict_in (k : string) (d : dict V) : bool :=
  match dict_get k d with Some _ => true | None => false end.

(** [d[k] = v]: an existing key keeps its place, a new key goes last. *)
Fixpoint dict_set (k : string) (v : V) (d : dict V) : dict V :=
  match d with
  | [] => [(k, v)]
  | (k', v') :: d' =>
      if String.eqb k k' then (k', v) :: d' else (k', v') :: dict_set k v d'
  end.

(** [del d[k]], for a key that is there. *)
Definition dict_del (k : string) (d : dict V) : dict V :=
  filter (fun kv => negb (String.eqb k (fst kv))) d.

Definition dict_keys (d : dict V) : list string := map fst d.
Definition dict_values (d : dict V) : list V := map snd d.
End Dict.

(** [str(n)] for an integer. *)
Definition str_of_int (n : Z) : string := NilEmpty.string_of_int (Z.to_int n).

(* ================================================================= *)
(** ** Regular expressions, as the [re] module runs them *)

Module Re.

(** A character class: [[a-z0-9-]] is [Ranges], [.] is [Dot] (any
    character but a newline, no DOTALL flag is given). *)
Inductive cset :=
| Ranges (rs : list (ascii * ascii))
| Dot.

Definition in_range (c : ascii) (r : ascii * ascii) : bool :=
  (nat_of_ascii (fst r) <=? nat_of_ascii c)%nat
  && (nat_of_ascii c <=? nat_of_ascii (snd r))%nat.

Definition newline : ascii := "010"%char.

Definition in_cset (cs : cset) (c : ascii) : bool :=
  match cs with
  | Ranges rs => existsb (in_range c) rs
  | Dot => negb (Ascii.eqb c newline)
  end.

(** The fragment of the syntax the two patterns of the program use.
    Groups carry their number (the rank of their opening bracket). *)
Inductive regex :=
| Lit (s : string)
| Plus (cs : cset)
| Bol
| Eol
| Cat (r1 r2 : regex)
| Alt (r1 r2 : regex)
| Group (n : nat) (r : regex).

Definition captures := list (nat * string).

Fixpoint group (n : nat) (g : captures) : option string :=
  match g with
  | [] => None
  | (m, t) :: g' => if Nat.eqb n m then Some t else group n g'
  end.

Record found := { m_text : string; m_rest : string; m_groups : captures }.

Fixpoint strip_prefix (p s : string) : option string :=
  match p, s with
  | EmptyString, _ => Some s
  | String a p', String b s' =>
      if Ascii.eqb a b then strip_prefix p' s' else None
  | String _ _, EmptyString => None
  end.

(** [$] without MULTILINE: the end of the subject, or just before a
    newline that ends it. *)
Definition at_end (rest : string) : bool :=
  match rest with
  | EmptyString => true
  | String c EmptyString => Ascii.eqb c newline
  | _ => false
  end.

(** [cs+], greedy: take as many characters as possible, give them
    back one at a time while the continuation fails. *)
Fixpoint plus_class {A} (cs : cset) (rest : string)
    (k : string -> string -> option A) : option A :=
  match rest with
  | EmptyString => None
  | String c rest' =>
      if in_cset cs c then
        match plus_class cs rest' (fun t r => k (String c t) r) with
        | Some x => Some x
        | None => k (String c EmptyString) rest'
        end
      else None
  end.

(** The matcher, in continuation-passing style: [k] receives the text
    the node matched, the input left and the groups closed so far.
    [pos] is the offset of [rest] in the subject. *)
Fixpoint exec (r : regex) (pos : nat) (rest : string) (g : captures)
    (k : string -> string -> captures -> option found) : option found :=
  match r with
  | Lit s =>
      match strip_prefix s rest with
      | Some rest' => k s rest' g
      | None => None
      end
  | Plus cs => plus_class cs rest (fun t rest' => k t rest' g)
  | Bol => if Nat.eqb pos 0 then k "" rest g else None
  | Eol => if at_end rest then k "" rest g else None
  | Cat r1 r2 =>
      exec r1 pos rest g (fun t1 rest1 g1 =>
        exec r2 (pos + String.length t1) rest1 g1 (fun t2 rest2 g2 =>
          k (t1 ++ t2)%string rest2 g2))
  | Alt r1 r2 =>
      match exec r1 pos rest g k with
      | Some x => Some x
      | None => exec r2 pos rest g k
      end
  | Group n r1 =>
      exec r1 pos rest g (fun t rest' g' => k t rest' ((n, t) :: g'))
  end.

Definition match_at (r : regex) (pos : nat) (rest : string) : option found :=
  exec r pos rest [] (fun t rest' g =>
    Some {| m_text := t; m_rest := rest'; m_groups := g |}).

(** [re.search]: the leftmost position with a match. *)
Fixpoint search_from (r : regex) (pos : nat) (rest : string) : option found :=
  match match_at r pos rest with
  | Some m => Some m
  | None =>
      match rest with
      | EmptyString => None
      | String _ rest' => search_from r (S pos) rest'
      end
  end.

Definition search (r : regex) (s : string) : option found :=
  search_from r 0 s.

(** A replacement template: [\g<n>] and literal text. *)
Inductive piece := Ref (n : nat) | Text (s : string).

Definition expand (tpl : list piece) (g : captures) : string :=
  fold_right (fun p acc =>
    match p with
    | Ref n => match group n g with Some t => t | None => "" end
    | Text s => s
    end ++ acc)%string "" tpl.

(** [re.sub]: every non-overlapping match, left to right, is replaced
    by the expanded template; the rest is copied. *)
Fixpoint sub_from (fuel : nat) (r : regex) (tpl : list piece)
    (pos : nat) (rest : string) : string :=
  match fuel with
  | O => rest
  | S fuel' =>
      match match_at r pos rest with
      | Some m =>
          match m_text m, rest with
          | EmptyString, String c rest' =>
              (expand tpl (m_groups m)
               ++ String c (sub_from fuel' r tpl (S pos) rest'))%string
          | EmptyString, EmptyString => expand tpl (m_groups m)
          | String _ _, _ =>
              (expand tpl (m_groups m)
               ++ sub_from fuel' r tpl (pos + String.length (m_text m))
                    (m_rest m))%string
          end
      | None =>
          match rest with
          | EmptyString => EmptyString
          | String c rest' => String c (sub_from fuel' r tpl (S pos) rest')
          end
      end
  end.

Definition sub (r : regex) (tpl : list piece) (s : string) : string :=
  sub_from (S (String.length s)) r tpl 0 s.

Definition digit : cset := Ranges [("0"%char, "9"%char)].
Definition slug_char : cset :=
  Ranges [("a"%char, "z"%char); ("0"%char, "9"%char); ("-"%char, "-"%char)].

End Re.

(* ================================================================= *)
(** ** Dashboard links (fetch.py line 127, push.py lines 68-86) *)

(** fetch.py:
    [(^/dashboards/)[0-9]+(-[a-z0-9-]+\?.+|$)] *)
Definition fetch_link_re : Re.regex :=
  Re.Cat (Re.Group 1 (Re.Cat Re.Bol (Re.Lit "/dashboards/")))
  (Re.Cat (Re.Plus Re.digit)
          (Re.Group 2
             (Re.Alt (Re.Cat (Re.Lit "-")
                     (Re.Cat (Re.Plus Re.slug_char)
                     (Re.Cat (Re.Lit "?") (Re.Plus Re.Dot))))
                     Re.Eol))).

(** The template [\g<1>0\g<2>]. *)
Definition fetch_link_tpl : list Re.piece := [Re.Ref 1; Re.Text "0"; Re.Ref 2].

Definition anonymise_link (url : string) : string :=
  Re.sub fetch_link_re fetch_link_tpl url.

(** push.py:
    [^/dashboards/([0-9]+)-([a-z0-9-]+)(\?.+|$)] *)
Definition push_link_re : Re.regex :=
  Re.Cat Re.Bol
  (Re.Cat (Re.Lit "/dashboards/")
  (Re.Cat (Re.Group 1 (Re.Plus Re.digit))
  (Re.Cat (Re.Lit "-")
  (Re.Cat (Re.Group 2 (Re.Plus Re.slug_char))
          (Re.Group 3 (Re.Alt (Re.Cat (Re.Lit "?") (Re.Plus Re.Dot)) Re.Eol)))))).

Inductive log_record :=
| ErrDashboardSlug (slug : string)
| ErrVisualisation (visualisationName queryName : string)
| ErrTableNote
| InfoLoadedWithErrors
| InfoLoaded.

(** What push.py reads of a widget of a dashboard on the server.  A
    text widget has no visualization.  [d_widgets] is [None] where
    the server answers null for the widgets, which line 310 takes as
    it takes the empty list. *)
Record remote_widget := {
  rw_id : Z;
  rw_visualization : option (string * string)
}.

Record remote_dashboard := {
  d_id : Z;
  d_slug : string;
  d_widgets : option (list remote_widget)
}.

Definition group_text (n : nat) (m : Re.found) : string :=
  match Re.group n (Re.m_groups m) with Some t => t | None => "" end.

Definition fix_dashboard_url_id (url : string)
    (existing_dashboards : dict remote_dashboard) : string * list log_record :=
  match Re.search push_link_re url with
  | None => (url, [])
  | Some matches =>
      let slug := group_text 2 matches in
      let query := group_text 3 matches in
      match filter (fun d => String.eqb (d_slug d) slug)
                   (dict_values existing_dashboards) with
      | d :: _ =>
          (("/dashboards/" ++ str_of_int (d_id d) ++ "-" ++ slug ++ query)%string,
           [])
      | [] => (url, [ErrDashboardSlug slug])
      end
  end.

(* ================================================================= *)
(** ** Documents: the JSON the server returns, the YAML on disk *)

(** Numbers are integers: the fields the program computes with (ids,
    rows, columns) are. *)
Inductive json :=
| JNull
| JBool (b : bool)
| JInt (n : Z)
| JStr (s : string)
| JList (l : list json)
| JDict (d : list (string * json)).

Definition int_of_bool (b : bool) : Z := if b then 1%Z else 0%Z.

(** Python's [==]: [True == 1], lists compare item by item, dicts
    compare as maps, whatever the order of their keys (so does the
    round-trip map of the YAML loader against a plain dict). *)
Fixpoint py_eq (a b : json) {struct a} : bool :=
  match a, b with
  | JNull, JNull => true
  | JBool x, JBool y => Bool.eqb x y
  | JBool x, JInt n => Z.eqb (int_of_bool x) n
  | JInt n, JBool y => Z.eqb n (int_of_bool y)
  | JInt x, JInt y => Z.eqb x y
  | JStr x, JStr y => String.eqb x y
  | JList l1, JList l2 =>
      (fix items (l1 l2 : list json) : bool :=
         match l1, l2 with
         | [], [] => true
         | x :: l1', y :: l2' => py_eq x y && items l1' l2'
         | _, _ => false
         end) l1 l2
  | JDict d1, JDict d2 =>
      (fix entries (d : list (string * json)) : bool :=
         match d with
         | [] => true
         | (k, v) :: d' =>
             match dict_get k d2 with
             | Some w => py_eq v w
             | None => false
             end && entries d'
         end) d1
      && forallb (fun kv => dict_in (fst kv) d1) d2
  | _, _ => false
  end.

(** [d.get(k)]: [None] for a missing key. *)
Definition py_get (d : dict json) (k : string) : json :=
  match dict_get k d with Some v => v | None => JNull end.

(** [v[k]] with a string key. *)
Definition subscript (v : json) (k : string) : result json :=
  match v with
  | JDict d => item k (dict_get k d)
  | _ => Raise TypeError
  end.

(** [v.get(k, default)]. *)
Definition get_method (v : json) (k : string) (default : json) : result json :=
  match v with
  | JDict d => Ok (match dict_get k d with Some x => x | None => default end)
  | _ => Raise AttributeError
  end.

(** [v[k] = x]. *)
Definition set_item (v : json) (k : string) (x : json) : result json :=
  match v with
  | JDict d => Ok (JDict (dict_set k x d))
  | _ => Raise TypeError
  end.

(** [del v[k]]. *)
Definition del_item (v : json) (k : string) : result json :=
  match v with
  | JDict d => if dict_in k d then Ok (JDict (dict_del k d))
               else Raise (KeyError k)
  | _ => Raise TypeError
  end.

Fixpoint is_infix (p s : string) : bool :=
  match Re.strip_prefix p s with
  | Some _ => true
  | None => match s with
            | EmptyString => false
            | String _ s' => is_infix p s'
            end
  end.

(** [k in v] with a string [k]. *)
Definition contains (k : string) (v : json) : result bool :=
  match v with
  | JDict d => Ok (dict_in k d)
  | JList l => Ok (existsb (py_eq (JStr k)) l)
  | JStr s => Ok (is_infix k s)
  | _ => Raise TypeError
  end.

Fixpoint chars (s : string) : list json :=
  match s with
  | EmptyString => []
  | String c s' => JStr (String c EmptyString) :: chars s'
  end.

(** The items a [for] loop over [v] visits. *)
Definition py_iter (v : json) : result (list json) :=
  match v with
  | JList l => Ok l
  | JDict d => Ok (map JStr (dict_keys d))
  | JStr s => Ok (chars s)
  | _ => Raise TypeError
  end.

Fixpoint mapM {A B} (f : A -> result B) (l : list A) : result (list B) :=
  match l with
  | [] => Ok []
  | x :: l' => y <- f x ;; ys <- mapM f l' ;; Ok (y :: ys)
  end.

(** [<] on the keys the program sorts by: numbers with numbers, strings
    with strings (by code point).  Any other pair raises, as it does in
    Python for [None] and for mixed kinds. *)
Definition py_lt (a b : json) : result bool :=
  match a, b with
  | JInt x, JInt y => Ok (Z.ltb x y)
  | JInt x, JBool y => Ok (Z.ltb x (int_of_bool y))
  | JBool x, JInt y => Ok (Z.ltb (int_of_bool x) y)
  | JBool x, JBool y => Ok (Z.ltb (int_of_bool x) (int_of_bool y))
  | JStr x, JStr y => Ok (String.ltb x y)
  | _, _ => Raise TypeError
  end.

(** [list.sort(key=...)] is stable: each item goes after the items
    sorted so far that are not greater than it.  [lt] is [<] on keys. *)
Section Sort.
Context {K A : Type} (lt : K -> K -> result bool).

Fixpoint insert_sorted (x : K * A) (l : list (K * A)) : result (list (K * A)) :=
  match l with
  | [] => Ok [x]
  | y :: l' =>
      b <- lt (fst x) (fst y) ;;
      if b then Ok (x :: y :: l')
      else (r <- insert_sorted x l' ;; Ok (y :: r))
  end.

Fixpoint sort_keyed (acc : list (K * A)) (l : list (K * A)) : result (list (K * A)) :=
  match l with
  | [] => Ok acc
  | x :: l' => acc' <- insert_sorted x acc ;; sort_keyed acc' l'
  end.

Definition sort_by (key : A -> result K) (l : list A) : result (list A) :=
  keyed <- mapM (fun x => k <- key x ;; Ok (k, x)) l ;;
  sorted <- sort_keyed [] keyed ;;
  Ok (map snd sorted).
End Sort.

(* ================================================================= *)
(** ** fetch.py *)

Module Fetch.

Definition QUERY_META_FIELDS : list string :=
  ["name"; "description"; "is_archived"; "is_draft"; "is_favourite";
   "options"; "schedule"; "tags"].

Definition VISUALIZATIONS_IGNORE_FIELDS : list string :=
  ["id"; "updated_at"; "created_at"].

Definition DASHBOARD_FIELDS : list string :=
  ["slug"; "name"; "layout"; "dashboard_filters_enabled"; "options";
   "is_archived"; "is_draft"; "tags"].

Definition DASHBOARD_WIDGET_IGNORE_FIELDS : list string :=
  ["dashboard_id"; "id"; "updated_at"; "created_at"; "query";
   "visualization"].

(** [queries] is indexed by the numeric id of the query. *)
Fixpoint assoc_int (n : Z) (l : list (Z * json)) : option json :=
  match l with
  | [] => None
  | (m, q) :: l' => if Z.eqb n m then Some q else assoc_int n l'
  end.

(** [queries[key]]. *)
Definition queries_item (queries : list (Z * json)) (key : json) : result json :=
  match key with
  | JInt n => item (str_of_int n) (assoc_int n queries)
  | JBool b => item (str_of_int (int_of_bool b)) (assoc_int (int_of_bool b) queries)
  | JNull => Raise (KeyError "None")
  | JStr s => Raise (KeyError s)
  | JList _ | JDict _ => Raise TypeError
  end.

(** Lines 107-109, the body of the loop over the parameters. *)
Definition rename_parameter (queries : list (Z * json)) (param : json) : result json :=
  type <- subscript param "type" ;;
  if py_eq type (JStr "query") then
    queryId <- subscript param "queryId" ;;
    q <- queries_item queries queryId ;;
    name <- subscript q "name" ;;
    param1 <- set_item param "queryName" name ;;
    del_item param1 "queryId"
  else Ok param.

(** Lines 104-109.  The parameters are changed in place, so the query
    holds the renamed ones afterwards. *)
Definition rename_parameters (queries : list (Z * json)) (query : dict json)
    : result (dict json) :=
  options <- item "options" (dict_get "options" query) ;;
  has <- contains "parameters" options ;;
  if has then
    parameters <- subscript options "parameters" ;;
    params <- py_iter parameters ;;
    params' <- mapM (rename_parameter queries) params ;;
    match parameters with
    | JList _ =>
        options' <- set_item options "parameters" (JList params') ;;
        Ok (dict_set "options" options' query)
    | _ => Ok query
    end
  else Ok query.

(** Lines 113-116, the body of the loop over the fields.  [written]
    lists the fields assigned to, in order. *)
Definition store_field (query : dict json)
    (acc : dict json * list string) (field : string) : dict json * list string :=
  let (metadata, written) := acc in
  match dict_get field query with
  | Some v =>
      if negb (py_eq (py_get metadata field) (py_get query field))
      then (dict_set field v metadata, written ++ [field])
      else (metadata, written)
  | None => (metadata, written)
  end.

(** Lines 111-116. *)
Definition store_fields (query metadata : dict json) : dict json * list string :=
  fold_left (store_field query) QUERY_META_FIELDS (metadata, []).

(** Lines 121-123.  The fields are a set; the order of the deletions
    does not matter. *)
Definition strip_fields (fields : list string) (viz : json) : result json :=
  fold_left (fun acc field =>
               v <- acc ;;
               has <- contains field v ;;
               if has then del_item v field else Ok v)
            fields (Ok viz).

(** Lines 126-127. *)
Definition anonymise_column (column : json) : result json :=
  displayAs <- get_method column "displayAs" JNull ;;
  if py_eq displayAs (JStr "link") then
    template <- subscript column "linkUrlTemplate" ;;
    match template with
    | JStr url => set_item column "linkUrlTemplate" (JStr (anonymise_link url))
    | _ => Raise TypeError
    end
  else Ok column.

(** Lines 121-127, the body of the loop over the visualizations. *)
Definition clean_visualization (viz : json) : result json :=
  viz1 <- strip_fields VISUALIZATIONS_IGNORE_FIELDS viz ;;
  options <- subscript viz1 "options" ;;
  columns <- get_method options "columns" (JList []) ;;
  cols <- py_iter columns ;;
  cols' <- mapM anonymise_column cols ;;
  match options, columns with
  | JDict o, JList _ =>
      if dict_in "columns" o
      then set_item viz1 "options" (JDict (dict_set "columns" (JList cols') o))
      else Ok viz1
  | _, _ => Ok viz1
  end.

(** The visualization every query is created with. *)
Definition default_table : json :=
  JDict [("type", JStr "TABLE"); ("name", JStr "Table");
         ("options", JDict []); ("description", JStr "")].

(** Lines 118-136. *)
Definition store_visualizations (query metadata : dict json) : result (dict json) :=
  match dict_get "visualizations" query with
  | Some visualizations =>
      vizs <- py_iter visualizations ;;
      vizs' <- mapM clean_visualization vizs ;;
      let kept := filter (fun i => negb (py_eq i default_table)) vizs' in
      sorted <- sort_by py_lt (fun i => get_method i "name" JNull) kept ;;
      Ok (dict_set "visualizations" (JList sorted) metadata)
  | None => Ok metadata
  end.

(** Lines 104-136 of [save_queries]: the metadata document written
    for [query], from the document [metadata] read from disk (empty
    when there was none).  Lines 79-102 and 138-140 are the files. *)
Definition query_metadata (queries : list (Z * json))
    (query metadata : dict json) : result (dict json * list string) :=
  query1 <- rename_parameters queries query ;;
  let (metadata1, written) := store_fields query1 metadata in
  metadata2 <- store_visualizations query1 metadata1 ;;
  Ok (metadata2, written).

(** Lines 170-171, the body of the loop over the fields. *)
Definition store_dashboard_field (dashboard : dict json)
    (acc : result (dict json * list string)) (i : string)
    : result (dict json * list string) :=
  '(dashboard_data, written) <- acc ;;
  v <- item i (dict_get i dashboard) ;;
  if negb (py_eq (py_get dashboard_data i) v)
  then Ok (dict_set i v dashboard_data, written ++ [i])
  else Ok (dashboard_data, written).

Definition store_dashboard_fields (dashboard dashboard_data : dict json)
    : result (dict json * list string) :=
  fold_left (store_dashboard_field dashboard) DASHBOARD_FIELDS
            (Ok (dashboard_data, [])).

(** The key of line 174: the tuple (row, col). *)
Definition widget_key (w : json) : result (json * json) :=
  options <- subscript w "options" ;;
  position <- subscript options "position" ;;
  row <- subscript position "row" ;;
  col <- subscript position "col" ;;
  Ok (row, col).

(** [<] on tuples: the first items that differ decide. *)
Definition tuple_lt (a b : json * json) : result bool :=
  if py_eq (fst a) (fst b) then
    if py_eq (snd a) (snd b) then Ok false else py_lt (snd a) (snd b)
  else py_lt (fst a) (fst b).

(** Lines 176-181. *)
Definition filter_widget (orig_widget : json) : result json :=
  match orig_widget with
  | JDict w =>
      let filtered_widget :=
        filter (fun kv => negb (existsb (String.eqb (fst kv))
                                        DASHBOARD_WIDGET_IGNORE_FIELDS)) w in
      match dict_get "visualization" w with
      | Some visualization =>
          name <- subscript visualization "name" ;;
          query <- subscript visualization "query" ;;
          queryName <- subscript query "name" ;;
          Ok (JDict (dict_set "visualization"
                       (JDict [("name", name); ("queryName", queryName)])
                       filtered_widget))
      | None => Ok (JDict filtered_widget)
      end
  | _ => Raise AttributeError
  end.

(** Lines 173-182: the widgets written for a dashboard. *)
Definition saved_widgets (widgets : json) : result (list json) :=
  match widgets with
  | JList ws =>
      sorted <- sort_by tuple_lt widget_key ws ;;
      mapM filter_widget sorted
  | _ => Raise AttributeError
  end.

(** Lines 169-182 of [save_dashboards]. *)
Definition dashboard_document (dashboard dashboard_data : dict json)
    : result (dict json * list string) :=
  '(data1, written) <- store_dashboard_fields dashboard dashboard_data ;;
  widgets <- item "widgets" (dict_get "widgets" dashboard) ;;
  ws <- saved_widgets widgets ;;
  Ok (dict_set "widgets" (JList ws) data1, written).

End Fetch.

(* ================================================================= *)
(** ** push.py *)

Module Push.

(** *** The saved documents, as push.py reads them

    A key the code adds, deletes or only tests for is an optional
    field, and reading it where it is absent raises KeyError.  The
    other keys read (type, name, visualizations, text, options,
    is_draft, tags, dashboard_filters_enabled) are plain fields: the
    documents are those fetch.py writes, which have them all.
    [w_options] and the like are passed on as they are. *)

Record parameter := {
  p_name : string;
  p_type : string;
  p_queryName : option string;
  p_queryId : option Z
}.

Record column := {
  c_name : string;
  c_displayAs : option string;
  c_linkUrlTemplate : option string
}.

Record visualization := {
  v_name : string;
  v_columns : option (list column);
  v_query_id : option Z;
  v_uploaded_id : option Z
}.

Record saved_query := {
  q_parameters : option (list parameter);
  q_visualizations : list visualization;
  q_uploaded_id : option Z
}.

Record saved_widget := {
  w_visualization : option (string * string); (* name, queryName *)
  w_text : string;
  w_options : json
}.

Record saved_dashboard := {
  sd_is_draft : json;
  sd_tags : json;
  sd_dashboard_filters_enabled : json;
  sd_widgets : list saved_widget
}.

(** *** What the server holds and answers *)

Record remote_visualization := { rv_name : string; rv_id : Z }.

Record remote_query := {
  rq_id : Z;
  rq_visualizations : list remote_visualization
}.

(** The requests that change the server, in the order they are sent.
    [query_name] is the name the query is saved under, which is the
    [name] of [data] (load_saved_queries, line 198). *)
Inductive request :=
| CreateQuery (query_name : string) (data : saved_query)
| UpdateQuery (query_name : string) (query_id : Z) (data : saved_query)
| UpdateVisualization (id : Z) (data : visualization)
| CreateVisualization (data : visualization)
| CreateDashboard (name : string)
| UpdateDashboard (id : Z) (is_draft tags dashboard_filters_enabled : json)
| DeleteWidget (widget_id : Z)
| CreateWidget (dashboard_id visualization_id : Z) (text : string) (options : json).

(** The dicts the functions share and change in place, with what
    they send and log. *)
Record state := {
  saved_queries : dict saved_query;
  existing_queries : dict remote_query;
  existing_dashboards : dict remote_dashboard;
  requests : list request;
  log : list log_record
}.

Definition send (r : request) (st : state) : state :=
  {| saved_queries := saved_queries st;
     existing_queries := existing_queries st;
     existing_dashboards := existing_dashboards st;
     requests := requests st ++ [r];
     log := log st |}.

Definition logging (l : list log_record) (st : state) : state :=
  {| saved_queries := saved_queries st;
     existing_queries := existing_queries st;
     existing_dashboards := existing_dashboards st;
     requests := requests st;
     log := log st ++ l |}.

Definition set_saved (d : dict saved_query) (st : state) : state :=
  {| saved_queries := d;
     existing_queries := existing_queries st;
     existing_dashboards := existing_dashboards st;
     requests := requests st;
     log := log st |}.

Definition set_existing_queries (d : dict remote_query) (st : state) : state :=
  {| saved_queries := saved_queries st;
     existing_queries := d;
     existing_dashboards := existing_dashboards st;
     requests := requests st;
     log := log st |}.

Definition set_existing_dashboards (d : dict remote_dashboard) (st : state) : state :=
  {| saved_queries := saved_queries st;
     existing_queries := existing_queries st;
     existing_dashboards := d;
     requests := requests st;
     log := log st |}.

(** [saved_queries[name]], as it is now. *)
Definition parameters_of (q : saved_query) : list parameter :=
  match q_parameters q with Some ps => ps | None => [] end.

Definition the_parameters (st : state) (query_name : string) : list parameter :=
  match dict_get query_name (saved_queries st) with
  | Some q => parameters_of q
  | None => []
  end.

Fixpoint set_nth {A} (i : nat) (x : A) (l : list A) : list A :=
  match l, i with
  | [], _ => []
  | _ :: l', O => x :: l'
  | y :: l', S i' => y :: set_nth i' x l'
  end.

(** The parameter at index [i] of the saved query becomes [p]: a
    change in place of the object the loop holds. *)
Definition set_parameter (query_name : string) (i : nat) (p : parameter)
    (st : state) : state :=
  match dict_get query_name (saved_queries st) with
  | Some q =>
      set_saved
        (dict_set query_name
           {| q_parameters :=
                match q_parameters q with
                | Some ps => Some (set_nth i p ps)
                | None => None
                end;
              q_visualizations := q_visualizations q;
              q_uploaded_id := q_uploaded_id q |}
           (saved_queries st)) st
  | None => st
  end.

Section Server.

(** The answers of the server, which may depend on all it was sent
    before: the query a creation returns, the id of the
    visualization an update or a creation returns, the dashboard a
    creation returns. *)
Variable created_query : list request -> string -> saved_query -> remote_query.
Variable updated_visualization : list request -> Z -> visualization -> Z.
Variable created_visualization : list request -> visualization -> Z.
Variable created_dashboard : list request -> string -> remote_dashboard.

(** Lines 120-127.  A list is iterated by index; the parameter is
    read from the store at each step and changed there after the
    recursive call has returned. *)
Fixpoint resolve_parameters (upload : string -> state -> result (Z * state))
    (query_name : string) (indices : list nat) (st : state) : result state :=
  match indices with
  | [] => Ok st
  | i :: indices' =>
      match nth_error (the_parameters st query_name) i with
      | None => Ok st
      | Some param =>
          if String.eqb (p_type param) "query" then
            queryName <- item "queryName" (p_queryName param) ;;
            '(queryId, st1) <- upload queryName st ;;
            match nth_error (the_parameters st1 query_name) i with
            | None => resolve_parameters upload query_name indices' st1
            | Some param1 =>
                _ <- item "queryName" (p_queryName param1) ;;
                resolve_parameters upload query_name indices'
                  (set_parameter query_name i
                     {| p_name := p_name param1;
                        p_type := p_type param1;
                        p_queryName := None;
                        p_queryId := Some queryId |} st1)
            end
          else resolve_parameters upload query_name indices' st
      end
  end.

(** Lines 151-154, the body of the loop over the columns. *)
Definition fix_column (dashboards : dict remote_dashboard) (c : column)
    : result (column * list log_record) :=
  match c_displayAs c with
  | Some displayAs =>
      if String.eqb displayAs "link" then
        url <- item "linkUrlTemplate" (c_linkUrlTemplate c) ;;
        let (url', l) := fix_dashboard_url_id url dashboards in
        Ok ({| c_name := c_name c;
               c_displayAs := c_displayAs c;
               c_linkUrlTemplate := Some url' |}, l)
      else Ok (c, [])
  | None => Ok (c, [])
  end.

Fixpoint fix_columns (dashboards : dict remote_dashboard) (cs : list column)
    : result (list column * list log_record) :=
  match cs with
  | [] => Ok ([], [])
  | c :: cs' =>
      '(c', l) <- fix_column dashboards c ;;
      '(cs'', l') <- fix_columns dashboards cs' ;;
      Ok (c' :: cs'', l ++ l')
  end.

(** Lines 145-147: later visualizations of a name replace earlier
    ones. *)
Definition by_name (vs : list remote_visualization) : dict remote_visualization :=
  fold_left (fun d viz => dict_set (rv_name viz) viz d) vs [].

(** Lines 149-169, the body of the loop over the visualizations:
    the visualization as it is left, what was sent and logged. *)
Definition upload_visualization (dashboards : dict remote_dashboard)
    (existing_visualisations : dict remote_visualization) (query_id : Z)
    (sent : list request) (viz : visualization)
    : result (visualization * request * list log_record) :=
  '(columns, l) <- match v_columns viz with
                   | Some cs =>
                       '(cs', l) <- fix_columns dashboards cs ;;
                       Ok (Some cs', l)
                   | None => Ok (None, [])
                   end ;;
  let viz1 := {| v_name := v_name viz;
                 v_columns := columns;
                 v_query_id := Some query_id;
                 v_uploaded_id := v_uploaded_id viz |} in
  let (r, id) :=
    match dict_get (v_name viz) existing_visualisations with
    | Some existing =>
        (UpdateVisualization (rv_id existing) viz1,
         updated_visualization sent (rv_id existing) viz1)
    | None =>
        (CreateVisualization viz1, created_visualization sent viz1)
    end in
  Ok ({| v_name := v_name viz1;
         v_columns := v_columns viz1;
         v_query_id := v_query_id viz1;
         v_uploaded_id := Some id |}, r, l).

(** Lines 148-170. *)
Fixpoint upload_visualizations (dashboards : dict remote_dashboard)
    (existing_visualisations : dict remote_visualization) (query_id : Z)
    (sent : list request) (logged : list log_record) (vs : list visualization)
    : result (list visualization * list request * list log_record) :=
  match vs with
  | [] => Ok ([], sent, logged)
  | viz :: vs' =>
      '(viz', r, l) <- upload_visualization dashboards existing_visualisations
                         query_id sent viz ;;
      '(vs'', sent', logged') <-
         upload_visualizations dashboards existing_visualisations query_id
           (sent ++ [r]) (logged ++ l) vs' ;;
      Ok (viz' :: vs'', sent', logged')
  end.

(** [saved_queries[query_name]] as it is now; [query_data] is the
    same object. *)
Definition current (st : state) (query_name : string) (query_data : saved_query)
    : saved_query :=
  match dict_get query_name (saved_queries st) with
  | Some q => q
  | None => query_data
  end.

(** Lines 129-134. *)
Definition create_if_missing (query_name : string) (query_data : saved_query)
    (st : state) : state :=
  if dict_in query_name (existing_queries st) then st
  else
    let data := current st query_name query_data in
    let new_query := created_query (requests st) query_name data in
    set_existing_queries
      (dict_set query_name new_query (existing_queries st))
      (send (CreateQuery query_name data) st).

(** Lines 136-172. *)
Definition update_and_visualize (query_name : string) (query_data : saved_query)
    (st : state) : result (Z * state) :=
  remote <- item query_name (dict_get query_name (existing_queries st)) ;;
  let query_id := rq_id remote in
  let data := current st query_name query_data in
  let st1 := send (UpdateQuery query_name query_id data) st in
  '(vs, sent, logged) <-
     upload_visualizations (existing_dashboards st1)
       (by_name (rq_visualizations remote)) query_id
       (requests st1) (log st1) (q_visualizations data) ;;
  Ok (query_id,
      {| saved_queries :=
           dict_set query_name
             {| q_parameters := q_parameters data;
                q_visualizations := vs;
                q_uploaded_id := Some query_id |}
             (saved_queries st1);
         existing_queries := existing_queries st1;
         existing_dashboards := existing_dashboards st1;
         requests := sent;
         log := logged |}).

(** Lines 89-172.  [fuel] bounds the depth of the recursion. *)
Fixpoint upload_query (fuel : nat) (query_name : string) (st : state)
    : result (Z * state) :=
  match fuel with
  | O => OutOfFuel
  | S fuel' =>
      query_data <- item query_name (dict_get query_name (saved_queries st)) ;;
      match q_uploaded_id query_data with
      | Some uploaded_id => Ok (uploaded_id, st)
      | None =>
          st1 <- match q_parameters query_data with
                 | Some ps =>
                     resolve_parameters (upload_query fuel') query_name
                       (seq 0 (length ps)) st
                 | None => Ok st
                 end ;;
          update_and_visualize query_name query_data
            (create_if_missing query_name query_data st1)
      end
  end.

(** Lines 215-217. *)
Fixpoint upload_each (fuel : nat) (names : list string) (st : state)
    : result state :=
  match names with
  | [] => Ok st
  | query_name :: names' =>
      '(_, st1) <- upload_query fuel query_name st ;;
      upload_each fuel names' st1
  end.

Definition upload_queries (fuel : nat) (st : state) : result state :=
  upload_each fuel (dict_keys (saved_queries st)) st.

(** Lines 278-291. *)
Fixpoint create_missing_dashboards (saved_dashboards : dict saved_dashboard)
    (st : state) : result state :=
  match saved_dashboards with
  | [] => Ok st
  | (name, saved) :: rest =>
      let st1 :=
        if dict_in name (existing_dashboards st) then st
        else
          set_existing_dashboards
            (dict_set name (created_dashboard (requests st) name)
               (existing_dashboards st))
            (send (CreateDashboard name) st) in
      dashboard <- item name (dict_get name (existing_dashboards st1)) ;;
      create_missing_dashboards rest
        (send (UpdateDashboard (d_id dashboard) (sd_is_draft saved)
                 (sd_tags saved) (sd_dashboard_filters_enabled saved)) st1)
  end.

(** Lines 311-313, the body of the loop: the line printed reads the
    visualization of the widget. *)
Definition remove_widget (st : state) (w : remote_widget) : result state :=
  _ <- item "visualization" (rw_visualization w) ;;
  Ok (send (DeleteWidget (rw_id w)) st).

Fixpoint remove_widgets (ws : list remote_widget) (st : state) : result state :=
  match ws with
  | [] => Ok st
  | w :: ws' => st1 <- remove_widget st w ;; remove_widgets ws' st1
  end.

(** Lines 316-332, the body of the loop over the saved widgets.
    [error] is the flag of line 307. *)
Definition add_widget (dashboard : remote_dashboard) (w : saved_widget)
    (acc : bool * state) : result (bool * state) :=
  let (error, st) := acc in
  '(visualisationName, queryName) <- item "visualization" (w_visualization w) ;;
  query <- item queryName (dict_get queryName (saved_queries st)) ;;
  match find (fun i => String.eqb (v_name i) visualisationName)
             (q_visualizations query) with
  | None =>
      Ok (true,
          logging (ErrVisualisation visualisationName queryName
                   :: (if String.eqb visualisationName "Table"
                       then [ErrTableNote] else [])) st)
  | Some visualization =>
      uploaded_id <- item "uploaded_id" (v_uploaded_id visualization) ;;
      Ok (error,
          send (CreateWidget (d_id dashboard) uploaded_id (w_text w)
                  (w_options w)) st)
  end.

Fixpoint add_widgets (dashboard : remote_dashboard) (ws : list saved_widget)
    (acc : bool * state) : result (bool * state) :=
  match ws with
  | [] => Ok acc
  | w :: ws' => acc1 <- add_widget dashboard w acc ;; add_widgets dashboard ws' acc1
  end.

(** Lines 309-332, the body of the loop over the saved dashboards. *)
Definition update_dashboard (name : string) (saved : saved_dashboard)
    (acc : bool * state) : result (bool * state) :=
  let (error, st) := acc in
  dashboard <- item name (dict_get name (existing_dashboards st)) ;;
  st1 <- match d_widgets dashboard with
         | Some (w :: ws) => remove_widgets (w :: ws) st
         | _ => Ok st
         end ;;
  add_widgets dashboard (sd_widgets saved) (error, st1).

Fixpoint update_each (saved_dashboards : dict saved_dashboard)
    (acc : bool * state) : result (bool * state) :=
  match saved_dashboards with
  | [] => Ok acc
  | (name, saved) :: rest =>
      acc1 <- update_dashboard name saved acc ;; update_each rest acc1
  end.

(** Lines 294-338. *)
Definition update_dashboards (saved_dashboards : dict saved_dashboard)
    (st : state) : result (Z * state) :=
  '(error, st1) <- update_each saved_dashboards (false, st) ;;
  if (error : bool) then Ok (1%Z, logging [InfoLoadedWithErrors] st1)
  else Ok (0%Z, logging [InfoLoaded] st1).

(** Lines 233-246; a data source is its name and its type. *)
Definition find_data_source (datasources : dict string)
    (datasource_name : option string) : result (string * string) :=
  match datasource_name with
  | Some name =>
      if String.eqb name "" then
        match datasources with
        | [d] => Ok d
        | _ => Raise RuntimeError
        end
      else
        type <- item name (dict_get name datasources) ;; Ok (name, type)
  | None =>
      match datasources with
      | [d] => Ok d
      | _ => Raise RuntimeError
      end
  end.

(** Lines 386-412, from the data read from the server and from the
    disk: [Ok n] is [exit(n)], [Raise] an exception nothing
    catches. *)
Definition push (fuel : nat) (datasources : dict string)
    (datasource_name : option string)
    (existing_dashboards0 : dict remote_dashboard)
    (saved_dashboards : dict saved_dashboard)
    (existing_queries0 : dict remote_query)
    (saved_queries0 : dict saved_query) : result (Z * state) :=
  let st0 := {| saved_queries := saved_queries0;
                existing_queries := existing_queries0;
                existing_dashboards := existing_dashboards0;
                requests := [];
                log := [] |} in
  match find_data_source datasources datasource_name with
  | Raise RuntimeError => Ok (1%Z, st0)
  | Raise e => Raise e
  | OutOfFuel => OutOfFuel
  | Ok _ =>
      st1 <- create_missing_dashboards saved_dashboards st0 ;;
      st2 <- upload_queries fuel st1 ;;
      update_dashboards saved_dashboards st2
  end.

End Server.

End Push.

(* ================================================================= *)
(** ** The files of a query (fetch.py lines 86-96, push.py lines 180-182) *)

Module Files.

Definition METAFILE_SUFFIX : string := ".meta.yaml".

(** [s.endswith(suffix)]. *)
Fixpoint endswith (s suffix : string) : bool :=
  if String.eqb s suffix then true
  else match s with
       | EmptyString => false
       | String _ s' => endswith s' suffix
       end.

Definition LF : string := String Re.newline EmptyString.

(** fetch.py lines 87-89: what is written to the file of the query,
    from [query["query"]]. *)
Definition query_text (query : string) : string :=
  if endswith query LF then query else (query ++ LF)%string.

(** [s[:-n]], for [n] above 0. *)
Definition without_last (n : nat) (s : string) : string :=
  substring 0 (String.length s - n) s.

(** push.py lines 180-182: the names of the query files, from the
    names [os.listdir] gives. *)
Definition query_filenames (listing : list string) : list string :=
  map (without_last (String.length METAFILE_SUFFIX))
      (filter (fun i => endswith i METAFILE_SUFFIX) listing).

End Files.


(* ================================================================= *)
(** * Properties *)

(** ** Dicts *)

Section DictFacts.
Context {V : Type}.
Implicit Types (d : dict V) (k : string) (v : V).

Lemma dict_get_set_same k v d : dict_get k (dict_set k v d) = Some v.
Proof.
  induction d as [|[k' v'] d IH]; simpl.
  - now rewrite String.eqb_refl.
  - destruct (String.eqb k k') eqn:E; simpl; rewrite E; auto.
Qed.

Lemma dict_get_set_other k k' v d :
  k <> k' -> dict_get k (dict_set k' v d) = dict_get k d.
Proof.
  intros Hne. induction d as [|[k'' v''] d IH]; simpl.
  - apply String.eqb_neq in Hne. now rewrite Hne.
  - destruct (String.eqb k' k'') eqn:E; simpl.
    + apply String.eqb_eq in E. subst k''.
      apply String.eqb_neq in Hne. now rewrite Hne.
    + now rewrite IH.
Qed.

Lemma dict_get_del_same k d : dict_get k (dict_del k d) = None.
Proof.
  unfold dict_del. induction d as [|[k' v'] d IH]; simpl; auto.
  destruct (String.eqb k k') eqn:E; simpl; auto. now rewrite E.
Qed.

Lemma dict_get_del_other k k' d :
  k <> k' -> dict_get k (dict_del k' d) = dict_get k d.
Proof.
  intros Hne. unfold dict_del. induction d as [|[k'' v''] d IH]; simpl; auto.
  destruct (String.eqb k' k'') eqn:E; simpl.
  - apply String.eqb_eq in E. subst k''.
    apply String.eqb_neq in Hne. now rewrite Hne.
  - now rewrite IH.
Qed.

Lemma dict_get_In k v d : dict_get k d = Some v -> In (k, v) d.
Proof.
  induction d as [|[k' v'] d IH]; simpl; [discriminate|].
  destruct (String.eqb k k') eqn:E.
  - apply String.eqb_eq in E. intros [= ->]. subst. now left.
  - intros H. right. auto.
Qed.

Lemma dict_in_keys k d : dict_in k d = true <-> In k (dict_keys d).
Proof.
  unfold dict_in, dict_keys. induction d as [|[k' v'] d IH]; simpl.
  - split; [discriminate|intros []].
  - destruct (String.eqb k k') eqn:E.
    + apply String.eqb_eq in E. subst. split; auto.
    + apply String.eqb_neq in E. rewrite IH. split; auto.
      intros [H|H]; congruence.
Qed.

(** Assignment keeps the keys that were there in their place. *)
Lemma dict_keys_set k v d :
  dict_keys (dict_set k v d)
  = if dict_in k d then dict_keys d else dict_keys d ++ [k].
Proof.
  unfold dict_in, dict_keys. induction d as [|[k' v'] d IH]; simpl; auto.
  destruct (String.eqb k k') eqn:E; simpl; auto.
  rewrite IH. now destruct (dict_get k d).
Qed.
End DictFacts.

(** ** The matcher on strings built by concatenation *)

Module ReFacts.
Import Re.

Fixpoint all_in (cs : cset) (s : string) : bool :=
  match s with
  | EmptyString => true
  | String c s' => in_cset cs c && all_in cs s'
  end.

(** [cs+] cannot go on into [tail]. *)
Definition stops (cs : cset) (tail : string) : bool :=
  match tail with
  | EmptyString => true
  | String c _ => negb (in_cset cs c)
  end.

Lemma append_nil_r (s : string) : (s ++ "")%string = s.
Proof. induction s; simpl; congruence. Qed.

Lemma strip_prefix_app (p s : string) : strip_prefix p (p ++ s) = Some s.
Proof.
  induction p as [|a p IH]; simpl; [reflexivity|].
  now rewrite Ascii.eqb_refl.
Qed.

Lemma plus_class_stops {A} cs tail (k : string -> string -> option A) :
  stops cs tail = true -> plus_class cs tail k = None.
Proof.
  destruct tail as [|c tail]; simpl; [reflexivity|].
  intros H. apply negb_true_iff in H. now rewrite H.
Qed.

(** The greedy run: when the continuation accepts the longest run,
    that is the match. *)
Lemma plus_class_run {A} cs run tail (k : string -> string -> option A) x :
  run <> "" -> all_in cs run = true -> stops cs tail = true ->
  k run tail = Some x ->
  plus_class cs (run ++ tail) k = Some x.
Proof.
  revert k. induction run as [|c run IH]; intros k Hne Hall Hstop Hk.
  - congruence.
  - simpl in *. apply andb_true_iff in Hall as [Hc Hall]. rewrite Hc.
    destruct run as [|c' run'].
    + simpl. rewrite (plus_class_stops _ _ _ Hstop). exact Hk.
    + rewrite (IH (fun t r => k (String c t) r)); auto. discriminate.
Qed.

Lemma plus_class_all {A} cs run (k : string -> string -> option A) x :
  run <> "" -> all_in cs run = true ->
  k run "" = Some x ->
  plus_class cs run k = Some x.
Proof.
  intros Hne Hall Hk.
  rewrite <- (append_nil_r run) at 1. now apply plus_class_run.
Qed.

Lemma search_from_hit r pos rest m :
  match_at r pos rest = Some m -> search_from r pos rest = Some m.
Proof. intros H. destruct rest; simpl; rewrite H; reflexivity. Qed.

(** A query string: nothing, or [?] and at least one character, none
    of them a newline. *)
Definition query_string (q : string) : bool :=
  match q with
  | EmptyString => true
  | String c q' =>
      Ascii.eqb c "?" && negb (String.eqb q' "") && all_in Dot q'
  end.

Lemma query_string_stops q : query_string q = true -> stops slug_char q = true.
Proof.
  destruct q as [|c q]; simpl; [reflexivity|].
  intros H. apply andb_true_iff in H as [H _]. apply andb_true_iff in H as [H _].
  apply Ascii.eqb_eq in H. subst c. reflexivity.
Qed.

End ReFacts.

Import ReFacts.

(** A dashboard link: [/dashboards/<digits>-<slug><query>]. *)
Definition dashboard_link (digits slug query : string) : string :=
  ("/dashboards/" ++ digits ++ "-" ++ slug ++ query)%string.

Definition link_parts (digits slug query : string) : Prop :=
  digits <> "" /\ all_in Re.digit digits = true /\
  slug <> "" /\ all_in Re.slug_char slug = true /\
  query_string query = true.

Lemma push_link_search digits slug query :
  link_parts digits slug query ->
  exists m, Re.search push_link_re (dashboard_link digits slug query) = Some m
            /\ group_text 2 m = slug /\ group_text 3 m = query.
Proof.
  intros (Hd & Hda & Hs & Hsa & Hq).
  unfold Re.search, dashboard_link.
  assert (Hstop : stops Re.digit ("-" ++ slug ++ query)%string = true) by reflexivity.
  pose (fin := fun (t rest : string) (g : Re.captures) =>
                 Some {| Re.m_text := t; Re.m_rest := rest; Re.m_groups := g |}).
  assert (Hm : exists m, Re.match_at push_link_re 0
                 ("/dashboards/" ++ digits ++ "-" ++ slug ++ query)%string = Some m
               /\ group_text 2 m = slug /\ group_text 3 m = query).
  { unfold Re.match_at, push_link_re. cbn [Re.exec Nat.eqb].
    change ("/dashboards/" ++ digits ++ "-" ++ slug ++ query)%string
      with ("/dashboards/" ++ (digits ++ "-" ++ slug ++ query))%string.
    rewrite strip_prefix_app.
    destruct query as [|c q].
    - eexists. split.
      + eapply plus_class_run; eauto. simpl.
        eapply plus_class_run; eauto. reflexivity.
      + split; reflexivity.
    - simpl in Hq. apply andb_true_iff in Hq as [Hq Hqa].
      apply andb_true_iff in Hq as [Hc Hqne]. apply Ascii.eqb_eq in Hc. subst c.
      apply negb_true_iff in Hqne. apply String.eqb_neq in Hqne.
      eexists. split.
      + eapply plus_class_run; eauto. simpl.
        eapply plus_class_run; eauto.
        simpl. erewrite plus_class_all;
          [reflexivity | assumption | assumption | reflexivity].
      + split; reflexivity. }
  destruct Hm as (m & Hm & H2 & H3). exists m. split; auto.
  now apply search_from_hit.
Qed.

(** ** C6: the id of a link is looked up by slug on push *)

Lemma filter_nil_iff {A} (f : A -> bool) (l : list A) :
  filter f l = [] <-> forall x, In x l -> f x = false.
Proof.
  induction l as [|a l IH]; simpl.
  - split; [intros _ x []|reflexivity].
  - destruct (f a) eqn:E; split.
    + discriminate.
    + intros H. specialize (H a (or_introl eq_refl)). congruence.
    + intros H x [<-|Hx]; [assumption|now apply IH].
    + intros H. apply IH. intros x Hx. apply H. now right.
Qed.

Lemma filter_head_in {A} (f : A -> bool) (l : list A) x rest :
  filter f l = x :: rest -> In x l /\ f x = true.
Proof.
  intros H. assert (Hin : In x (filter f l)) by (rewrite H; now left).
  now apply filter_In in Hin.
Qed.

(** C6.  For a link [/dashboards/<digits>-<slug><query>], where the
    query string is empty or [?] followed by at least one character:
    when some dashboard of the server has the slug of the link,
    [fix_dashboard_url_id] returns the link with the id of such a
    dashboard in place of the digits and logs nothing; when none has,
    it returns the link as it is and logs one error.  It is a total
    function: nothing is raised. *)
Theorem fix_dashboard_url_id_by_slug (digits slug query : string)
    (existing_dashboards : dict remote_dashboard) :
  link_parts digits slug query ->
  ((exists d, In d (dict_values existing_dashboards) /\ d_slug d = slug) ->
   exists d, In d (dict_values existing_dashboards) /\ d_slug d = slug /\
     fix_dashboard_url_id (dashboard_link digits slug query) existing_dashboards
     = (dashboard_link (str_of_int (d_id d)) slug query, []))
  /\
  ((forall d, In d (dict_values existing_dashboards) -> d_slug d <> slug) ->
   fix_dashboard_url_id (dashboard_link digits slug query) existing_dashboards
   = (dashboard_link digits slug query, [ErrDashboardSlug slug])).
Proof.
  intros Hparts.
  destruct (push_link_search digits slug query Hparts) as (m & Hm & H2 & H3).
  unfold fix_dashboard_url_id. rewrite Hm, H2, H3.
  split.
  - intros (d & Hin & Hslug).
    destruct (filter (fun d0 => String.eqb (d_slug d0) slug)
                     (dict_values existing_dashboards)) as [|d1 rest] eqn:E.
    + apply filter_nil_iff with (x := d) in E; auto.
      apply String.eqb_neq in E. contradiction.
    + apply filter_head_in in E as [Hin1 Hs1]. apply String.eqb_eq in Hs1.
      exists d1. repeat split; auto.
  - intros Hnone.
    destruct (filter (fun d0 => String.eqb (d_slug d0) slug)
                     (dict_values existing_dashboards)) as [|d1 rest] eqn:E.
    + reflexivity.
    + apply filter_head_in in E as [Hin1 Hs1]. apply String.eqb_eq in Hs1.
      now apply Hnone in Hin1.
Qed.

Definition two_dashboards : dict remote_dashboard :=
  [("Overview", {| d_id := 5; d_slug := "overview"; d_widgets := None |});
   ("Class summary", {| d_id := 7; d_slug := "class-summary"; d_widgets := None |})].

Lemma link_parts_example : link_parts "0" "class-summary" "?p_class=1".
Proof. repeat split; discriminate. Defined.

Lemma fix_dashboard_url_id_by_slug_witness :
  link_parts "0" "class-summary" "?p_class=1" /\
  ((exists d, In d (dict_values two_dashboards) /\ d_slug d = "class-summary") ->
   exists d, In d (dict_values two_dashboards) /\ d_slug d = "class-summary" /\
     fix_dashboard_url_id (dashboard_link "0" "class-summary" "?p_class=1")
       two_dashboards
     = (dashboard_link (str_of_int (d_id d)) "class-summary" "?p_class=1", []))
  /\
  ((forall d, In d (dict_values two_dashboards) -> d_slug d <> "class-summary") ->
   fix_dashboard_url_id (dashboard_link "0" "class-summary" "?p_class=1")
     two_dashboards
   = (dashboard_link "0" "class-summary" "?p_class=1",
      [ErrDashboardSlug "class-summary"])).
Proof.
  split.
  - exact link_parts_example.
  - exact (fix_dashboard_url_id_by_slug "0" "class-summary" "?p_class=1"
             two_dashboards link_parts_example).
Defined.

Example fix_dashboard_url_id_found :
  fix_dashboard_url_id "/dashboards/0-class-summary?p_class=1" two_dashboards
  = ("/dashboards/7-class-summary?p_class=1", []).
Proof. reflexivity. Qed.

Example fix_dashboard_url_id_not_found :
  fix_dashboard_url_id "/dashboards/0-team-summary" two_dashboards
  = ("/dashboards/0-team-summary", [ErrDashboardSlug "team-summary"]).
Proof. reflexivity. Qed.

(** ** C5: the id of a link is replaced by 0 on fetch *)

(** With a query string the digits become [0], the rest is kept. *)
Lemma anonymise_link_with_query (digits slug q : string) :
  link_parts digits slug (String "?" q) ->
  anonymise_link (dashboard_link digits slug (String "?" q))
  = dashboard_link "0" slug (String "?" q).
Proof.
  intros (Hd & Hda & Hs & Hsa & Hq).
  simpl in Hq. apply andb_true_iff in Hq as [Hqne Hqa].
  apply negb_true_iff in Hqne. apply String.eqb_neq in Hqne.
  unfold anonymise_link, Re.sub, dashboard_link.
  cbn [Re.sub_from].
  assert (Hstop : stops Re.digit ("-" ++ slug ++ String "?" q)%string = true)
    by reflexivity.
  assert (Hm : Re.match_at fetch_link_re 0
                 ("/dashboards/" ++ digits ++ "-" ++ slug ++ String "?" q)%string
               = Some {| Re.m_text :=
                           ("/dashboards/" ++ digits ++ "-" ++ slug ++ String "?" q)%string;
                         Re.m_rest := "";
                         Re.m_groups :=
                           [(2, ("-" ++ slug ++ String "?" q)%string);
                            (1, "/dashboards/")] |}).
  { unfold Re.match_at, fetch_link_re. cbn [Re.exec Nat.eqb].
    change ("/dashboards/" ++ digits ++ "-" ++ slug ++ String "?" q)%string
      with ("/dashboards/" ++ (digits ++ "-" ++ slug ++ String "?" q))%string.
    rewrite strip_prefix_app.
    eapply plus_class_run; eauto. simpl.
    erewrite plus_class_run; [reflexivity | assumption | assumption | reflexivity |].
    simpl. erewrite plus_class_all; [reflexivity | assumption | assumption | reflexivity]. }
  rewrite Hm. simpl. now rewrite !append_nil_r.
Qed.

Lemma all_in_app cs a b :
  all_in cs (a ++ b) = all_in cs a && all_in cs b.
Proof.
  induction a as [|c a IH]; simpl; auto. now rewrite IH, andb_assoc.
Qed.

(** A run of [cs+] that fails whatever it takes. *)
Lemma plus_class_none {A} cs s (k : string -> string -> option A) :
  (forall t r, t <> "" -> all_in cs t = true -> (t ++ r)%string = s ->
               k t r = None) ->
  Re.plus_class cs s k = None.
Proof.
  revert k. induction s as [|c s IH]; intros k Hk; simpl; auto.
  destruct (Re.in_cset cs c) eqn:Ec; auto.
  rewrite IH.
  - apply Hk; simpl; auto; [discriminate|now rewrite Ec].
  - intros t r Hne Hall E. apply Hk; simpl; [discriminate| |congruence].
    now rewrite Ec.
Qed.

(** Where a run of [cs] ends in a string that goes on with [c]. *)
Lemma split_run cs t r run c tail :
  all_in cs t = true -> Re.in_cset cs c = false ->
  (t ++ r)%string = (run ++ String c tail)%string ->
  exists run', r = (run' ++ String c tail)%string /\ run = (t ++ run')%string.
Proof.
  revert run. induction t as [|a t IH]; intros run Hall Hc E; simpl in *.
  - now exists run.
  - apply andb_true_iff in Hall as [Ha Hall].
    destruct run as [|b run]; simpl in E.
    + injection E as -> _. congruence.
    + injection E as -> E. destruct (IH run Hall Hc E) as (run' & -> & ->).
      now exists run'.
Qed.

Lemma all_in_no_prefix cs s c p :
  all_in cs s = true -> Re.in_cset cs c = false ->
  Re.strip_prefix (String c p) s = None.
Proof.
  destruct s as [|a s]; simpl; auto. intros H Hc.
  apply andb_true_iff in H as [Ha _].
  destruct (Ascii.eqb_spec c a) as [->|]; [congruence|reflexivity].
Qed.

Lemma fetch_link_re_anchored pos rest :
  pos <> 0 -> Re.match_at fetch_link_re pos rest = None.
Proof.
  intros H. unfold Re.match_at, fetch_link_re. cbn [Re.exec].
  apply Nat.eqb_neq in H. now rewrite H.
Qed.

Lemma sub_from_anchored fuel : forall pos rest,
  pos <> 0 -> Re.sub_from fuel fetch_link_re fetch_link_tpl pos rest = rest.
Proof.
  induction fuel as [|fuel IH]; intros pos rest Hpos; cbn [Re.sub_from]; auto.
  rewrite fetch_link_re_anchored by assumption.
  destruct rest as [|c rest]; auto. now rewrite IH.
Qed.

(** Without a query string the pattern of fetch.py does not match. *)
Lemma fetch_link_re_needs_query digits slug :
  link_parts digits slug "" ->
  Re.match_at fetch_link_re 0 (dashboard_link digits slug "") = None.
Proof.
  intros (Hd & Hda & Hs & Hsa & _).
  unfold Re.match_at, fetch_link_re, dashboard_link. cbn [Re.exec Nat.eqb].
  change ("/dashboards/" ++ digits ++ "-" ++ slug ++ "")%string
    with ("/dashboards/" ++ (digits ++ String "-" (slug ++ "")))%string.
  rewrite strip_prefix_app, append_nil_r.
  apply plus_class_none. intros t r Hne Hall E.
  destruct (split_run Re.digit t r digits "-" slug Hall eq_refl E)
    as (ds & -> & Hdigits).
  assert (Hds : all_in Re.digit ds = true).
  { rewrite Hdigits, all_in_app in Hda. now apply andb_true_iff in Hda. }
  assert (Hend : Re.at_end (ds ++ String "-" slug) = false).
  { destruct ds as [|a [|b ds]]; simpl.
    - destruct slug; [congruence|reflexivity].
    - reflexivity.
    - reflexivity. }
  rewrite Hend.
  destruct ds as [|a ds].
  - cbn [append]. change (String "-" slug) with ("-" ++ slug)%string.
    rewrite strip_prefix_app. rewrite plus_class_none; auto.
    intros t2 r2 _ Ht2 E2. cbv beta.
    assert (Hr2 : all_in Re.slug_char r2 = true).
    { rewrite <- E2, all_in_app in Hsa. now apply andb_true_iff in Hsa. }
    now rewrite (all_in_no_prefix Re.slug_char r2 "?" "" Hr2 eq_refl).
  - simpl in Hds. apply andb_true_iff in Hds as [Ha _].
    cbn [append Re.strip_prefix].
    destruct (Ascii.eqb_spec "-" a) as [<-|_]; [discriminate Ha|reflexivity].
Qed.

(** C5.  What the code does: a link [/dashboards/<digits>-<slug>]
    without a query string is written as it is, with its id, where the
    claim has the id replaced by 0; so at the failing input.  With a
    query string the id is replaced; and [/dashboards/3], which is not
    of the form, is changed. *)
Theorem anonymise_link_without_query_keeps_id :
  (forall digits slug,
     link_parts digits slug "" ->
     anonymise_link (dashboard_link digits slug "") = dashboard_link digits slug "")
  /\ anonymise_link "/dashboards/3-class-summary" = "/dashboards/3-class-summary"
  /\ anonymise_link "/dashboards/3-class-summary?p_class=1"
     = "/dashboards/0-class-summary?p_class=1"
  /\ anonymise_link "/dashboards/3" = "/dashboards/0".
Proof.
  split; [|repeat split].
  intros digits slug Hparts. unfold anonymise_link, Re.sub.
  cbn [Re.sub_from]. rewrite (fetch_link_re_needs_query digits slug Hparts).
  unfold dashboard_link. cbn [append].
  now rewrite sub_from_anchored by discriminate.
Qed.

Lemma anonymise_link_without_query_keeps_id_witness :
  link_parts "3" "class-summary" ""
  /\ anonymise_link (dashboard_link "3" "class-summary" "")
     = dashboard_link "3" "class-summary" "".
Proof.
  assert (H : link_parts "3" "class-summary" "") by (repeat split; discriminate).
  split; [exact H|].
  exact (proj1 anonymise_link_without_query_keeps_id "3" "class-summary" H).
Defined.

(** ** C8: merge on change *)

Module MergeFacts.
Import Fetch.

(** The fetched document has [field], with a value that is not [==]
    to the stored one ([None] when nothing is stored). *)
Definition differs (fetched stored : dict json) (field : string) : bool :=
  match dict_get field fetched with
  | Some v => negb (py_eq (py_get stored field) v)
  | None => false
  end.

Definition listed (fields : list string) (field : string) : bool :=
  existsb (String.eqb field) fields.

Lemma listed_In fields field : listed fields field = true <-> In field fields.
Proof.
  unfold listed. rewrite existsb_exists. split.
  - intros (x & Hx & E). apply String.eqb_eq in E. now subst.
  - intros H. exists field. split; auto. apply String.eqb_refl.
Qed.

(** What a merge of the [fields] of [fetched] into [stored] leaves:
    [written] are the fields that differ, in the order of [fields];
    they hold the fetched value; every other entry of the document is
    the stored one, and the stored keys keep their order. *)
Definition merge_spec (fields : list string) (fetched stored : dict json)
    (merged : dict json) (written : list string) : Prop :=
  written = filter (differs fetched stored) fields
  /\ (forall field, In field written <->
                    In field fields /\ differs fetched stored field = true)
  /\ (forall field, In field fields -> differs fetched stored field = true ->
                    dict_get field merged = dict_get field fetched)
  /\ (forall field, ~ (In field fields /\ differs fetched stored field = true) ->
                    dict_get field merged = dict_get field stored)
  /\ (exists added, dict_keys merged = dict_keys stored ++ added).

Lemma differs_set_other fetched stored f g v :
  g <> f -> differs fetched (dict_set f v stored) g = differs fetched stored g.
Proof.
  intros Hne. unfold differs, py_get. now rewrite dict_get_set_other.
Qed.

Lemma fold_store_field fields : NoDup fields ->
  forall fetched stored written m w,
  fold_left (store_field fetched) fields (stored, written) = (m, w) ->
  w = written ++ filter (differs fetched stored) fields
  /\ (forall f, dict_get f m =
                if listed fields f && differs fetched stored f
                then dict_get f fetched else dict_get f stored)
  /\ (exists added, dict_keys m = dict_keys stored ++ added).
Proof.
  induction 1 as [|f fields Hnin Hnd IH]; intros fetched stored written m w Hfold.
  - simpl in Hfold. injection Hfold as <- <-. rewrite app_nil_r.
    repeat split; auto. exists []. now rewrite app_nil_r.
  - cbn [fold_left] in Hfold.
    assert (Hstep : store_field fetched (stored, written) f
                    = (if differs fetched stored f
                       then match dict_get f fetched with
                            | Some v => dict_set f v stored
                            | None => stored
                            end
                       else stored,
                       if differs fetched stored f then written ++ [f] else written)).
    { unfold store_field, differs, py_get.
      destruct (dict_get f fetched) as [v|]; [|reflexivity].
      destruct (py_eq _ v); reflexivity. }
    rewrite Hstep in Hfold. apply IH in Hfold as (Hw & Hget & added & Hkeys).
    assert (Hrest : filter (differs fetched
               (if differs fetched stored f
                then match dict_get f fetched with
                     | Some v => dict_set f v stored
                     | None => stored
                     end
                else stored)) fields
             = filter (differs fetched stored) fields).
    { apply filter_ext_in. intros g Hg.
      assert (g <> f) by (intros ->; contradiction).
      destruct (differs fetched stored f); auto.
      destruct (dict_get f fetched); auto using differs_set_other. }
    split; [|split].
    + rewrite Hw, Hrest. simpl.
      destruct (differs fetched stored f); auto. now rewrite <- app_assoc.
    + intros g. rewrite Hget. unfold listed. simpl.
      destruct (String.eqb g f) eqn:E.
      * apply String.eqb_eq in E. subst g.
        assert (Hl : existsb (String.eqb f) fields = false).
        { destruct (existsb (String.eqb f) fields) eqn:El; auto.
          apply listed_In in El. contradiction. }
        rewrite Hl. simpl.
        destruct (differs fetched stored f) eqn:Ed; auto.
        unfold differs in Ed. destruct (dict_get f fetched); [|discriminate].
        apply dict_get_set_same.
      * apply String.eqb_neq in E. simpl.
        assert (Hd : differs fetched
                       (if differs fetched stored f
                        then match dict_get f fetched with
                             | Some v => dict_set f v stored
                             | None => stored
                             end
                        else stored) g = differs fetched stored g).
        { destruct (differs fetched stored f); auto.
          destruct (dict_get f fetched); auto using differs_set_other. }
        rewrite Hd.
        assert (Hg : dict_get g
                       (if differs fetched stored f
                        then match dict_get f fetched with
                             | Some v => dict_set f v stored
                             | None => stored
                             end
                        else stored) = dict_get g stored).
        { destruct (differs fetched stored f); auto.
          destruct (dict_get f fetched); auto using dict_get_set_other. }
        now rewrite Hg.
    + rewrite Hkeys.
      destruct (differs fetched stored f); [|now exists added].
      destruct (dict_get f fetched) as [v|]; [|now exists added].
      rewrite dict_keys_set. destruct (dict_in f stored); [now exists added|].
      exists ([f] ++ added). now rewrite app_assoc.
Qed.

Lemma fold_store_field_spec fields fetched stored m w :
  NoDup fields ->
  fold_left (store_field fetched) fields (stored, []) = (m, w) ->
  merge_spec fields fetched stored m w.
Proof.
  intros Hnd Hfold.
  apply fold_store_field in Hfold as (Hw & Hget & Hkeys); auto. simpl in Hw.
  unfold merge_spec. split; [assumption|]. split; [|split; [|split]].
  - intros f. rewrite Hw. apply filter_In.
  - intros f Hin Hd. rewrite Hget, Hd.
    apply listed_In in Hin. now rewrite Hin.
  - intros f Hnot. rewrite Hget.
    destruct (listed fields f) eqn:El; auto.
    destruct (differs fetched stored f) eqn:Ed; auto.
    apply listed_In in El. exfalso. auto.
  - assumption.
Qed.

(** With every field there, the loop of save_dashboards is the loop
    of save_queries. *)
Lemma fold_store_dashboard_field fields dashboard :
  (forall i, In i fields -> dict_in i dashboard = true) ->
  forall acc,
  fold_left (store_dashboard_field dashboard) fields (Ok acc)
  = Ok (fold_left (store_field dashboard) fields acc).
Proof.
  induction fields as [|i fields IH]; intros Hall acc; cbn [fold_left]; auto.
  assert (Hi : dict_in i dashboard = true) by (apply Hall; now left).
  assert (Hstep : store_dashboard_field dashboard (Ok acc) i
                  = Ok (store_field dashboard acc i)).
  { unfold store_dashboard_field, store_field, dict_in, py_get in *.
    destruct acc as [data written]. simpl.
    destruct (dict_get i dashboard) as [v|]; [|discriminate]. simpl.
    destruct (py_eq _ v); reflexivity. }
  rewrite Hstep. apply IH. intros j Hj. apply Hall. now right.
Qed.

Lemma QUERY_META_FIELDS_NoDup : NoDup QUERY_META_FIELDS.
Proof.
  unfold QUERY_META_FIELDS.
  repeat (constructor; [simpl; intuition discriminate|]). constructor.
Qed.

Lemma DASHBOARD_FIELDS_NoDup : NoDup DASHBOARD_FIELDS.
Proof.
  unfold DASHBOARD_FIELDS.
  repeat (constructor; [simpl; intuition discriminate|]). constructor.
Qed.

End MergeFacts.

Import MergeFacts.

(** C8.  Merging a fetched query into the stored metadata document
    assigns exactly the allow-listed fields the query has whose fetched
    value is not equal to the stored one; every other entry of the
    document, the allow-listed fields with an equal value among them,
    is the stored entry, and the stored keys keep their order.  The
    same holds of a dashboard, all of whose allow-listed fields are
    read (a dashboard the server returns has them). *)
Theorem merge_assigns_changed_fields_only
    (query metadata dashboard dashboard_data : dict json) :
  merge_spec Fetch.QUERY_META_FIELDS query metadata
    (fst (Fetch.store_fields query metadata))
    (snd (Fetch.store_fields query metadata))
  /\
  ((forall i, In i Fetch.DASHBOARD_FIELDS -> dict_in i dashboard = true) ->
   exists merged written,
     Fetch.store_dashboard_fields dashboard dashboard_data = Ok (merged, written)
     /\ merge_spec Fetch.DASHBOARD_FIELDS dashboard dashboard_data merged written).
Proof.
  split.
  - destruct (Fetch.store_fields query metadata) as [m w] eqn:E.
    apply fold_store_field_spec in E; auto using QUERY_META_FIELDS_NoDup.
  - intros Hall. unfold Fetch.store_dashboard_fields.
    rewrite fold_store_dashboard_field by assumption.
    destruct (fold_left (Fetch.store_field dashboard) Fetch.DASHBOARD_FIELDS
                (dashboard_data, [])) as [m w] eqn:E.
    exists m, w. split; auto.
    apply fold_store_field_spec in E; auto using DASHBOARD_FIELDS_NoDup.
Qed.

(** ** Python's equality on documents *)

Module EqFacts.

Lemma py_eq_str_r a s : py_eq a (JStr s) = true -> a = JStr s.
Proof.
  destruct a; simpl; try discriminate.
  intros H. apply String.eqb_eq in H. now subst.
Qed.

Lemma py_eq_str_l s b : py_eq (JStr s) b = true -> b = JStr s.
Proof.
  destruct b; simpl; try discriminate.
  intros H. apply String.eqb_eq in H. now subst.
Qed.

Lemma py_eq_list l1 b :
  py_eq (JList l1) b = true ->
  exists l2, b = JList l2 /\ Forall2 (fun x y => py_eq x y = true) l1 l2.
Proof.
  destruct b as [| | | |l2|]; simpl; try discriminate.
  intros H. exists l2. split; auto.
  revert l2 H. induction l1 as [|x l1 IH]; intros [|y l2] H;
    try discriminate; constructor.
  - now apply andb_true_iff in H.
  - apply IH. now apply andb_true_iff in H.
Qed.

(** Equal dicts have the same keys, with equal values. *)
Lemma py_eq_dict d1 b :
  py_eq (JDict d1) b = true ->
  exists d2, b = JDict d2
    /\ (forall k v, dict_get k d1 = Some v ->
                    exists w, dict_get k d2 = Some w /\ py_eq v w = true)
    /\ (forall k, dict_in k d1 = dict_in k d2).
Proof.
  destruct b as [| | | | |d2]; simpl; try discriminate.
  intros H. apply andb_true_iff in H as [H1 H2].
  exists d2. split; auto.
  assert (Hent : forall k v, In (k, v) d1 ->
            exists w, dict_get k d2 = Some w /\ py_eq v w = true).
  { clear H2. induction d1 as [|[k' v'] d1 IH]; intros k v Hin; [destruct Hin|].
    apply andb_true_iff in H1 as [Hh Ht].
    destruct Hin as [[= -> ->]|Hin]; [|now apply IH].
    destruct (dict_get k d2) as [w|]; [|discriminate]. now exists w. }
  split.
  - intros k v Hget. apply Hent. now apply dict_get_In.
  - intros k. destruct (dict_in k d1) eqn:E1; destruct (dict_in k d2) eqn:E2; auto.
    + unfold dict_in in E1, E2. destruct (dict_get k d1) as [v|] eqn:G; [|discriminate].
      apply dict_get_In, Hent in G as (w & Gw & _). now rewrite Gw in E2.
    + unfold dict_in in E2. destruct (dict_get k d2) as [w|] eqn:G; [|discriminate].
      apply dict_get_In in G. rewrite forallb_forall in H2.
      apply H2 in G. simpl in G. congruence.
Qed.

End EqFacts.

(** ** Query parameters on disk hold a name (C7, fetch.py) *)

Module ParameterFacts.
Import Fetch EqFacts.

Definition has_key (k : string) (p : json) : bool :=
  match p with JDict d => dict_in k d | _ => false end.

(** [param["type"] == "query"]. *)
Definition is_query_parameter (p : json) : bool :=
  match p with
  | JDict d => match dict_get "type" d with
               | Some t => py_eq t (JStr "query")
               | None => false
               end
  | _ => false
  end.

Definition by_name_only (p : json) : bool :=
  has_key "queryName" p && negb (has_key "queryId" p).

(** The list [options["parameters"]]. *)
Definition parameters_in (options : json) : list json :=
  match options with
  | JDict o => match dict_get "parameters" o with
               | Some (JList l) => l
               | _ => []
               end
  | _ => []
  end.

Definition name_references (options : json) : Prop :=
  forall p, In p (parameters_in options) ->
            is_query_parameter p = true -> by_name_only p = true.

Lemma rename_parameter_by_name queries p p' :
  rename_parameter queries p = Ok p' ->
  is_query_parameter p' = true -> by_name_only p' = true.
Proof.
  unfold rename_parameter. destruct p as [| | | | |d]; simpl; try discriminate.
  destruct (dict_get "type" d) as [t|] eqn:Et; simpl; [|discriminate].
  destruct (py_eq t (JStr "query")) eqn:Eq.
  - destruct (dict_get "queryId" d) as [i|] eqn:Ei; simpl; [|discriminate].
    destruct (queries_item queries i) as [q| |]; simpl; try discriminate.
    destruct (subscript q "name") as [n| |]; simpl; try discriminate.
    unfold dict_in. rewrite dict_get_set_other, Ei by discriminate.
    intros [= <-] _. unfold by_name_only, has_key, dict_in.
    rewrite dict_get_del_same, dict_get_del_other, dict_get_set_same by discriminate.
    reflexivity.
  - intros [= <-]. simpl. rewrite Et, Eq. discriminate.
Qed.

Lemma mapM_Forall {A B} (f : A -> result B) (P : B -> Prop) l l' :
  (forall x y, f x = Ok y -> P y) -> mapM f l = Ok l' -> Forall P l'.
Proof.
  intros Hf. revert l'. induction l as [|x l IH]; simpl; intros l' H.
  - injection H as <-. constructor.
  - destruct (f x) as [y| |] eqn:E; simpl in H; try discriminate.
    destruct (mapM f l) as [ys| |]; simpl in H; try discriminate.
    injection H as <-. constructor; eauto.
Qed.

Lemma rename_parameters_options queries query query1 :
  rename_parameters queries query = Ok query1 ->
  exists options, dict_get "options" query1 = Some options
                  /\ options <> JNull /\ name_references options.
Proof.
  unfold rename_parameters.
  destruct (dict_get "options" query) as [options|] eqn:Eo; simpl; [|discriminate].
  destruct (contains "parameters" options) as [has| |] eqn:Ec; simpl; try discriminate.
  assert (Hnn : options <> JNull) by (intros ->; discriminate).
  destruct has.
  - destruct (subscript options "parameters") as [parameters| |] eqn:Es;
      simpl; try discriminate.
    destruct (py_iter parameters) as [params| |] eqn:Ei; simpl; try discriminate.
    destruct (mapM (rename_parameter queries) params) as [params'| |] eqn:Em;
      simpl; try discriminate.
    destruct options as [| | | | |o]; try discriminate. simpl in Es.
    destruct (dict_get "parameters" o) as [ps|] eqn:Ep; try discriminate.
    injection Es as ->.
    destruct parameters as [| | | |l|];
      try (intros [= <-]; exists (JDict o); split; [assumption|];
           split; [assumption|];
           intros p Hin; simpl in Hin; rewrite Ep in Hin; destruct Hin).
    simpl. intros [= <-]. eexists. split; [apply dict_get_set_same|].
    split; [discriminate|].
    intros p Hin. simpl in Hin. rewrite dict_get_set_same in Hin.
    assert (HF : Forall (fun y => is_query_parameter y = true ->
                                  by_name_only y = true) params').
    { eapply mapM_Forall; [|exact Em].
      intros x y. apply rename_parameter_by_name. }
    rewrite Forall_forall in HF. now apply HF.
  - intros [= <-]. exists options. split; auto. split; auto.
    intros p Hin. destruct options as [| | | | |o]; try destruct Hin.
    simpl in Ec, Hin. injection Ec as Ec. unfold dict_in in Ec.
    destruct (dict_get "parameters" o); [discriminate|destruct Hin].
Qed.

(** The property goes from a document to any document equal to it. *)
Lemma name_references_py_eq a b :
  py_eq a b = true -> name_references b -> name_references a.
Proof.
  intros Heq Hb p Hin Hq.
  destruct a as [| | | | |da]; try destruct Hin.
  apply py_eq_dict in Heq as (db & -> & Hval & Hkeys).
  simpl in Hin. destruct (dict_get "parameters" da) as [pa|] eqn:Epa; [|destruct Hin].
  destruct pa as [| | | |la|]; try destruct Hin.
  destruct (Hval _ _ Epa) as (pb & Epb & Hpeq).
  apply py_eq_list in Hpeq as (lb & -> & Hall).
  assert (Hp' : exists p', In p' lb /\ py_eq p p' = true).
  { clear -Hall Hin. induction Hall as [|x y la lb Hxy Hall IH]; [destruct Hin|].
    destruct Hin as [->|Hin].
    - exists y. split; [now left|assumption].
    - destruct (IH Hin) as (p' & Hp' & He). exists p'. split; [now right|assumption]. }
  destruct Hp' as (p' & Hin' & Hpp).
  destruct p as [| | | | |d]; try discriminate.
  apply py_eq_dict in Hpp as (d' & -> & Hv & Hk).
  simpl in Hq. destruct (dict_get "type" d) as [t|] eqn:Et; [|discriminate].
  apply py_eq_str_r in Hq. subst t.
  destruct (Hv _ _ Et) as (t' & Et' & Htt). apply py_eq_str_l in Htt. subst t'.
  assert (Hb' : by_name_only (JDict d') = true).
  { apply Hb.
    - simpl. now rewrite Epb.
    - simpl. now rewrite Et'. }
  unfold by_name_only, has_key in *. now rewrite !Hk.
Qed.

Lemma py_get_null_eq v : py_eq JNull v = true -> v = JNull.
Proof. destruct v; simpl; congruence. Qed.

Lemma store_visualizations_options query metadata m :
  store_visualizations query metadata = Ok m ->
  dict_get "options" m = dict_get "options" metadata.
Proof.
  unfold store_visualizations.
  destruct (dict_get "visualizations" query) as [v|]; [|now intros [= <-]].
  destruct (py_iter v); simpl; try discriminate.
  destruct (mapM clean_visualization a); simpl; try discriminate.
  destruct (sort_by _ _ _); simpl; try discriminate.
  intros [= <-]. now apply dict_get_set_other.
Qed.

(** The metadata written for a query refers to other queries by name
    only. *)
Lemma query_metadata_name_references queries query metadata m w options :
  query_metadata queries query metadata = Ok (m, w) ->
  dict_get "options" m = Some options ->
  name_references options.
Proof.
  unfold query_metadata.
  destruct (rename_parameters queries query) as [query1| |] eqn:Er;
    simpl; try discriminate.
  apply rename_parameters_options in Er as (o1 & Eo1 & Hnn & Hrefs).
  destruct (store_fields query1 metadata) as [m1 w1] eqn:Es.
  destruct (store_visualizations query1 m1) as [m2| |] eqn:Ev;
    simpl; try discriminate.
  intros [= <- <-] Hopt.
  rewrite (store_visualizations_options _ _ _ Ev) in Hopt.
  apply fold_store_field_spec in Es; auto using QUERY_META_FIELDS_NoDup.
  destruct Es as (_ & _ & Hnew & Hold & _).
  assert (Hin : In "options" QUERY_META_FIELDS) by (simpl; tauto).
  destruct (differs query1 metadata "options") eqn:Ed.
  - rewrite (Hnew _ Hin Ed), Eo1 in Hopt. now injection Hopt as <-.
  - rewrite Hold in Hopt by (intros [_ H]; congruence).
    unfold differs in Ed. rewrite Eo1 in Ed. apply negb_false_iff in Ed.
    unfold py_get in Ed. rewrite Hopt in Ed.
    eapply name_references_py_eq; eauto.
Qed.

End ParameterFacts.

(** ** Sorting *)

Section SortFacts.
Context {K A : Type} (lt : K -> K -> result bool).

Lemma insert_sorted_perm (x : K * A) l r :
  insert_sorted lt x l = Ok r -> Permutation (x :: l) r.
Proof.
  revert r. induction l as [|y l IH]; simpl; intros r H.
  - injection H as <-. reflexivity.
  - destruct (lt (fst x) (fst y)) as [[|]| |]; simpl in H; try discriminate.
    + injection H as <-. reflexivity.
    + destruct (insert_sorted lt x l) as [r'| |]; simpl in H; try discriminate.
      injection H as <-. rewrite perm_swap. constructor. now apply IH.
Qed.

Lemma sort_keyed_perm (l : list (K * A)) : forall acc r,
  sort_keyed lt acc l = Ok r -> Permutation (acc ++ l) r.
Proof.
  induction l as [|x l IH]; simpl; intros acc r H.
  - injection H as <-. now rewrite app_nil_r.
  - destruct (insert_sorted lt x acc) as [acc'| |] eqn:E; simpl in H;
      try discriminate.
    apply IH in H. apply insert_sorted_perm in E.
    rewrite <- H, <- E. symmetry. apply Permutation_middle.
Qed.

(** [le] is "not greater" on the keys [good] holds of. *)
Variables (good : K -> Prop) (le : K -> K -> Prop).
Hypothesis lt_le : forall a b, good a -> good b -> lt a b = Ok true -> le a b.
Hypothesis not_lt_le : forall a b, good a -> good b -> lt a b = Ok false -> le b a.
Hypothesis le_trans : forall a b c, le a b -> le b c -> le a c.

Let le_keyed (x y : K * A) : Prop := le (fst x) (fst y).
Let good_keyed (x : K * A) : Prop := good (fst x).

Lemma insert_sorted_sorted (x : K * A) l r :
  good_keyed x -> Forall good_keyed l -> StronglySorted le_keyed l ->
  insert_sorted lt x l = Ok r -> StronglySorted le_keyed r.
Proof.
  intros Hx. revert r. induction l as [|y l IH]; simpl; intros r Hg Hs H.
  - injection H as <-. repeat constructor.
  - inversion Hs as [|? ? Hs' Hy]; subst. inversion Hg as [|? ? Hgy Hgl]; subst.
    destruct (lt (fst x) (fst y)) as [[|]| |] eqn:E; simpl in H; try discriminate.
    + injection H as <-.
      assert (Hxy : le (fst x) (fst y)) by (apply lt_le; auto).
      constructor; auto. constructor; auto.
      eapply Forall_impl; [|exact Hy]. intros z Hz.
      unfold le_keyed in *. eapply le_trans; eauto.
    + destruct (insert_sorted lt x l) as [r'| |] eqn:E'; simpl in H;
        try discriminate.
      injection H as <-. constructor; [now apply IH|].
      apply insert_sorted_perm in E'.
      eapply Permutation_Forall; [exact E'|]. constructor; auto.
      now apply not_lt_le.
Qed.

Lemma sort_keyed_sorted (l : list (K * A)) : forall acc r,
  Forall good_keyed acc -> Forall good_keyed l -> StronglySorted le_keyed acc ->
  sort_keyed lt acc l = Ok r -> StronglySorted le_keyed r.
Proof.
  induction l as [|x l IH]; simpl; intros acc r Ha Hl Hs H.
  - now injection H as <-.
  - inversion Hl; subst.
    destruct (insert_sorted lt x acc) as [acc'| |] eqn:E; simpl in H;
      try discriminate.
    assert (Hacc' : Forall good_keyed acc').
    { eapply Permutation_Forall; [eapply insert_sorted_perm; exact E|].
      now constructor. }
    apply (IH acc' r); auto.
    apply (insert_sorted_sorted x acc acc'); auto.
Qed.
End SortFacts.

Lemma mapM_keyed {K A} (key : A -> result K) l keyed :
  mapM (fun x => k <- key x ;; Ok (k, x)) l = Ok keyed ->
  map snd keyed = l /\ Forall (fun kx => key (snd kx) = Ok (fst kx)) keyed.
Proof.
  revert keyed. induction l as [|x l IH]; simpl; intros keyed H.
  - injection H as <-. split; constructor.
  - destruct (key x) as [k| |] eqn:E; simpl in H; try discriminate.
    destruct (mapM _ l) as [ks| |]; simpl in H; try discriminate.
    injection H as <-. destruct (IH ks eq_refl) as [Hm Hf].
    split; simpl; [congruence|]. constructor; auto.
Qed.

(** Sorting by a key permutes the list. *)
Lemma sort_by_perm {K A} (lt : K -> K -> result bool) (key : A -> result K) l r :
  sort_by lt key l = Ok r -> Permutation l r.
Proof.
  unfold sort_by.
  destruct (mapM _ l) as [keyed| |] eqn:Ek; simpl; try discriminate.
  destruct (sort_keyed lt [] keyed) as [sorted| |] eqn:Es; simpl; try discriminate.
  intros [= <-]. apply mapM_keyed in Ek as [<- _].
  apply sort_keyed_perm in Es. simpl in Es. now apply Permutation_map.
Qed.

(** ** Widgets on disk are in (row, column) order (C3, fetch.py) *)

Module WidgetFacts.
Import Fetch.

(** The integers [w["options"]["position"]] holds. *)
Definition position (w : json) : option (Z * Z) :=
  match subscript w "options" with
  | Ok options =>
      match subscript options "position" with
      | Ok p =>
          match subscript p "row", subscript p "col" with
          | Ok (JInt row), Ok (JInt col) => Some (row, col)
          | _, _ => None
          end
      | _ => None
      end
  | _ => None
  end.

(** The order of tuples. *)
Definition lex_le (a b : Z * Z) : Prop :=
  (fst a < fst b)%Z \/ (fst a = fst b /\ (snd a <= snd b)%Z).

Definition row_col_le (a b : json) : Prop :=
  exists pa pb, position a = Some pa /\ position b = Some pb /\ lex_le pa pb.

Definition int_pair (k : json * json) : Prop :=
  exists r c, k = (JInt r, JInt c).

Definition key_le (a b : json * json) : Prop :=
  exists ra ca rb cb, a = (JInt ra, JInt ca) /\ b = (JInt rb, JInt cb)
                      /\ lex_le (ra, ca) (rb, cb).

Lemma tuple_lt_le a b :
  int_pair a -> int_pair b -> tuple_lt a b = Ok true -> key_le a b.
Proof.
  intros (ra & ca & ->) (rb & cb & ->). unfold tuple_lt. simpl.
  intros H. exists ra, ca, rb, cb. repeat split. unfold lex_le. simpl.
  destruct (Z.eqb_spec ra rb).
  - destruct (Z.eqb_spec ca cb); [discriminate|].
    injection H as H. apply Z.ltb_lt in H. right. lia.
  - injection H as H. apply Z.ltb_lt in H. now left.
Qed.

Lemma tuple_not_lt_le a b :
  int_pair a -> int_pair b -> tuple_lt a b = Ok false -> key_le b a.
Proof.
  intros (ra & ca & ->) (rb & cb & ->). unfold tuple_lt. simpl.
  intros H. exists rb, cb, ra, ca. repeat split. unfold lex_le. simpl.
  destruct (Z.eqb_spec ra rb).
  - destruct (Z.eqb_spec ca cb); [right; lia|].
    injection H as H. apply Z.ltb_ge in H. right. lia.
  - injection H as H. apply Z.ltb_ge in H. left. lia.
Qed.

Lemma key_le_trans a b c : key_le a b -> key_le b c -> key_le a c.
Proof.
  intros (ra & ca & rb & cb & -> & -> & H1) (rb' & cb' & rc & cc & E & -> & H2).
  injection E as <- <-. exists ra, ca, rc, cc. repeat split.
  unfold lex_le in *. simpl in *. lia.
Qed.

Lemma position_key w p :
  position w = Some p -> widget_key w = Ok (JInt (fst p), JInt (snd p)).
Proof.
  unfold position, widget_key.
  destruct (subscript w "options") as [o| |]; try discriminate. simpl.
  destruct (subscript o "position") as [q| |]; try discriminate. simpl.
  destruct (subscript q "row") as [[]| |]; try discriminate.
  destruct (subscript q "col") as [[]| |]; try discriminate.
  now intros [= <-].
Qed.

Lemma dict_get_filter_keep {V} (f : string * V -> bool) k (d : dict V) :
  (forall v, f (k, v) = true) -> dict_get k (filter f d) = dict_get k d.
Proof.
  intros Hk. induction d as [|[k' v'] d IH]; simpl; auto.
  destruct (String.eqb k k') eqn:E.
  - apply String.eqb_eq in E. subst k'. rewrite Hk. simpl.
    now rewrite String.eqb_refl.
  - destruct (f (k', v')); simpl; auto. now rewrite E.
Qed.

Lemma position_dict d d' :
  dict_get "options" d = dict_get "options" d' ->
  position (JDict d) = position (JDict d').
Proof. unfold position. cbn [subscript]. now intros ->. Qed.

(** Filtering a widget keeps its options. *)
Lemma filter_widget_position w w' :
  filter_widget w = Ok w' -> position w' = position w.
Proof.
  unfold filter_widget. destruct w as [| | | | |d]; try discriminate.
  assert (Hopt :
    dict_get "options"
      (filter (fun kv => negb (existsb (String.eqb (fst kv))
                                 DASHBOARD_WIDGET_IGNORE_FIELDS)) d)
    = dict_get "options" d).
  { now apply dict_get_filter_keep. }
  destruct (dict_get "visualization" d) as [v|].
  - destruct (subscript v "name"); simpl; try discriminate.
    destruct (subscript v "query"); simpl; try discriminate.
    destruct (subscript a0 "name"); simpl; try discriminate.
    intros [= <-]. apply position_dict.
    rewrite dict_get_set_other by discriminate. exact Hopt.
  - intros [= <-]. now apply position_dict.
Qed.

Lemma mapM_Forall2 {A B} (f : A -> result B) l l' :
  mapM f l = Ok l' -> Forall2 (fun x y => f x = Ok y) l l'.
Proof.
  revert l'. induction l as [|x l IH]; simpl; intros l' H.
  - injection H as <-. constructor.
  - destruct (f x) as [y| |] eqn:E; simpl in H; try discriminate.
    destruct (mapM f l) as [ys| |]; simpl in H; try discriminate.
    injection H as <-. constructor; auto.
Qed.

Lemma StronglySorted_Forall2 {A B} (R : A -> A -> Prop) (S : B -> B -> Prop)
    (T : A -> B -> Prop) l l' :
  (forall a a' b b', T a b -> T a' b' -> R a a' -> S b b') ->
  Forall2 T l l' -> StronglySorted R l -> StronglySorted S l'.
Proof.
  intros HT HF. induction HF as [|a b l l' Hab HF IH]; intros Hs.
  - constructor.
  - inversion Hs as [|? ? Hs' Ha]; subst. constructor; auto.
    clear -HT Hab HF Ha. induction HF as [|a' b' l l' Hab' HF IH].
    + constructor.
    + inversion Ha; subst. constructor; eauto.
Qed.

(** The widgets written are the widgets of the dashboard, filtered,
    in nondecreasing order of (row, col). *)
Lemma saved_widgets_sorted ws out :
  Forall (fun w => position w <> None) ws ->
  saved_widgets (JList ws) = Ok out ->
  StronglySorted row_col_le out
  /\ exists sorted, Permutation ws sorted /\ mapM filter_widget sorted = Ok out.
Proof.
  intros Hpos. unfold saved_widgets.
  destruct (sort_by tuple_lt widget_key ws) as [sorted| |] eqn:Es;
    simpl; try discriminate.
  intros Hmap. split; [|exists sorted; split; [eapply sort_by_perm; eauto|auto]].
  unfold sort_by in Es.
  destruct (mapM _ ws) as [keyed| |] eqn:Ek; simpl in Es; try discriminate.
  destruct (sort_keyed tuple_lt [] keyed) as [skeyed| |] eqn:Esk;
    simpl in Es; try discriminate.
  injection Es as <-.
  apply mapM_keyed in Ek as [Hsnd Hkeys].
  assert (Hgood : Forall (fun kx : (json * json) * json =>
                    exists p, position (snd kx) = Some p
                              /\ fst kx = (JInt (fst p), JInt (snd p))) keyed).
  { rewrite Forall_forall in *. intros [k w] Hin.
    assert (Hw : In w ws) by (rewrite <- Hsnd; now apply (in_map snd) in Hin).
    specialize (Hpos _ Hw). specialize (Hkeys _ Hin). simpl in *.
    destruct (position w) as [p|] eqn:Ep; [|congruence].
    exists p. split; auto. apply position_key in Ep. congruence. }
  assert (Hint : Forall (fun kx : (json * json) * json => int_pair (fst kx)) keyed).
  { eapply Forall_impl; [|exact Hgood].
    intros kx (p & _ & E). now exists (fst p), (snd p). }
  assert (Hsorted : StronglySorted (fun x y : (json * json) * json =>
                      key_le (fst x) (fst y)) skeyed).
  { apply (sort_keyed_sorted tuple_lt int_pair key_le tuple_lt_le
             tuple_not_lt_le key_le_trans keyed [] skeyed); auto; constructor. }
  assert (Hgood' : Forall (fun kx : (json * json) * json =>
                    exists p, position (snd kx) = Some p
                              /\ fst kx = (JInt (fst p), JInt (snd p))) skeyed).
  { eapply Permutation_Forall; [|exact Hgood].
    apply sort_keyed_perm in Esk. exact Esk. }
  apply mapM_Forall2 in Hmap.
  assert (HF : Forall2 (fun (kx : (json * json) * json) (y : json) =>
                 exists p, position y = Some p
                           /\ fst kx = (JInt (fst p), JInt (snd p))) skeyed out).
  { clear -Hmap Hgood'. remember (map snd skeyed) as l eqn:El.
    revert skeyed El Hgood'. induction Hmap as [|x y l l' Hxy Hmap IH];
      intros [|kx skeyed] El Hg; try discriminate; constructor.
    - inversion Hg as [|? ? (p & Hp & Hk) _]; subst.
      injection El as -> _. exists p. split; auto.
      now rewrite (filter_widget_position _ _ Hxy).
    - inversion Hg; subst. injection El as _ ->. now apply IH. }
  eapply StronglySorted_Forall2; [|exact HF|exact Hsorted].
  intros a a' b b' (p & Hp & Hk) (p' & Hp' & Hk')
         (ra & ca & rb & cb & Ea & Eb & Hle).
  exists p, p'. repeat split; auto.
  rewrite Hk in Ea. rewrite Hk' in Eb.
  injection Ea as <- <-. injection Eb as <- <-.
  destruct p, p'. exact Hle.
Qed.

End WidgetFacts.

(** ** The default table is not written (C9, fetch.py) *)

Lemma store_visualizations_drops_default (query metadata m : dict json) :
  Fetch.store_visualizations query metadata = Ok m ->
  dict_in "visualizations" query = true ->
  exists vizs, dict_get "visualizations" m = Some (JList vizs)
               /\ forall v, In v vizs -> py_eq v Fetch.default_table = false.
Proof.
  unfold Fetch.store_visualizations, dict_in.
  destruct (dict_get "visualizations" query) as [v|]; [|discriminate].
  destruct (py_iter v); simpl; try discriminate.
  destruct (mapM Fetch.clean_visualization a) as [vizs'| |]; simpl; try discriminate.
  destruct (sort_by _ _ _) as [sorted| |] eqn:Es; simpl; try discriminate.
  intros [= <-] _. exists sorted. split; [apply dict_get_set_same|].
  intros x Hx. apply sort_by_perm in Es.
  apply Permutation_sym in Es. apply (Permutation_in _ Es) in Hx.
  apply filter_In in Hx as [_ Hx]. now apply negb_true_iff in Hx.
Qed.

(** A query the server returns with its default table only, and what
    is written of it: no visualization. *)
Definition fetched_scores : dict json :=
  [("id", JInt 5); ("name", JStr "Scores"); ("options", JDict []);
   ("visualizations",
    JList [JDict [("id", JInt 9); ("type", JStr "TABLE"); ("name", JStr "Table");
                  ("description", JStr ""); ("options", JDict []);
                  ("updated_at", JStr "2024-01-01"); ("created_at", JStr "2024-01-01")]])].

Example default_table_not_saved :
  Fetch.query_metadata [(5%Z, JDict fetched_scores)] fetched_scores []
  = Ok ([("name", JStr "Scores"); ("options", JDict []);
         ("visualizations", JList [])], ["name"; "options"]).
Proof. reflexivity. Qed.

(* ================================================================= *)
(** ** The upload of the queries *)

Module UploadFacts.
Import Push.

Definition is_update (n : string) (r : request) : bool :=
  match r with UpdateQuery m _ _ => String.eqb m n | _ => false end.

Definition is_create (n : string) (r : request) : bool :=
  match r with CreateQuery m _ => String.eqb m n | _ => false end.

(** The number of update, of create requests sent for the query
    saved as [n]. *)
Definition updates_of (n : string) (l : list request) : nat :=
  length (filter (is_update n) l).

Definition creates_of (n : string) (l : list request) : nat :=
  length (filter (is_create n) l).

Definition about_query (r : request) : bool :=
  match r with
  | CreateQuery _ _ | UpdateQuery _ _ _ => true
  | _ => false
  end.

(** A parameter of type query holds an id and no name. *)
Definition by_id_only (p : parameter) : bool :=
  if String.eqb (p_type p) "query"
  then match p_queryName p, p_queryId p with
       | None, Some _ => true
       | _, _ => false
       end
  else true.

(** The data of a request for a query refers to queries by id. *)
Definition sends_ids_only (r : request) : bool :=
  match r with
  | CreateQuery _ data | UpdateQuery _ _ data =>
      forallb by_id_only (parameters_of data)
  | _ => true
  end.

Lemma updates_of_app n l l' :
  updates_of n (l ++ l') = updates_of n l + updates_of n l'.
Proof. unfold updates_of. now rewrite filter_app, length_app. Qed.

Lemma creates_of_app n l l' :
  creates_of n (l ++ l') = creates_of n l + creates_of n l'.
Proof. unfold creates_of. now rewrite filter_app, length_app. Qed.

Lemma updates_of_other n l :
  forallb (fun r => negb (about_query r)) l = true -> updates_of n l = 0.
Proof.
  unfold updates_of. induction l as [|r l IH]; simpl; auto.
  intros H. apply andb_true_iff in H as [Hr Hl].
  destruct r; simpl in *; try discriminate; auto.
Qed.

Lemma creates_of_other n l :
  forallb (fun r => negb (about_query r)) l = true -> creates_of n l = 0.
Proof.
  unfold creates_of. induction l as [|r l IH]; simpl; auto.
  intros H. apply andb_true_iff in H as [Hr Hl].
  destruct r; simpl in *; try discriminate; auto.
Qed.

Lemma sends_ids_only_other l :
  forallb (fun r => negb (about_query r)) l = true ->
  forallb sends_ids_only l = true.
Proof.
  induction l as [|r l IH]; simpl; auto.
  intros H. apply andb_true_iff in H as [Hr Hl].
  rewrite IH by assumption. destruct r; simpl in *; try discriminate; auto.
Qed.

(** *** What a run starts from *)

Definition column_ok (c : column) : bool :=
  match c_displayAs c with
  | Some displayAs =>
      if String.eqb displayAs "link"
      then match c_linkUrlTemplate c with Some _ => true | None => false end
      else true
  | None => true
  end.

Definition visualization_ok (v : visualization) : bool :=
  match v_columns v with
  | Some cs => forallb column_ok cs
  | None => true
  end.

Section Columns.
Variable updated_visualization : list request -> Z -> visualization -> Z.
Variable created_visualization : list request -> visualization -> Z.

Lemma fix_columns_ok dashboards cs :
  forallb column_ok cs = true ->
  exists cs' l, fix_columns dashboards cs = Ok (cs', l).
Proof.
  induction cs as [|c cs IH]; simpl; intros H.
  - now exists [], [].
  - apply andb_true_iff in H as [Hc Hcs].
    destruct (IH Hcs) as (cs' & l & E). rewrite E.
    unfold fix_column, column_ok in *.
    destruct (c_displayAs c) as [d|]; simpl; [|eauto].
    destruct (String.eqb d "link"); simpl; [|eauto].
    destruct (c_linkUrlTemplate c) as [url|]; [|discriminate]. simpl.
    destruct (fix_dashboard_url_id url dashboards). simpl. eauto.
Qed.

(** The loop over the visualizations of a query: it sends requests
    for visualizations only, and leaves every visualization with
    the id the server gave. *)
Lemma upload_visualizations_ok dashboards existing query_id vs :
  forallb visualization_ok vs = true ->
  forall sent logged,
  exists vs' new logged',
    upload_visualizations updated_visualization created_visualization
      dashboards existing query_id sent logged vs
    = Ok (vs', sent ++ new, logged')
    /\ forallb (fun r => negb (about_query r)) new = true
    /\ map v_name vs' = map v_name vs
    /\ Forall (fun v => v_uploaded_id v <> None) vs'.
Proof.
  induction vs as [|v vs IH]; simpl; intros H sent logged.
  - exists [], [], logged. rewrite app_nil_r. repeat split; auto.
  - apply andb_true_iff in H as [Hv Hvs].
    unfold upload_visualization, visualization_ok in *.
    assert (Hcols : exists columns l,
              match v_columns v with
              | Some cs => '(cs', l) <- fix_columns dashboards cs ;; Ok (Some cs', l)
              | None => Ok (None, [])
              end = Ok (columns, l)).
    { destruct (v_columns v) as [cs|]; [|eauto].
      destruct (fix_columns_ok dashboards cs Hv) as (cs' & l & ->).
      simpl. eauto. }
    destruct Hcols as (columns & l & ->). simpl.
    destruct (dict_get (v_name v) existing) as [e|]; simpl.
    + destruct (IH Hvs (sent ++ [UpdateVisualization (rv_id e)
                 {| v_name := v_name v; v_columns := columns;
                    v_query_id := Some query_id;
                    v_uploaded_id := v_uploaded_id v |}]) (logged ++ l))
        as (vs' & new & logged' & -> & Hnew & Hnames & Hup).
      simpl. eexists _, (_ :: new), _. rewrite <- app_assoc. simpl.
      split; [reflexivity|]. repeat split; simpl; auto.
      * now rewrite Hnames.
      * constructor; auto. discriminate.
    + destruct (IH Hvs (sent ++ [CreateVisualization
                 {| v_name := v_name v; v_columns := columns;
                    v_query_id := Some query_id;
                    v_uploaded_id := v_uploaded_id v |}]) (logged ++ l))
        as (vs' & new & logged' & -> & Hnew & Hnames & Hup).
      simpl. eexists _, (_ :: new), _. rewrite <- app_assoc. simpl.
      split; [reflexivity|]. repeat split; simpl; auto.
      * now rewrite Hnames.
      * constructor; auto. discriminate.
Qed.
End Columns.

Lemma length_set_nth {A} i (x : A) l : length (set_nth i x l) = length l.
Proof.
  revert i. induction l as [|y l IH]; intros [|i]; simpl; auto.
Qed.

Lemma nth_error_set_nth_same {A} i (x : A) l :
  i < length l -> nth_error (set_nth i x l) i = Some x.
Proof.
  revert i. induction l as [|y l IH]; intros [|i]; simpl; try lia; auto.
  intros H. apply IH. lia.
Qed.

Lemma nth_error_set_nth_other {A} i j (x : A) l :
  i <> j -> nth_error (set_nth i x l) j = nth_error l j.
Proof.
  revert i j. induction l as [|y l IH]; intros [|i] [|j] H; simpl; auto;
    try congruence.
Qed.

(** The id a saved query carries. *)
Definition uploaded_id_of (st : state) (n : string) : option Z :=
  match dict_get n (saved_queries st) with
  | Some q => q_uploaded_id q
  | None => None
  end.

(** *** A run, from the state [st0] the queries are loaded in

    [rank] orders the saved queries: a query refers to queries of a
    lower rank only, so that the references have no cycle. *)
Section Run.
Variable created_query : list request -> string -> saved_query -> remote_query.
Variable updated_visualization : list request -> Z -> visualization -> Z.
Variable created_visualization : list request -> visualization -> Z.
Variable rank : string -> nat.
Variable st0 : state.

Definition parameter_ok (n : string) (p : parameter) : bool :=
  if String.eqb (p_type p) "query" then
    match p_queryName p with
    | Some m => dict_in m (saved_queries st0) && Nat.ltb (rank m) (rank n)
    | None => false
    end
  else true.

Definition query_ok (n : string) (q : saved_query) : bool :=
  match q_uploaded_id q with None => true | Some _ => false end
  && forallb (parameter_ok n) (parameters_of q)
  && forallb visualization_ok (q_visualizations q).

(** No query carries an id yet; every parameter of type query
    names a saved query of a lower rank; every link column has its
    template. *)
Definition well_formed : bool :=
  forallb (fun nq => query_ok (fst nq) (snd nq)) (saved_queries st0).

Definition original (n : string) : list parameter :=
  match dict_get n (saved_queries st0) with
  | Some q => parameters_of q
  | None => []
  end.

(** The requests of the query saved as [n]: a creation when the
    server had no query of that name, and an update. *)
Definition own (n : string) (id : Z) (data : saved_query) : list request :=
  (if dict_in n (existing_queries st0) then [] else [CreateQuery n data])
  ++ [UpdateQuery n id data].

(** Every query a parameter of [n] names was updated in [pre], and
    the parameter holds its id in [data]. *)
Definition dependencies_first (st : state) (pre : list request)
    (n : string) (data : saved_query) : Prop :=
  forall i p m,
    nth_error (original n) i = Some p ->
    p_type p = "query" -> p_queryName p = Some m ->
    exists id data_m p',
      uploaded_id_of st m = Some id
      /\ In (UpdateQuery m id data_m) pre
      /\ nth_error (parameters_of data) i = Some p'
      /\ p_queryName p' = None /\ p_queryId p' = Some id.

Definition sent_for (st : state) (evs : list request) (n : string) (id : Z) : Prop :=
  exists pre data post,
    evs = pre ++ own n id data ++ post
    /\ dependencies_first st pre n data.

(** What was sent for [n] in [evs], the requests of the run so far. *)
Definition account (st : state) (evs : list request) (n : string) : Prop :=
  match uploaded_id_of st n with
  | Some id =>
      updates_of n evs = 1
      /\ creates_of n evs = (if dict_in n (existing_queries st0) then 0 else 1)
      /\ sent_for st evs n id
  | None =>
      updates_of n evs = 0 /\ creates_of n evs = 0
      /\ dict_in n (existing_queries st) = dict_in n (existing_queries st0)
  end.

Definition visualizations_uploaded (st : state) (n : string) : Prop :=
  forall q q0, dict_get n (saved_queries st) = Some q ->
               q_uploaded_id q <> None ->
               dict_get n (saved_queries st0) = Some q0 ->
               map v_name (q_visualizations q) = map v_name (q_visualizations q0)
               /\ Forall (fun v => v_uploaded_id v <> None) (q_visualizations q).

(** The states of a run.  The queries of a rank below [b] that
    carry no id are as they were loaded. *)
Record inv (b : nat) (st : state) : Prop := {
  inv_keys : forall m,
    dict_in m (saved_queries st) = dict_in m (saved_queries st0);
  inv_pending : forall m,
    rank m < b -> uploaded_id_of st m = None ->
    dict_get m (saved_queries st) = dict_get m (saved_queries st0);
  inv_dashboards : existing_dashboards st = existing_dashboards st0;
  inv_visualizations : forall m, visualizations_uploaded st m;
  inv_sent : exists evs,
    requests st = requests st0 ++ evs
    /\ forallb sends_ids_only evs = true
    /\ forall m, dict_in m (saved_queries st0) = true -> account st evs m
}.

(** From [st] to [st']: a query that carried an id is untouched. *)
Definition uploaded_stable (st st' : state) : Prop :=
  forall m id, uploaded_id_of st m = Some id ->
               dict_get m (saved_queries st') = dict_get m (saved_queries st).

(** From [st] to [st'], by the upload of [n]: the other queries of
    the rank of [n] and above are untouched. *)
Definition frame_above (n : string) (st st' : state) : Prop :=
  forall m, rank n <= rank m -> m <> n ->
            dict_get m (saved_queries st') = dict_get m (saved_queries st).

(** What [upload_query] does for [n], within a budget. *)
Definition uploads (rec : string -> state -> result (Z * state))
    (n : string) : Prop :=
  forall b st,
    rank n < b -> dict_in n (saved_queries st0) = true -> inv b st ->
    exists id st',
      rec n st = Ok (id, st')
      /\ inv b st'
      /\ uploaded_id_of st' n = Some id
      /\ frame_above n st st'
      /\ uploaded_stable st st'.

Lemma inv_weaken b b' st : b' <= b -> inv b st -> inv b' st.
Proof.
  intros Hle [Hk Hp Hd Hv Hs]. constructor; auto.
  intros m Hm. apply Hp. lia.
Qed.

Hypothesis Hwf : well_formed = true.

Lemma well_formed_query n q :
  dict_get n (saved_queries st0) = Some q ->
  q_uploaded_id q = None
  /\ forallb visualization_ok (q_visualizations q) = true
  /\ forall p, In p (parameters_of q) -> p_type p = "query" ->
       exists m, p_queryName p = Some m
                 /\ dict_in m (saved_queries st0) = true
                 /\ rank m < rank n.
Proof.
  intros Hget. apply dict_get_In in Hget.
  unfold well_formed in Hwf. rewrite forallb_forall in Hwf.
  apply Hwf in Hget. unfold query_ok in Hget. simpl in Hget.
  apply andb_true_iff in Hget as [Hget Hv].
  apply andb_true_iff in Hget as [Hu Hp].
  split; [now destruct (q_uploaded_id q)|]. split; [assumption|].
  intros p Hin Hty. rewrite forallb_forall in Hp. apply Hp in Hin.
  unfold parameter_ok in Hin. rewrite Hty in Hin. simpl in Hin.
  destruct (p_queryName p) as [m|]; [|discriminate].
  apply andb_true_iff in Hin as [Hin Hlt]. apply Nat.ltb_lt in Hlt.
  now exists m.
Qed.

Lemma dict_in_set {V} k k' (v : V) d :
  dict_in k' d = true -> dict_in k (dict_set k' v d) = dict_in k d.
Proof.
  intros H. unfold dict_in in *. destruct (String.eqb_spec k k') as [->|Hne].
  - rewrite dict_get_set_same. now destruct (dict_get k' d).
  - now rewrite dict_get_set_other.
Qed.

Lemma dict_in_get {V} k (d : dict V) :
  dict_in k d = true -> exists v, dict_get k d = Some v.
Proof. unfold dict_in. destruct (dict_get k d); [eauto|discriminate]. Qed.

(** [account] reads the ids of the state and the queries the server
    has, nothing else. *)
Lemma account_ext st st' evs m :
  (forall x, uploaded_id_of st' x = uploaded_id_of st x) ->
  existing_queries st' = existing_queries st ->
  account st evs m -> account st' evs m.
Proof.
  intros Hids Hex. unfold account. rewrite Hids, Hex.
  destruct (uploaded_id_of st m); auto.
  intros (Hu & Hc & pre & data & post & E & Hdep). repeat split; auto.
  exists pre, data, post. split; auto.
  intros i p x Hi Hty Hn. destruct (Hdep i p x Hi Hty Hn)
    as (id & dm & p' & H1 & H2). exists id, dm, p'. now rewrite Hids.
Qed.

Lemma set_parameter_saved n i p st q :
  dict_get n (saved_queries st) = Some q ->
  saved_queries (set_parameter n i p st)
  = dict_set n {| q_parameters :=
                    match q_parameters q with
                    | Some ps => Some (set_nth i p ps)
                    | None => None
                    end;
                  q_visualizations := q_visualizations q;
                  q_uploaded_id := q_uploaded_id q |} (saved_queries st).
Proof. intros H. unfold set_parameter. now rewrite H. Qed.

Lemma set_parameter_ids n i p st x :
  uploaded_id_of (set_parameter n i p st) x = uploaded_id_of st x.
Proof.
  unfold uploaded_id_of, set_parameter.
  destruct (dict_get n (saved_queries st)) as [q|] eqn:E; auto. simpl.
  destruct (String.eqb_spec x n) as [->|Hne].
  - now rewrite dict_get_set_same, E.
  - now rewrite dict_get_set_other.
Qed.

Lemma set_parameter_other n i p st x :
  x <> n ->
  dict_get x (saved_queries (set_parameter n i p st))
  = dict_get x (saved_queries st).
Proof.
  intros Hne. unfold set_parameter.
  destruct (dict_get n (saved_queries st)); auto. simpl.
  now apply dict_get_set_other.
Qed.

(** Changing a parameter of [n] keeps the states of the run, as
    long as [n] is not below the bound. *)
Lemma inv_set_parameter b n i p st :
  b <= rank n -> uploaded_id_of st n = None ->
  inv b st -> inv b (set_parameter n i p st).
Proof.
  intros Hb Hn [Hk Hp Hd Hv Hs]. constructor.
  - intros m. rewrite <- Hk. unfold set_parameter.
    destruct (dict_get n (saved_queries st)) eqn:E; auto. simpl.
    apply dict_in_set. unfold dict_in. now rewrite E.
  - intros m Hm Hu. rewrite set_parameter_ids in Hu.
    rewrite set_parameter_other; [auto|]. intros ->. lia.
  - unfold set_parameter. now destruct (dict_get n (saved_queries st)).
  - intros m q q0 Hq Hup Hq0.
    destruct (String.eqb_spec m n) as [->|Hne].
    + exfalso. apply Hup.
      assert (Hid := set_parameter_ids n i p st n).
      unfold uploaded_id_of in Hid at 1. rewrite Hq in Hid. congruence.
    + rewrite set_parameter_other in Hq by assumption. eapply Hv; eauto.
  - destruct Hs as (evs & Hr & Hi & Ha). exists evs.
    split; [|split; auto].
    + unfold set_parameter. now destruct (dict_get n (saved_queries st)).
    + intros m Hm. eapply account_ext; [| |apply Ha; assumption].
      * intros x. apply set_parameter_ids.
      * unfold set_parameter. now destruct (dict_get n (saved_queries st)).
Qed.

(** A parameter as the loop leaves it. *)
Definition resolved_at (st : state) (p0 p : parameter) : Prop :=
  if String.eqb (p_type p0) "query" then
    exists m id,
      p_queryName p0 = Some m /\ uploaded_id_of st m = Some id
      /\ p = {| p_name := p_name p0; p_type := p_type p0;
                p_queryName := None; p_queryId := Some id |}
  else p = p0.

Lemma resolved_at_stable st st' p0 p :
  uploaded_stable st st' -> resolved_at st p0 p -> resolved_at st' p0 p.
Proof.
  unfold resolved_at. intros Hst. destruct (String.eqb (p_type p0) "query"); auto.
  intros (m & id & Hn & Hu & E). exists m, id. repeat split; auto.
  unfold uploaded_id_of in *. now rewrite (Hst m id Hu).
Qed.

Lemma uploaded_stable_trans st1 st2 st3 :
  uploaded_stable st1 st2 -> uploaded_stable st2 st3 -> uploaded_stable st1 st3.
Proof.
  intros H12 H23 m id Hu. rewrite <- (H12 m id Hu). apply (H23 m id).
  unfold uploaded_id_of in *. now rewrite (H12 m id Hu).
Qed.

(** The loop over the parameters of [n], at index [k], in a call
    that started in [st_in] where [n] was saved as [q0]. *)
Record looping (n : string) (st_in : state) (q0 : saved_query)
    (k : nat) (st : state) : Prop := {
  lp_inv : inv (rank n) st;
  lp_above : frame_above n st_in st;
  lp_stable : uploaded_stable st_in st;
  lp_entry : exists q,
    dict_get n (saved_queries st) = Some q
    /\ q_uploaded_id q = None
    /\ q_visualizations q = q_visualizations q0
    /\ length (parameters_of q) = length (parameters_of q0)
    /\ (forall i, k <= i ->
          nth_error (parameters_of q) i = nth_error (parameters_of q0) i)
    /\ (forall i p0, i < k -> nth_error (parameters_of q0) i = Some p0 ->
          exists p, nth_error (parameters_of q) i = Some p
                    /\ resolved_at st p0 p)
}.

Lemma set_parameter_stable n i p st :
  uploaded_id_of st n = None -> uploaded_stable st (set_parameter n i p st).
Proof.
  intros Hn m id Hm. apply set_parameter_other. intros ->. congruence.
Qed.

Lemma looping_step_other n st_in q0 k st p0 :
  nth_error (parameters_of q0) k = Some p0 ->
  String.eqb (p_type p0) "query" = false ->
  looping n st_in q0 k st -> looping n st_in q0 (S k) st.
Proof.
  intros Hk Hty [Hi Ha Hs (q & Hq & Hu & Hv & Hl & Hge & Hlt)].
  constructor; auto. exists q. repeat split; auto.
  - intros i Hle. apply Hge. lia.
  - intros i p Hi' Hp. destruct (Nat.eq_dec i k) as [->|Hne].
    + exists p0. rewrite Hge by lia. split; auto.
      assert (p = p0) by congruence. subst p.
      unfold resolved_at. now rewrite Hty.
    + apply Hlt; auto. lia.
Qed.

Lemma looping_step_query rec n st_in q0 k st p0 m :
  uploads rec m -> rank m < rank n ->
  dict_in m (saved_queries st0) = true ->
  nth_error (parameters_of q0) k = Some p0 ->
  String.eqb (p_type p0) "query" = true -> p_queryName p0 = Some m ->
  looping n st_in q0 k st ->
  exists id st1,
    rec m st = Ok (id, st1)
    /\ nth_error (the_parameters st1 n) k = Some p0
    /\ looping n st_in q0 (S k)
         (set_parameter n k
            {| p_name := p_name p0; p_type := p_type p0;
               p_queryName := None; p_queryId := Some id |} st1).
Proof.
  intros Hup Hrank Hin Hk Hty Hname
         [Hi Ha Hs (q & Hq & Hu & Hv & Hl & Hge & Hlt)].
  destruct (Hup (rank n) st Hrank Hin Hi)
    as (id & st1 & Hrec & Hi1 & Hid & Hab1 & Hst1).
  assert (Hnm : n <> m) by (intros ->; lia).
  assert (Hq1 : dict_get n (saved_queries st1) = Some q).
  { rewrite Hab1; auto. lia. }
  assert (Hun1 : uploaded_id_of st1 n = None).
  { unfold uploaded_id_of. now rewrite Hq1. }
  assert (Hk1 : nth_error (parameters_of q) k = Some p0).
  { rewrite Hge; auto. }
  exists id, st1. split; [assumption|]. split.
  { unfold the_parameters. now rewrite Hq1. }
  assert (Hklt : k < length (parameters_of q)).
  { apply nth_error_Some. congruence. }
  destruct (q_parameters q) as [ps|] eqn:Eps;
    [|unfold parameters_of in Hklt; rewrite Eps in Hklt; simpl in Hklt; lia].
  assert (Hps : parameters_of q = ps) by (unfold parameters_of; now rewrite Eps).
  rewrite Hps in *.
  constructor.
  - apply inv_set_parameter; auto.
  - intros x Hx Hxn. rewrite set_parameter_other by assumption.
    rewrite Hab1; [now apply Ha| lia | intros ->; lia].
  - intros x idx Hx.
    assert (Hxn : x <> n).
    { intros ->. unfold uploaded_id_of in Hx.
      rewrite <- (Hs n idx Hx), Hq in Hx. congruence. }
    rewrite set_parameter_other by assumption.
    rewrite <- (Hs x idx Hx). apply (Hst1 x idx).
    unfold uploaded_id_of in *. now rewrite (Hs x idx Hx).
  - eexists. split.
    { rewrite (set_parameter_saved _ _ _ _ _ Hq1). apply dict_get_set_same. }
    rewrite Eps. set (ps0 := parameters_of q0) in *.
    unfold parameters_of. cbn [q_parameters q_visualizations q_uploaded_id].
    split; [assumption|]. split; [assumption|].
    split; [now rewrite length_set_nth|]. split.
    + intros i Hle. rewrite nth_error_set_nth_other by lia. apply Hge. lia.
    + intros i p Hi' Hp. destruct (Nat.eq_dec i k) as [->|Hne].
      * assert (p = p0) by congruence. subst p.
        eexists. split; [now apply nth_error_set_nth_same|].
        unfold resolved_at. rewrite Hty. exists m, id. repeat split; auto.
        now rewrite set_parameter_ids.
      * rewrite nth_error_set_nth_other by lia.
        destruct (Hlt i p) as (p' & Hp' & Hres); [lia|assumption|].
        exists p'. split; auto.
        eapply resolved_at_stable; [|exact Hres].
        eapply uploaded_stable_trans; [exact Hst1|].
        now apply set_parameter_stable.
Qed.

(** The loop over the parameters resolves every one of them. *)
Lemma resolve_parameters_spec rec n st_in q0 :
  (forall m, rank m < rank n -> uploads rec m) ->
  dict_get n (saved_queries st0) = Some q0 ->
  forall c k st,
    k + c = length (parameters_of q0) ->
    looping n st_in q0 k st ->
    exists st',
      resolve_parameters rec n (seq k c) st = Ok st'
      /\ looping n st_in q0 (length (parameters_of q0)) st'.
Proof.
  intros Hrec Hq0. induction c as [|c IH]; intros k st Hkc Hloop.
  - exists st. split; [reflexivity|]. now replace (length (parameters_of q0)) with k by lia.
  - change (seq k (S c)) with (k :: seq (S k) c). cbn [resolve_parameters].
    destruct (nth_error (parameters_of q0) k) as [p0|] eqn:Ek;
      [|apply nth_error_None in Ek; lia].
    assert (Hcur : nth_error (the_parameters st n) k = Some p0).
    { destruct Hloop as [_ _ _ (q & Hq & _ & _ & _ & Hge & _)].
      unfold the_parameters. rewrite Hq, Hge; auto. }
    rewrite Hcur.
    destruct (String.eqb (p_type p0) "query") eqn:Ety.
    + destruct (well_formed_query n q0 Hq0) as (_ & _ & Hps).
      destruct (Hps p0) as (m & Hname & Hin & Hrank).
      { eapply nth_error_In; eauto. }
      { now apply String.eqb_eq. }
      rewrite Hname. cbn [item bind].
      destruct (looping_step_query rec n st_in q0 k st p0 m
                  (Hrec m Hrank) Hrank Hin Ek Ety Hname Hloop)
        as (id & st1 & Hr & Hk1 & Hloop1).
      rewrite Hr. cbn [bind]. rewrite Hk1, Hname. cbn [item bind].
      apply IH; [lia|assumption].
    + apply IH; [lia|]. eapply looping_step_other; eauto.
Qed.

Lemma updates_of_own n id d : updates_of n (own n id d) = 1.
Proof.
  unfold own, updates_of. destruct (dict_in n (existing_queries st0));
    simpl; now rewrite String.eqb_refl.
Qed.

Lemma creates_of_own n id d :
  creates_of n (own n id d)
  = if dict_in n (existing_queries st0) then 0 else 1.
Proof.
  unfold own, creates_of. destruct (dict_in n (existing_queries st0));
    simpl; auto. now rewrite String.eqb_refl.
Qed.

Lemma updates_of_own_other m n id d : m <> n -> updates_of m (own n id d) = 0.
Proof.
  intros Hne. apply not_eq_sym in Hne. apply String.eqb_neq in Hne.
  unfold own, updates_of. destruct (dict_in n (existing_queries st0));
    simpl; now rewrite Hne.
Qed.

Lemma creates_of_own_other m n id d : m <> n -> creates_of m (own n id d) = 0.
Proof.
  intros Hne. apply not_eq_sym in Hne. apply String.eqb_neq in Hne.
  unfold own, creates_of. destruct (dict_in n (existing_queries st0));
    simpl; auto. now rewrite Hne.
Qed.

Lemma In_update_own n id d : In (UpdateQuery n id d) (own n id d).
Proof. unfold own. apply in_or_app. right. now left. Qed.

Lemma sends_ids_only_own n id d :
  forallb by_id_only (parameters_of d) = true ->
  forallb sends_ids_only (own n id d) = true.
Proof.
  intros H. unfold own. destruct (dict_in n (existing_queries st0));
    simpl; now rewrite H.
Qed.

(** The account of [m] when another query, [n], has been uploaded. *)
Lemma account_other st st' evs n id d new m :
  m <> n ->
  uploaded_id_of st n = None ->
  (forall x, x <> n -> uploaded_id_of st' x = uploaded_id_of st x) ->
  (forall x, x <> n ->
     dict_in x (existing_queries st') = dict_in x (existing_queries st)) ->
  forallb (fun r => negb (about_query r)) new = true ->
  account st evs m ->
  account st' (evs ++ own n id d ++ new) m.
Proof.
  intros Hne Hn Hids Hex Hnew. unfold account.
  rewrite (Hids m Hne), (Hex m Hne).
  rewrite !updates_of_app, !creates_of_app.
  rewrite (updates_of_own_other m n), (creates_of_own_other m n) by assumption.
  rewrite (updates_of_other m new), (creates_of_other m new) by assumption.
  destruct (uploaded_id_of st m) as [idm|].
  - intros (Hu & Hc & pre & data & post & E & Hdep).
    split; [lia|]. split; [lia|].
    exists pre, data, (post ++ own n id d ++ new). split.
    + rewrite E. now rewrite <- !app_assoc.
    + intros i p x Hi Hty Hname.
      destruct (Hdep i p x Hi Hty Hname) as (idx & dx & p' & Hx & Hrest).
      exists idx, dx, p'. split; auto. rewrite Hids; auto.
      intros ->. congruence.
  - intros (Hu & Hc & He). repeat split; auto; lia.
Qed.

Lemma resolved_by_id p0 p st :
  resolved_at st p0 p -> by_id_only p = true.
Proof.
  unfold resolved_at, by_id_only.
  destruct (String.eqb (p_type p0) "query") eqn:E.
  - intros (m & id & _ & _ & ->). simpl. now rewrite E.
  - intros ->. now rewrite E.
Qed.

(** Lines 129-134 send a creation when the server has no query of
    the name. *)
Lemma create_if_missing_spec n q0 q1 st :
  dict_get n (saved_queries st) = Some q1 ->
  let st' := create_if_missing created_query n q0 st in
  saved_queries st' = saved_queries st
  /\ existing_dashboards st' = existing_dashboards st
  /\ requests st' = requests st
                    ++ (if dict_in n (existing_queries st) then []
                        else [CreateQuery n q1])
  /\ log st' = log st
  /\ (exists remote, dict_get n (existing_queries st') = Some remote)
  /\ (forall x, x <> n -> dict_in x (existing_queries st')
                          = dict_in x (existing_queries st)).
Proof.
  intros Hq1. unfold create_if_missing, current. rewrite Hq1.
  destruct (dict_in n (existing_queries st)) eqn:E; simpl.
  - rewrite app_nil_r. repeat split; auto. now apply dict_in_get.
  - repeat split; auto.
    + eexists. apply dict_get_set_same.
    + intros x Hx. unfold dict_in. now rewrite dict_get_set_other.
Qed.

(** Lines 129-172, after the loop over the parameters. *)
Lemma finish_spec b n st_in q0 st1 :
  rank n < b -> inv b st_in ->
  dict_get n (saved_queries st0) = Some q0 ->
  dict_get n (saved_queries st_in) = Some q0 ->
  looping n st_in q0 (length (parameters_of q0)) st1 ->
  exists id st',
    update_and_visualize updated_visualization created_visualization n q0
      (create_if_missing created_query n q0 st1) = Ok (id, st')
    /\ inv b st' /\ uploaded_id_of st' n = Some id
    /\ frame_above n st_in st' /\ uploaded_stable st_in st'.
Proof.
  intros Hb Hin Hq0 Hqin [Hi1 Ha Hs (q1 & Hq1 & Hu1 & Hv1 & Hl1 & _ & Hres)].
  destruct (well_formed_query n q0 Hq0) as (Hu0 & Hviz0 & _).
  assert (Hn0 : dict_in n (saved_queries st0) = true)
    by (unfold dict_in; now rewrite Hq0).
  assert (Hun1 : uploaded_id_of st1 n = None)
    by (unfold uploaded_id_of; now rewrite Hq1).
  destruct Hi1 as [Hk1 Hp1 Hd1 Hvz1 (evs1 & Hr1 & Hids1 & Hacc1)].
  assert (Hacc_n := Hacc1 n Hn0). unfold account in Hacc_n.
  rewrite Hun1 in Hacc_n. destruct Hacc_n as (Hupd0 & Hcre0 & Hex).
  destruct (create_if_missing_spec n q0 q1 st1 Hq1)
    as (F1 & F2 & F3 & F4 & (remote & F5) & F6).
  rewrite Hex in F3.
  set (st1' := create_if_missing created_query n q0 st1) in *.
  unfold update_and_visualize. rewrite F5. cbn [item bind].
  assert (Hcur : current (send (UpdateQuery n (rq_id remote)
                                  (current st1' n q0)) st1') n q0 = q1
                 /\ current st1' n q0 = q1).
  { unfold current. simpl. now rewrite F1, Hq1. }
  destruct Hcur as [_ Hcur]. rewrite Hcur.
  assert (Hvok : forallb visualization_ok (q_visualizations q1) = true)
    by now rewrite Hv1.
  destruct (upload_visualizations_ok updated_visualization
              created_visualization
              (existing_dashboards (send (UpdateQuery n (rq_id remote) q1) st1'))
              (by_name (rq_visualizations remote)) (rq_id remote)
              (q_visualizations q1) Hvok
              (requests (send (UpdateQuery n (rq_id remote) q1) st1'))
              (log (send (UpdateQuery n (rq_id remote) q1) st1')))
    as (vs & new & logged' & Hviz & Hnew & Hnames & Hupl).
  rewrite Hviz. cbn [bind].
  eexists _, _. split; [reflexivity|].
  assert (Hby : forallb by_id_only (parameters_of q1) = true).
  { apply forallb_forall. intros p Hp.
    apply In_nth_error in Hp as (i & Hi).
    assert (Hlt : i < length (parameters_of q0)).
    { rewrite <- Hl1. apply nth_error_Some. congruence. }
    destruct (nth_error (parameters_of q0) i) as [p0|] eqn:E0;
      [|apply nth_error_None in E0; lia].
    destruct (Hres i p0 Hlt E0) as (p' & Hp' & Hr).
    assert (p' = p) by congruence. subst p'.
    eapply resolved_by_id; eauto. }
  assert (Hother : forall x, x <> n ->
            dict_get x (dict_set n
               {| q_parameters := q_parameters q1;
                  q_visualizations := vs;
                  q_uploaded_id := Some (rq_id remote) |}
               (saved_queries st1'))
            = dict_get x (saved_queries st1)).
  { intros x Hx. rewrite dict_get_set_other by assumption. now rewrite F1. }
  assert (Hreq : (requests st1' ++ [UpdateQuery n (rq_id remote) q1]) ++ new
                 = requests st0 ++ evs1 ++ own n (rq_id remote) q1 ++ new).
  { rewrite F3, Hr1. unfold own. now rewrite <- !app_assoc. }
  split; [|split; [|split]].
  - constructor; simpl.
    + intros m. rewrite <- Hk1, F1. apply dict_in_set.
      unfold dict_in. now rewrite Hq1.
    + intros m Hm Hum.
      assert (Hmn : m <> n).
      { intros ->. unfold uploaded_id_of in Hum. simpl in Hum.
        rewrite dict_get_set_same in Hum. discriminate. }
      unfold uploaded_id_of in Hum. simpl in Hum.
      rewrite Hother in * by assumption.
      destruct (Nat.lt_ge_cases (rank m) (rank n)) as [Hlt|Hge].
      * now apply Hp1.
      * rewrite (Ha m Hge Hmn) in *. now apply (inv_pending b st_in Hin).
    + now rewrite F2.
    + intros m q q' Hq Hup Hq'. cbn [saved_queries] in Hq.
      destruct (String.eqb_spec m n) as [->|Hmn].
      * rewrite dict_get_set_same in Hq. injection Hq as <-. simpl.
        assert (q' = q0) by congruence. subst q'.
        split; [congruence|assumption].
      * rewrite Hother in Hq by assumption. eapply Hvz1; eauto.
    + exists (evs1 ++ own n (rq_id remote) q1 ++ new).
      split; [exact Hreq|]. split.
      * rewrite !forallb_app, Hids1, sends_ids_only_own by assumption.
        now rewrite sends_ids_only_other.
      * intros m Hm. destruct (String.eqb_spec m n) as [->|Hmn].
        -- unfold account, uploaded_id_of. simpl. rewrite dict_get_set_same.
           simpl. rewrite !updates_of_app, !creates_of_app.
           rewrite updates_of_own, creates_of_own.
           rewrite (updates_of_other n new), (creates_of_other n new)
             by assumption.
           split; [lia|]. split; [lia|].
           exists evs1, q1, new. split; [reflexivity|].
           intros i p x Hi Hty Hname.
           unfold original in Hi. rewrite Hq0 in Hi.
           assert (Hlt : i < length (parameters_of q0)).
           { apply nth_error_Some. congruence. }
           destruct (Hres i p Hlt Hi) as (p' & Hp' & Hr).
           unfold resolved_at in Hr.
           apply String.eqb_eq in Hty. rewrite Hty in Hr.
           destruct Hr as (x' & idx & Hx' & Hux & ->).
           assert (x' = x) by congruence. subst x'.
           assert (Hxn : x <> n) by (intros ->; congruence).
           assert (Hxin : dict_in x (saved_queries st0) = true).
           { rewrite <- Hk1. unfold uploaded_id_of in Hux. unfold dict_in.
             destruct (dict_get x (saved_queries st1)); congruence. }
           assert (Hax := Hacc1 x Hxin). unfold account in Hax.
           rewrite Hux in Hax.
           destruct Hax as (_ & _ & prex & dx & postx & Ex & _).
           exists idx, dx. eexists. split.
           { unfold uploaded_id_of. cbn [saved_queries].
             rewrite Hother by assumption. exact Hux. }
           split.
           { rewrite Ex. apply in_or_app. right. apply in_or_app. left.
             apply In_update_own. }
           split; [exact Hp'|]. split; reflexivity.
        -- apply (account_other st1); auto.
           intros x Hx. unfold uploaded_id_of. cbn [saved_queries].
           now rewrite Hother.
  - unfold uploaded_id_of. simpl. now rewrite dict_get_set_same.
  - intros m Hm Hmn. simpl. rewrite Hother by assumption. now apply Ha.
  - intros m id Hm. simpl.
    assert (Hmn : m <> n).
    { intros ->. unfold uploaded_id_of in Hm. rewrite Hqin in Hm. congruence. }
    rewrite Hother by assumption. now apply (Hs m id).
Qed.

Abbreviation upload :=
  (upload_query created_query updated_visualization created_visualization).

(** [upload_query] on a query of a rank below the fuel. *)
Lemma upload_query_spec fuel : forall n, rank n < fuel -> uploads (upload fuel) n.
Proof.
  induction fuel as [|fuel IH]; intros n Hfuel; [lia|].
  intros b st Hb Hn0 Hinv.
  destruct (dict_in_get n (saved_queries st)) as (q & Hq).
  { now rewrite (inv_keys b st Hinv). }
  cbn [upload_query]. rewrite Hq. cbn [item bind].
  destruct (q_uploaded_id q) as [id|] eqn:Eu.
  - exists id, st. split; [reflexivity|]. split; [assumption|].
    split; [unfold uploaded_id_of; now rewrite Hq|].
    split; intros m; reflexivity.
  - assert (Hun : uploaded_id_of st n = None)
      by (unfold uploaded_id_of; now rewrite Hq).
    assert (Hq0 : dict_get n (saved_queries st0) = Some q).
    { now rewrite <- (inv_pending b st Hinv n Hb Hun). }
    assert (Hloop0 : looping n st q 0 st).
    { constructor.
      - apply (inv_weaken b); [lia|assumption].
      - intros m _ _. reflexivity.
      - intros m id _. reflexivity.
      - exists q. repeat split; auto. intros i p Hi. lia. }
    assert (Hl : exists st1,
              match q_parameters q with
              | Some ps =>
                  resolve_parameters (upload fuel) n (seq 0 (length ps)) st
              | None => Ok st
              end = Ok st1
              /\ looping n st q (length (parameters_of q)) st1).
    { destruct (q_parameters q) as [ps|] eqn:Eps.
      - assert (Hps : parameters_of q = ps)
          by (unfold parameters_of; now rewrite Eps).
        rewrite <- Hps.
        apply (resolve_parameters_spec (upload fuel) n st q); auto.
        intros m Hm. apply IH. lia.
      - exists st. split; [reflexivity|].
        assert (Hps : parameters_of q = [])
          by (unfold parameters_of; now rewrite Eps).
        now rewrite Hps. }
    destruct Hl as (st1 & -> & Hloop). cbn [bind].
    now apply (finish_spec b n st q st1).
Qed.

(** The fuel a run needs: more than the rank of every query. *)
Definition depth : nat :=
  S (list_max (map rank (dict_keys (saved_queries st0)))).

Lemma rank_lt_depth n :
  dict_in n (saved_queries st0) = true -> rank n < depth.
Proof.
  intros H. apply dict_in_keys in H. unfold depth.
  assert (Hle : list_max (map rank (dict_keys (saved_queries st0)))
                <= list_max (map rank (dict_keys (saved_queries st0))))
    by lia.
  apply list_max_le in Hle. rewrite Forall_forall in Hle.
  specialize (Hle (rank n) (in_map rank _ _ H)). lia.
Qed.

Lemma inv_start : inv depth st0.
Proof.
  assert (Hfresh : forall m, uploaded_id_of st0 m = None).
  { intros m. unfold uploaded_id_of.
    destruct (dict_get m (saved_queries st0)) as [q|] eqn:E; auto.
    now destruct (well_formed_query m q E). }
  constructor; auto.
  - intros m q q0 Hq Hup Hq0. exfalso. apply Hup.
    specialize (Hfresh m). unfold uploaded_id_of in Hfresh. now rewrite Hq in Hfresh.
  - exists []. rewrite app_nil_r. repeat split; auto.
    intros m Hm. unfold account. rewrite Hfresh. auto.
Qed.

Lemma upload_each_spec fuel names :
  depth <= fuel ->
  (forall n, In n names -> dict_in n (saved_queries st0) = true) ->
  forall st, inv depth st ->
  exists st',
    upload_each created_query updated_visualization created_visualization
      fuel names st = Ok st'
    /\ inv depth st'
    /\ uploaded_stable st st'
    /\ forall n, In n names -> uploaded_id_of st' n <> None.
Proof.
  intros Hfuel. induction names as [|n names IH]; intros Hnames st Hinv.
  - exists st. split; [reflexivity|]. split; [assumption|].
    split; [intros m id _; reflexivity|intros n []].
  - assert (Hn : dict_in n (saved_queries st0) = true) by (apply Hnames; now left).
    assert (Hr := rank_lt_depth n Hn).
    destruct (upload_query_spec fuel n (Nat.lt_le_trans _ _ _ Hr Hfuel)
                depth st Hr Hn Hinv)
      as (id & st1 & Hup & Hinv1 & Hid & _ & Hst1).
    cbn [upload_each]. rewrite Hup. cbn [bind].
    destruct (IH (fun x Hx => Hnames x (or_intror Hx)) st1 Hinv1)
      as (st' & Hrest & Hinv' & Hst' & Hall).
    exists st'. split; [assumption|]. split; [assumption|].
    split; [eapply uploaded_stable_trans; eauto|].
    intros x [<-|Hx]; [|now apply Hall].
    unfold uploaded_id_of in *. rewrite (Hst' n id Hid).
    destruct (dict_get n (saved_queries st1)); congruence.
Qed.

(** A run on well-formed queries, with fuel enough, ends; every
    query carries an id in the end. *)
Lemma upload_queries_spec fuel :
  depth <= fuel ->
  exists st',
    upload_queries created_query updated_visualization created_visualization
      fuel st0 = Ok st'
    /\ inv depth st'
    /\ forall n, dict_in n (saved_queries st0) = true ->
                 uploaded_id_of st' n <> None.
Proof.
  intros Hfuel. unfold upload_queries.
  destruct (upload_each_spec fuel (dict_keys (saved_queries st0)) Hfuel
              (fun n Hn => proj2 (dict_in_keys n _) Hn) st0 inv_start)
    as (st' & Hrun & Hinv & _ & Hall).
  exists st'. split; [assumption|]. split; [assumption|].
  intros n Hn. apply Hall. now apply dict_in_keys.
Qed.

End Run.

End UploadFacts.

Import UploadFacts.

(** ** The ids of the queries are those of the server *)

Module ServerFacts.
Import Push.

(** A request that is sent once is at one place. *)
Lemma filter_once {A} (f : A -> bool) (x1 : list A) : forall x2 u v y1 y2,
  length (filter f (x1 ++ u :: y1)) = 1 ->
  x1 ++ u :: y1 = x2 ++ v :: y2 ->
  f u = true -> f v = true -> x1 = x2 /\ u = v /\ y1 = y2.
Proof.
  induction x1 as [|z x1 IH]; intros [|z' x2] u v y1 y2 Hlen E Hu Hv;
    simpl in E; injection E as E1 E2.
  - auto.
  - exfalso. subst. simpl in Hlen. rewrite Hu in Hlen. simpl in Hlen.
    rewrite filter_app in Hlen. simpl in Hlen. rewrite Hv in Hlen.
    rewrite length_app in Hlen. simpl in Hlen. lia.
  - exfalso. subst. simpl in Hlen. rewrite Hv in Hlen. simpl in Hlen.
    rewrite filter_app in Hlen. simpl in Hlen. rewrite Hu in Hlen.
    rewrite length_app in Hlen. simpl in Hlen. lia.
  - subst z'. simpl in Hlen. destruct (f z).
    + exfalso. simpl in Hlen. rewrite filter_app in Hlen. simpl in Hlen.
      rewrite Hu in Hlen. rewrite length_app in Hlen. simpl in Hlen. lia.
    + destruct (IH x2 u v y1 y2 Hlen E2 Hu Hv) as (-> & -> & ->). auto.
Qed.

Section Served.
Variable created_query : list request -> string -> saved_query -> remote_query.
Variable updated_visualization : list request -> Z -> visualization -> Z.
Variable created_visualization : list request -> visualization -> Z.
Variable st0 : state.

(** The record [r] of the query saved as [n], after [evs] were sent
    in a run from [st0]: the record the server had or, when it had
    none, its answer to the creation of [n], which the update of [n]
    with the id of the answer follows at once. *)
Definition answered (evs : list request) (n : string) (r : remote_query) : Prop :=
  match dict_get n (existing_queries st0) with
  | Some r0 => r = r0
  | None =>
      exists a data rest,
        evs = a ++ CreateQuery n data :: UpdateQuery n (rq_id r) data :: rest
        /\ r = created_query (requests st0 ++ a) n data
  end.

(** The states of a run: the id a saved query carries is the id of
    its record on the server, and the server has no new record of a
    query that carries none. *)
Definition served (st : state) : Prop :=
  exists evs,
    requests st = requests st0 ++ evs
    /\ (forall n id, uploaded_id_of st n = Some id ->
          exists r, dict_get n (existing_queries st) = Some r
                    /\ rq_id r = id /\ answered evs n r)
    /\ (forall n, uploaded_id_of st n = None ->
          dict_get n (existing_queries st) = dict_get n (existing_queries st0)).

Lemma served_start : (forall n, uploaded_id_of st0 n = None) -> served st0.
Proof.
  intros H. exists []. rewrite app_nil_r. split; [reflexivity|]. split; auto.
  intros n id Hn. rewrite H in Hn. discriminate.
Qed.

Lemma answered_app evs more n r : answered evs n r -> answered (evs ++ more) n r.
Proof.
  unfold answered. destruct (dict_get n (existing_queries st0)); auto.
  intros (a & data & rest & -> & E). exists a, data, (rest ++ more).
  split; [|exact E]. now rewrite <- app_assoc.
Qed.

Lemma served_set_parameter n i p st : served st -> served (set_parameter n i p st).
Proof.
  intros (evs & Hr & Hids & Hpend).
  assert (E : requests (set_parameter n i p st) = requests st
              /\ existing_queries (set_parameter n i p st) = existing_queries st).
  { unfold set_parameter. destruct (dict_get n (saved_queries st)); auto. }
  destruct E as [E1 E2]. exists evs. rewrite E1, E2. split; [exact Hr|]. split.
  - intros m id. rewrite set_parameter_ids. apply Hids.
  - intros m. rewrite set_parameter_ids. apply Hpend.
Qed.

Lemma upload_visualizations_extends dashboards existing query_id vs :
  forall sent logged vs' sent' logged',
  upload_visualizations updated_visualization created_visualization
    dashboards existing query_id sent logged vs = Ok (vs', sent', logged') ->
  exists new, sent' = sent ++ new.
Proof.
  induction vs as [|v vs IH]; intros sent logged vs' sent' logged';
    cbn [upload_visualizations].
  - intros [= _ <- _]. exists []. now rewrite app_nil_r.
  - destruct (upload_visualization _ _ _ _ _ _ _) as [[[viz' r] l]| |];
      cbn [bind]; try discriminate.
    destruct (upload_visualizations _ _ _ _ _ _ _ vs)
      as [[[vs'' sent''] logged'']| |] eqn:E; cbn [bind]; try discriminate.
    intros [= _ <- _]. apply IH in E as (new & ->).
    exists (r :: new). now rewrite <- app_assoc.
Qed.

(** Lines 129-172: the id recorded is the id of the record of the
    server, which is the answer to the creation when one was sent. *)
Lemma finish_served n q st1 id st' :
  served st1 ->
  update_and_visualize updated_visualization created_visualization n q
    (create_if_missing created_query n q st1) = Ok (id, st') ->
  served st'.
Proof.
  intros (evs & Hr & Hids & Hpend). unfold create_if_missing.
  destruct (dict_in n (existing_queries st1)) eqn:Ein.
  - unfold update_and_visualize.
    destruct (dict_get n (existing_queries st1)) as [remote|] eqn:Er;
      cbn [item bind]; [|discriminate].
    destruct (upload_visualizations _ _ _ _ _ _ _ _)
      as [[[vs sent] logged]| |] eqn:Ev; cbn [bind]; try discriminate.
    intros [= <- <-]. apply upload_visualizations_extends in Ev as (new & ->).
    exists (evs ++ UpdateQuery n (rq_id remote) (current st1 n q) :: new). split.
    { simpl. rewrite Hr, <- !app_assoc. reflexivity. }
    split.
    + intros m id. unfold uploaded_id_of. simpl.
      destruct (String.eqb_spec m n) as [->|Hne].
      * rewrite dict_get_set_same. simpl. intros [= <-].
        exists remote. split; [exact Er|]. split; [reflexivity|].
        apply answered_app.
        destruct (uploaded_id_of st1 n) as [id1|] eqn:Eu.
        -- destruct (Hids n id1 Eu) as (r & Hr1 & _ & Ha). congruence.
        -- unfold answered. rewrite <- (Hpend n Eu), Er. reflexivity.
      * rewrite dict_get_set_other by assumption. intros H.
        destruct (Hids m id H) as (r & H1 & H2 & H3).
        exists r. repeat split; auto. now apply answered_app.
    + intros m. unfold uploaded_id_of. simpl.
      destruct (String.eqb_spec m n) as [->|Hne].
      * rewrite dict_get_set_same. discriminate.
      * rewrite dict_get_set_other by assumption. apply Hpend.
  - assert (Eu : uploaded_id_of st1 n = None).
    { destruct (uploaded_id_of st1 n) as [id1|] eqn:Eu; auto.
      destruct (Hids n id1 Eu) as (r & Hr1 & _). unfold dict_in in Ein.
      rewrite Hr1 in Ein. discriminate. }
    assert (E0 : dict_get n (existing_queries st0) = None).
    { rewrite <- (Hpend n Eu). unfold dict_in in Ein.
      destruct (dict_get n (existing_queries st1)); [discriminate|reflexivity]. }
    set (data := current st1 n q).
    set (remote := created_query (requests st1) n data).
    unfold update_and_visualize. cbn [existing_queries set_existing_queries].
    rewrite dict_get_set_same. cbn [item bind].
    destruct (upload_visualizations _ _ _ _ _ _ _ _)
      as [[[vs sent] logged]| |] eqn:Ev; cbn [bind]; try discriminate.
    intros [= <- <-]. apply upload_visualizations_extends in Ev as (new & ->).
    exists (evs ++ CreateQuery n data :: UpdateQuery n (rq_id remote) data :: new).
    split.
    { simpl. rewrite Hr, <- !app_assoc. reflexivity. }
    split.
    + intros m id. unfold uploaded_id_of. simpl.
      destruct (String.eqb_spec m n) as [->|Hne].
      * rewrite !dict_get_set_same. simpl. intros [= <-].
        exists remote. split; [reflexivity|]. split; [reflexivity|].
        unfold answered. rewrite E0. exists evs, data, new.
        split; [reflexivity|]. unfold remote. now rewrite Hr.
      * rewrite !dict_get_set_other by assumption. intros H.
        destruct (Hids m id H) as (r & H1 & H2 & H3).
        exists r. repeat split; auto. now apply answered_app.
    + intros m. unfold uploaded_id_of. simpl.
      destruct (String.eqb_spec m n) as [->|Hne].
      * rewrite dict_get_set_same. discriminate.
      * rewrite !dict_get_set_other by assumption. apply Hpend.
Qed.

(** What the calls of [upload_query] within a budget keep. *)
Definition keeps (rec : string -> state -> result (Z * state)) : Prop :=
  forall m st id st', served st -> rec m st = Ok (id, st') -> served st'.

Lemma resolve_parameters_served rec n : keeps rec ->
  forall indices st st1,
  served st -> resolve_parameters rec n indices st = Ok st1 -> served st1.
Proof.
  intros Hrec. induction indices as [|i indices IH]; intros st st1 Hst.
  - now intros [= <-].
  - cbn [resolve_parameters].
    destruct (nth_error (the_parameters st n) i) as [param|];
      [|now intros [= <-]].
    destruct (String.eqb (p_type param) "query"); [|now apply IH].
    destruct (p_queryName param) as [m|]; cbn [item bind]; [|discriminate].
    destruct (rec m st) as [[id st2]| |] eqn:Er; cbn [bind]; try discriminate.
    assert (Hst2 := Hrec m st id st2 Hst Er).
    destruct (nth_error (the_parameters st2 n) i) as [param1|]; [|now apply IH].
    destruct (p_queryName param1); cbn [item bind]; [|discriminate].
    apply IH. now apply served_set_parameter.
Qed.

Lemma upload_query_served fuel :
  keeps (upload_query created_query updated_visualization created_visualization fuel).
Proof.
  induction fuel as [|fuel IH]; intros n st id st' Hst; [discriminate|].
  cbn [upload_query].
  destruct (dict_get n (saved_queries st)) as [q|]; cbn [item bind]; [|discriminate].
  destruct (q_uploaded_id q); [now intros [= _ <-]|].
  destruct (q_parameters q) as [ps|].
  - destruct (resolve_parameters _ n (seq 0 (length ps)) st) as [st1| |] eqn:Er;
      cbn [bind]; try discriminate.
    apply finish_served. eapply resolve_parameters_served; eauto.
  - cbn [bind]. now apply finish_served.
Qed.

Lemma upload_each_served fuel names : forall st st',
  served st ->
  upload_each created_query updated_visualization created_visualization
    fuel names st = Ok st' ->
  served st'.
Proof.
  induction names as [|n names IH]; intros st st' Hst; cbn [upload_each].
  - now intros [= <-].
  - destruct (upload_query _ _ _ fuel n st) as [[id st1]| |] eqn:E; cbn [bind];
      try discriminate.
    apply IH. eapply upload_query_served; eauto.
Qed.

(** The id of the query saved as [n] is the id of the record [r] the
    server holds for it in [st']: the record it had in [st0] or, when
    it had none, its answer to the creation of [n], which was sent in
    [pre] and which the update of [n] follows at once. *)
Definition remote_id (st' : state) (pre : list request) (n : string) (id : Z)
    : Prop :=
  exists r,
    dict_get n (existing_queries st') = Some r /\ rq_id r = id
    /\ match dict_get n (existing_queries st0) with
       | Some r0 => r = r0
       | None =>
           exists a data rest,
             pre = a ++ CreateQuery n data :: UpdateQuery n id data :: rest
             /\ r = created_query (requests st0 ++ a) n data
       end.

Lemma served_remote_id st' evs pre tail n id data :
  served st' ->
  requests st' = requests st0 ++ evs -> evs = pre ++ tail ->
  uploaded_id_of st' n = Some id ->
  updates_of n evs = 1 -> In (UpdateQuery n id data) pre ->
  remote_id st' pre n id.
Proof.
  intros (evs' & Hr' & Hids & _) Hr Hevs Hid Hone Hin.
  assert (evs' = evs) by (rewrite Hr in Hr'; now apply app_inv_head in Hr').
  subst evs'. destruct (Hids n id Hid) as (r & Hget & Hrq & Ha).
  exists r. split; [exact Hget|]. split; [exact Hrq|].
  unfold answered in Ha. destruct (dict_get n (existing_queries st0)); [exact Ha|].
  destruct Ha as (a & d & rest & Ea & Er). rewrite Hrq in Ea.
  apply in_split in Hin as (p1 & p2 & Hp).
  assert (Hsame : p1 ++ UpdateQuery n id data :: (p2 ++ tail)
                  = (a ++ [CreateQuery n d]) ++ UpdateQuery n id d :: rest).
  { rewrite <- app_assoc. simpl. rewrite <- Ea, Hevs, Hp, <- app_assoc.
    reflexivity. }
  destruct (filter_once (is_update n) p1 (a ++ [CreateQuery n d])
              (UpdateQuery n id data) (UpdateQuery n id d) (p2 ++ tail) rest)
    as (E1 & E2 & _); auto.
  - unfold updates_of in Hone. rewrite Hevs, Hp, <- app_assoc in Hone. exact Hone.
  - simpl. apply String.eqb_refl.
  - simpl. apply String.eqb_refl.
  - exists a, d, p2. split; [|exact Er].
    rewrite Hp, E1, E2, <- app_assoc. reflexivity.
Qed.

End Served.

End ServerFacts.

Import ServerFacts.

Lemma well_formed_no_ids rank st0 :
  well_formed rank st0 = true -> forall n, uploaded_id_of st0 n = None.
Proof.
  intros Hwf n. unfold uploaded_id_of.
  destruct (dict_get n (Push.saved_queries st0)) as [q|] eqn:E; auto.
  now destruct (well_formed_query rank st0 Hwf n q E).
Qed.

(** The requests of a query that carries an id, in a state of a run. *)
Lemma inv_dependencies created_query rank st0 b st Q id q i p Q2 :
  inv rank st0 b st -> served created_query st0 st ->
  dict_get Q (Push.saved_queries st0) = Some q ->
  uploaded_id_of st Q = Some id ->
  nth_error (Push.parameters_of q) i = Some p ->
  Push.p_type p = "query" -> Push.p_queryName p = Some Q2 ->
  exists evs pre data post id2 data2 p',
    Push.requests st = Push.requests st0 ++ evs
    /\ evs = pre ++ own st0 Q id data ++ post
    /\ In (Push.UpdateQuery Q2 id2 data2) pre
    /\ uploaded_id_of st Q2 = Some id2
    /\ remote_id created_query st0 st pre Q2 id2
    /\ nth_error (Push.parameters_of data) i = Some p'
    /\ Push.p_queryName p' = None /\ Push.p_queryId p' = Some id2.
Proof.
  intros [Hkeys _ _ _ (evs & Hr & _ & Hacc)] Hserved Hq Hid Hi Hty Hname.
  assert (HQ : dict_in Q (Push.saved_queries st0) = true)
    by (unfold dict_in; now rewrite Hq).
  pose proof (Hacc Q HQ) as HaQ. unfold account in HaQ. rewrite Hid in HaQ.
  destruct HaQ as (_ & _ & pre & data & post & E & Hdep).
  destruct (Hdep i p Q2) as (id2 & data2 & p' & H1 & H2 & H3 & H4 & H5); auto.
  { unfold original. now rewrite Hq. }
  assert (HQ2 : dict_in Q2 (Push.saved_queries st0) = true).
  { rewrite <- Hkeys. unfold uploaded_id_of in H1. unfold dict_in.
    destruct (dict_get Q2 (Push.saved_queries st)); [reflexivity|discriminate]. }
  pose proof (Hacc Q2 HQ2) as Ha2. unfold account in Ha2. rewrite H1 in Ha2.
  destruct Ha2 as (Hone & _).
  exists evs, pre, data, post, id2, data2, p'. repeat split; auto.
  apply (served_remote_id created_query st0 st evs pre (own st0 Q id data ++ post)
           Q2 id2 data2); auto.
Qed.

(** C1.  The saved queries are well formed for [rank]: none carries an
    id yet, and every parameter of type query names a saved query of a
    lower rank (the references have no cycle and stay within the saved
    set).  Then for every saved query Q with a parameter of type query
    that names Q2, [upload_query] on Q, with fuel enough, returns; the
    requests it sent are [pre], then Q's own creation (when the server
    had no query of that name) and update, then [post]; the update of
    Q2 is in [pre], and the id [id2] it is sent with is the id of the
    record the server holds for Q2: the record it had when the run
    began or, when it had none, its answer to the creation of Q2,
    which is in [pre] too, right before the update; and the data sent
    for Q holds that id, and no name, in the parameter.  The same
    holds of Q in a whole run of [upload_queries]. *)
Theorem dependencies_uploaded_first
    (created_query : list Push.request -> string -> Push.saved_query -> Push.remote_query)
    (updated_visualization : list Push.request -> Z -> Push.visualization -> Z)
    (created_visualization : list Push.request -> Push.visualization -> Z)
    (rank : string -> nat) (st0 : Push.state) (fuel : nat)
    (Q : string) (q : Push.saved_query) (i : nat) (p : Push.parameter) (Q2 : string) :
  well_formed rank st0 = true ->
  depth rank st0 <= fuel ->
  dict_get Q (Push.saved_queries st0) = Some q ->
  nth_error (Push.parameters_of q) i = Some p ->
  Push.p_type p = "query" -> Push.p_queryName p = Some Q2 ->
  (exists id st' evs pre data post id2 data2 p',
     Push.upload_query created_query updated_visualization created_visualization
       fuel Q st0 = Ok (id, st')
     /\ Push.requests st' = Push.requests st0 ++ evs
     /\ evs = pre ++ own st0 Q id data ++ post
     /\ In (Push.UpdateQuery Q2 id2 data2) pre
     /\ uploaded_id_of st' Q2 = Some id2
     /\ remote_id created_query st0 st' pre Q2 id2
     /\ nth_error (Push.parameters_of data) i = Some p'
     /\ Push.p_queryName p' = None /\ Push.p_queryId p' = Some id2)
  /\
  (exists id st' evs pre data post id2 data2 p',
     Push.upload_queries created_query updated_visualization created_visualization
       fuel st0 = Ok st'
     /\ Push.requests st' = Push.requests st0 ++ evs
     /\ evs = pre ++ own st0 Q id data ++ post
     /\ In (Push.UpdateQuery Q2 id2 data2) pre
     /\ uploaded_id_of st' Q2 = Some id2
     /\ remote_id created_query st0 st' pre Q2 id2
     /\ nth_error (Push.parameters_of data) i = Some p'
     /\ Push.p_queryName p' = None /\ Push.p_queryId p' = Some id2).
Proof.
  intros Hwf Hfuel Hq Hi Hty Hname.
  assert (HQ : dict_in Q (Push.saved_queries st0) = true)
    by (unfold dict_in; now rewrite Hq).
  assert (Hr := rank_lt_depth rank st0 Q HQ).
  assert (Hs0 := served_start created_query st0 (well_formed_no_ids rank st0 Hwf)).
  split.
  - destruct (upload_query_spec created_query updated_visualization
                created_visualization rank st0 Hwf fuel Q
                (Nat.lt_le_trans _ _ _ Hr Hfuel) (depth rank st0) st0 Hr HQ
                (inv_start rank st0 Hwf))
      as (id & st' & Hup & Hinv & Hid & _).
    assert (Hs := upload_query_served created_query updated_visualization
                    created_visualization st0 fuel Q st0 id st' Hs0 Hup).
    destruct (inv_dependencies created_query rank st0 _ st' Q id q i p Q2
                Hinv Hs Hq Hid Hi Hty Hname)
      as (evs & pre & data & post & id2 & data2 & p' & H).
    exists id, st', evs, pre, data, post, id2, data2, p'. tauto.
  - destruct (upload_queries_spec created_query updated_visualization
                created_visualization rank st0 Hwf fuel Hfuel)
      as (st' & Hrun & Hinv & Hall).
    assert (Hs := upload_each_served created_query updated_visualization
                    created_visualization st0 fuel _ st0 st' Hs0 Hrun).
    destruct (uploaded_id_of st' Q) as [id|] eqn:Hid;
      [|now apply Hall in HQ].
    destruct (inv_dependencies created_query rank st0 _ st' Q id q i p Q2
                Hinv Hs Hq Hid Hi Hty Hname)
      as (evs & pre & data & post & id2 & data2 & p' & H).
    exists id, st', evs, pre, data, post, id2, data2, p'. tauto.
Qed.

(** C2.  In a run of [upload_queries] on well-formed saved queries,
    with fuel enough, exactly one update request is sent for every
    saved query, and one create request when the server had no query of
    its name, none when it had one; in the state the run ends in,
    [upload_query] returns the id the query carries and leaves the
    state, the requests sent among it, as it is. *)
Theorem one_update_per_query
    (created_query : list Push.request -> string -> Push.saved_query -> Push.remote_query)
    (updated_visualization : list Push.request -> Z -> Push.visualization -> Z)
    (created_visualization : list Push.request -> Push.visualization -> Z)
    (rank : string -> nat) (st0 : Push.state) (fuel : nat) :
  well_formed rank st0 = true ->
  depth rank st0 <= fuel ->
  exists st' evs,
    Push.upload_queries created_query updated_visualization created_visualization
      fuel st0 = Ok st'
    /\ Push.requests st' = Push.requests st0 ++ evs
    /\ forall n, dict_in n (Push.saved_queries st0) = true ->
         updates_of n evs = 1
         /\ creates_of n evs
            = (if dict_in n (Push.existing_queries st0) then 0 else 1)
         /\ exists id,
              uploaded_id_of st' n = Some id
              /\ forall fuel',
                   Push.upload_query created_query updated_visualization
                     created_visualization (S fuel') n st' = Ok (id, st').
Proof.
  intros Hwf Hfuel.
  destruct (upload_queries_spec created_query updated_visualization
              created_visualization rank st0 Hwf fuel Hfuel)
    as (st' & Hrun & Hinv & Hall).
  destruct (inv_sent rank st0 _ st' Hinv) as (evs & Hr & _ & Hacc).
  exists st', evs. split; [assumption|]. split; [assumption|].
  intros n Hn. specialize (Hacc n Hn). specialize (Hall n Hn).
  unfold account in Hacc.
  destruct (uploaded_id_of st' n) as [id|] eqn:Hid; [|congruence].
  destruct Hacc as (Hu & Hc & _). split; [assumption|]. split; [assumption|].
  exists id. split; [reflexivity|].
  intros fuel'. cbn [Push.upload_query]. unfold uploaded_id_of in Hid.
  destruct (dict_get n (Push.saved_queries st')) as [q'|]; [|discriminate].
  cbn [item bind]. now rewrite Hid.
Qed.

(** C7.  The metadata document fetch.py writes for a query holds, in
    every parameter of type query, a queryName and no queryId; the
    data push.py sends for a query, in a run on well-formed saved
    queries, holds in every parameter of type query a queryId and no
    queryName. *)
Theorem references_by_name_on_disk_by_id_on_the_wire :
  (forall queries query metadata m w options,
     Fetch.query_metadata queries query metadata = Ok (m, w) ->
     dict_get "options" m = Some options ->
     forall p, In p (ParameterFacts.parameters_in options) ->
               ParameterFacts.is_query_parameter p = true ->
               ParameterFacts.has_key "queryName" p = true
               /\ ParameterFacts.has_key "queryId" p = false)
  /\
  (forall created_query updated_visualization created_visualization
          rank st0 fuel,
     well_formed rank st0 = true ->
     depth rank st0 <= fuel ->
     exists st' evs,
       Push.upload_queries created_query updated_visualization
         created_visualization fuel st0 = Ok st'
       /\ Push.requests st' = Push.requests st0 ++ evs
       /\ forall r data,
            In r evs ->
            (exists n, r = Push.CreateQuery n data)
            \/ (exists n id, r = Push.UpdateQuery n id data) ->
            forall p, In p (Push.parameters_of data) ->
                      Push.p_type p = "query" ->
                      Push.p_queryId p <> None /\ Push.p_queryName p = None).
Proof.
  split.
  - intros queries query metadata m w options Hm Ho p Hin Hq.
    pose proof (ParameterFacts.query_metadata_name_references
                  _ _ _ _ _ _ Hm Ho p Hin Hq) as H.
    unfold ParameterFacts.by_name_only in H.
    apply andb_true_iff in H as [H1 H2]. apply negb_true_iff in H2. auto.
  - intros cq uv cv rank st0 fuel Hwf Hfuel.
    destruct (upload_queries_spec cq uv cv rank st0 Hwf fuel Hfuel)
      as (st' & Hrun & Hinv & _).
    destruct (inv_sent rank st0 _ st' Hinv) as (evs & Hr & Hids & _).
    exists st', evs. split; [assumption|]. split; [assumption|].
    intros r data Hin Hshape p Hp Hty.
    rewrite forallb_forall in Hids. specialize (Hids r Hin).
    assert (Hall : forallb by_id_only (Push.parameters_of data) = true).
    { destruct Hshape as [(n & ->)|(n & id & ->)]; exact Hids. }
    rewrite forallb_forall in Hall. specialize (Hall p Hp).
    unfold by_id_only in Hall. apply String.eqb_eq in Hty. rewrite Hty in Hall.
    destruct (Push.p_queryName p); [discriminate|].
    destruct (Push.p_queryId p); [split; congruence|discriminate].
Qed.

(* ================================================================= *)
(** ** The widgets of the dashboards *)

Module DashboardFacts.
Import Push.

(** From [st] to [st']: [reqs] were sent and [logs] logged, nothing
    else has changed. *)
Definition io_step (st st' : state) (reqs : list request)
    (logs : list log_record) : Prop :=
  saved_queries st' = saved_queries st
  /\ existing_queries st' = existing_queries st
  /\ existing_dashboards st' = existing_dashboards st
  /\ requests st' = requests st ++ reqs
  /\ log st' = log st ++ logs.

Lemma io_step_refl st : io_step st st [] [].
Proof. unfold io_step. now rewrite !app_nil_r. Qed.

Lemma io_step_trans st1 st2 st3 r1 l1 r2 l2 :
  io_step st1 st2 r1 l1 -> io_step st2 st3 r2 l2 ->
  io_step st1 st3 (r1 ++ r2) (l1 ++ l2).
Proof.
  unfold io_step. intros (A1 & A2 & A3 & A4 & A5) (B1 & B2 & B3 & B4 & B5).
  rewrite B1, B2, B3, B4, B5, A4, A5, !app_assoc. auto.
Qed.

Section Saved.
Variable saved : dict saved_query.
Variable dashboards : dict remote_dashboard.

(** The visualization a saved widget names, when its query is
    saved and has one of that name. *)
Definition found (w : saved_widget) : option visualization :=
  match w_visualization w with
  | Some (visualisationName, queryName) =>
      match dict_get queryName saved with
      | Some query =>
          find (fun i => String.eqb (v_name i) visualisationName)
               (q_visualizations query)
      | None => None
      end
  | None => None
  end.

(** The widget names a visualization of a saved query; the
    visualization, if the query has it, carries the id
    [upload_query] has recorded. *)
Definition widget_ok (w : saved_widget) : bool :=
  match w_visualization w with
  | Some (_, queryName) =>
      if dict_in queryName saved then
        match found w with
        | Some v => match v_uploaded_id v with Some _ => true | None => false end
        | None => true
        end
      else false
  | None => false
  end.

(** The query is saved, and has no visualization of the name. *)
Definition unresolved (w : saved_widget) : bool :=
  widget_ok w && match found w with None => true | Some _ => false end.

Definition widget_requests (dashboard_id : Z) (w : saved_widget) : list request :=
  match found w with
  | Some v =>
      match v_uploaded_id v with
      | Some id => [CreateWidget dashboard_id id (w_text w) (w_options w)]
      | None => []
      end
  | None => []
  end.

Definition widget_log (w : saved_widget) : list log_record :=
  match w_visualization w, found w with
  | Some (visualisationName, queryName), None =>
      if dict_in queryName saved then
        ErrVisualisation visualisationName queryName
        :: (if String.eqb visualisationName "Table" then [ErrTableNote] else [])
      else []
  | _, _ => []
  end.

Definition deletions (d : remote_dashboard) : list request :=
  match d_widgets d with
  | Some ws => map (fun w => DeleteWidget (rw_id w)) ws
  | None => []
  end.

(** Every widget of the dashboard on the server has a
    visualization. *)
Definition remote_ok (d : remote_dashboard) : bool :=
  match d_widgets d with
  | Some ws => forallb (fun w => match rw_visualization w with
                                 | Some _ => true
                                 | None => false
                                 end) ws
  | None => true
  end.

Definition dashboard_ok (nd : string * saved_dashboard) : bool :=
  match dict_get (fst nd) dashboards with
  | Some d => remote_ok d && forallb widget_ok (sd_widgets (snd nd))
  | None => false
  end.

(** The requests for a saved dashboard: the deletion of every
    widget the server has on it, then the creation of the saved
    widgets whose visualization is found, in the saved order. *)
Definition dashboard_requests (nd : string * saved_dashboard) : list request :=
  match dict_get (fst nd) dashboards with
  | Some d =>
      deletions d ++ flat_map (widget_requests (d_id d)) (sd_widgets (snd nd))
  | None => []
  end.

Definition dashboard_log (nd : string * saved_dashboard) : list log_record :=
  flat_map widget_log (sd_widgets (snd nd)).

Definition any_unresolved (saved_dashboards : dict saved_dashboard) : bool :=
  existsb (fun nd => existsb unresolved (sd_widgets (snd nd))) saved_dashboards.

Lemma add_widget_spec d w error st :
  saved_queries st = saved -> widget_ok w = true ->
  exists st',
    add_widget d w (error, st) = Ok (error || unresolved w, st')
    /\ io_step st st' (widget_requests (d_id d) w) (widget_log w).
Proof.
  intros Hs Hok. unfold add_widget, unresolved, widget_requests, widget_log.
  rewrite Hok. unfold widget_ok, found in *. rewrite Hs.
  destruct (w_visualization w) as [[vn qn]|]; [|discriminate]. cbn [item bind].
  unfold dict_in in *.
  destruct (dict_get qn saved) as [query|]; [|discriminate]. cbn [item bind].
  destruct (find _ (q_visualizations query)) as [v|].
  - destruct (v_uploaded_id v) as [id|]; [|discriminate]. cbn [item bind].
    rewrite orb_false_r. eexists. split; [reflexivity|].
    unfold io_step, send. simpl. now rewrite app_nil_r.
  - rewrite orb_true_r. eexists. split; [reflexivity|].
    unfold io_step, logging. simpl. now rewrite app_nil_r.
Qed.

Lemma add_widgets_spec d ws : forall error st,
  saved_queries st = saved -> forallb widget_ok ws = true ->
  exists st',
    add_widgets d ws (error, st) = Ok (error || existsb unresolved ws, st')
    /\ io_step st st' (flat_map (widget_requests (d_id d)) ws)
               (flat_map widget_log ws).
Proof.
  induction ws as [|w ws IH]; intros error st Hs Hok.
  - exists st. simpl. rewrite orb_false_r. split; auto using io_step_refl.
  - simpl in Hok. apply andb_true_iff in Hok as [Hw Hws].
    destruct (add_widget_spec d w error st Hs Hw) as (st1 & E1 & Hio1).
    cbn [add_widgets]. rewrite E1. cbn [bind].
    destruct (IH (error || unresolved w) st1) as (st' & E' & Hio'); auto.
    { destruct Hio1 as (-> & _). exact Hs. }
    exists st'. simpl. rewrite orb_assoc. split; [exact E'|].
    eapply io_step_trans; eauto.
Qed.

Lemma remove_widgets_spec ws : forall st,
  forallb (fun w => match rw_visualization w with
                    | Some _ => true
                    | None => false
                    end) ws = true ->
  exists st',
    remove_widgets ws st = Ok st'
    /\ io_step st st' (map (fun w => DeleteWidget (rw_id w)) ws) [].
Proof.
  induction ws as [|w ws IH]; intros st Hok.
  - exists st. split; auto using io_step_refl.
  - simpl in Hok. apply andb_true_iff in Hok as [Hw Hws].
    cbn [remove_widgets]. unfold remove_widget.
    destruct (rw_visualization w); [|discriminate]. cbn [item bind].
    destruct (IH (send (DeleteWidget (rw_id w)) st) Hws) as (st' & E & Hio).
    exists st'. split; [exact E|].
    change (map (fun w0 => DeleteWidget (rw_id w0)) (w :: ws))
      with ([DeleteWidget (rw_id w)] ++ map (fun w0 => DeleteWidget (rw_id w0)) ws).
    change (@nil log_record) with (@nil log_record ++ []).
    eapply io_step_trans; [|exact Hio].
    unfold io_step, send. simpl. now rewrite app_nil_r.
Qed.

Lemma update_dashboard_spec name sd error st :
  saved_queries st = saved -> existing_dashboards st = dashboards ->
  dashboard_ok (name, sd) = true ->
  exists st',
    update_dashboard name sd (error, st)
    = Ok (error || existsb unresolved (sd_widgets sd), st')
    /\ io_step st st' (dashboard_requests (name, sd)) (dashboard_log (name, sd)).
Proof.
  intros Hs Hd Hok. unfold update_dashboard, dashboard_ok, dashboard_requests,
    dashboard_log in *. rewrite Hd. simpl in *.
  destruct (dict_get name dashboards) as [d|]; [|discriminate]. cbn [item bind].
  apply andb_true_iff in Hok as [Hr Hw].
  match goal with
  | |- context [bind ?m _] =>
      assert (Hdel : exists st1, m = Ok st1 /\ io_step st st1 (deletions d) [])
  end.
  { unfold remote_ok, deletions in *. destruct (d_widgets d) as [[|w ws]|].
    - exists st. split; auto using io_step_refl.
    - exact (remove_widgets_spec (w :: ws) st Hr).
    - exists st. split; auto using io_step_refl. }
  destruct Hdel as (st1 & -> & Hio1). cbn [bind].
  destruct (add_widgets_spec d (sd_widgets sd) error st1) as (st' & E & Hio'); auto.
  { destruct Hio1 as (-> & _). exact Hs. }
  exists st'. split; [exact E|].
  change (flat_map widget_log (sd_widgets sd))
    with ([] ++ flat_map widget_log (sd_widgets sd)).
  eapply io_step_trans; eauto.
Qed.

Lemma update_each_spec sds : forall error st,
  saved_queries st = saved -> existing_dashboards st = dashboards ->
  forallb dashboard_ok sds = true ->
  exists st',
    update_each sds (error, st) = Ok (error || any_unresolved sds, st')
    /\ io_step st st' (flat_map dashboard_requests sds)
               (flat_map dashboard_log sds).
Proof.
  induction sds as [|[name sd] sds IH]; intros error st Hs Hd Hok.
  - exists st. simpl. rewrite orb_false_r. split; auto using io_step_refl.
  - simpl in Hok. apply andb_true_iff in Hok as [H1 Hrest].
    destruct (update_dashboard_spec name sd error st Hs Hd H1) as (st1 & E1 & Hio1).
    cbn [update_each]. rewrite E1. cbn [bind].
    destruct (IH (error || existsb unresolved (sd_widgets sd)) st1)
      as (st' & E' & Hio'); auto.
    { destruct Hio1 as (-> & _). exact Hs. }
    { destruct Hio1 as (_ & _ & -> & _). exact Hd. }
    exists st'. unfold any_unresolved in *. simpl. rewrite orb_assoc.
    split; [exact E'|]. eapply io_step_trans; eauto.
Qed.

End Saved.

(** [update_dashboards], when every lookup it makes succeeds. *)
Lemma update_dashboards_spec sds st :
  forallb (dashboard_ok (saved_queries st) (existing_dashboards st)) sds = true ->
  exists st',
    update_dashboards sds st
    = Ok (if any_unresolved (saved_queries st) sds then 1%Z else 0%Z, st')
    /\ io_step st st'
         (flat_map (dashboard_requests (saved_queries st) (existing_dashboards st)) sds)
         (flat_map (dashboard_log (saved_queries st)) sds
          ++ [if any_unresolved (saved_queries st) sds
              then InfoLoadedWithErrors else InfoLoaded]).
Proof.
  intros Hok. unfold update_dashboards.
  destruct (update_each_spec (saved_queries st) (existing_dashboards st) sds
              false st eq_refl eq_refl Hok) as (st1 & E & Hio).
  rewrite E. cbn [bind orb].
  destruct (any_unresolved (saved_queries st) sds); eexists; (split; [reflexivity|]);
    rewrite <- (app_nil_r (flat_map (dashboard_requests _ _) sds));
    (eapply io_step_trans; [exact Hio|]);
    unfold io_step, logging; simpl; now rewrite app_nil_r.
Qed.

End DashboardFacts.

(** ** A widget of a query that is not saved *)

Module KeyErrorFacts.
Import Push.

(** A step of [update_dashboards] raises a KeyError or goes on, the
    saved queries and the dashboards as they were. *)
Definition key_error_or_same {A} (r : result A) (st : state)
    (state_of : A -> state) : Prop :=
  (exists k, r = Raise (KeyError k))
  \/ (exists a, r = Ok a
                /\ saved_queries (state_of a) = saved_queries st
                /\ existing_dashboards (state_of a) = existing_dashboards st).

Lemma add_widget_cases d w error st :
  key_error_or_same (add_widget d w (error, st)) st snd.
Proof.
  unfold key_error_or_same, add_widget.
  destruct (w_visualization w) as [[vn qn]|]; cbn [item bind]; [|left; eexists; reflexivity].
  destruct (dict_get qn (saved_queries st)) as [query|]; cbn [item bind];
    [|left; eexists; reflexivity].
  destruct (find _ (q_visualizations query)) as [v|].
  - destruct (v_uploaded_id v); cbn [item bind]; [|left; eexists; reflexivity].
    right. eexists. split; [reflexivity|]. split; reflexivity.
  - right. eexists. split; [reflexivity|]. split; reflexivity.
Qed.

Lemma add_widget_missing d w error st vn qn :
  w_visualization w = Some (vn, qn) ->
  dict_get qn (saved_queries st) = None ->
  add_widget d w (error, st) = Raise (KeyError qn).
Proof.
  intros Hv Hq. unfold add_widget. rewrite Hv. cbn [item bind].
  now rewrite Hq.
Qed.

Definition names_unsaved_query (st : state) (w : saved_widget) : Prop :=
  exists vn qn, w_visualization w = Some (vn, qn)
                /\ dict_get qn (saved_queries st) = None.

Lemma names_unsaved_query_same st st' w :
  saved_queries st' = saved_queries st ->
  names_unsaved_query st w -> names_unsaved_query st' w.
Proof. intros E (vn & qn & H1 & H2). exists vn, qn. now rewrite E. Qed.

Lemma add_widgets_cases d ws : forall acc,
  key_error_or_same (add_widgets d ws acc) (snd acc) snd.
Proof.
  induction ws as [|w ws IH]; intros [error st]; cbn [add_widgets].
  - right. exists (error, st). auto.
  - destruct (add_widget_cases d w error st) as [(k & ->)|([e st1] & -> & H1 & H2)].
    + left. eexists. reflexivity.
    + cbn [bind]. destruct (IH (e, st1)) as [(k & ->)|(a & -> & H3 & H4)].
      * left. eexists. reflexivity.
      * right. exists a. simpl in *. split; [reflexivity|]. split; congruence.
Qed.

Lemma add_widgets_missing d ws : forall error st,
  (exists w, In w ws /\ names_unsaved_query st w) ->
  exists k, add_widgets d ws (error, st) = Raise (KeyError k).
Proof.
  induction ws as [|w0 ws IH]; intros error st (w & Hin & Hw); [destruct Hin|].
  cbn [add_widgets].
  destruct (add_widget_cases d w0 error st) as [(k & ->)|([e st1] & E & H1 & _)].
  - eexists. reflexivity.
  - rewrite E. cbn [bind]. destruct Hin as [->|Hin].
    + destruct Hw as (vn & qn & Hv & Hq).
      rewrite (add_widget_missing d w error st vn qn Hv Hq) in E. discriminate.
    + apply IH. exists w. split; auto.
      eapply names_unsaved_query_same; eauto.
Qed.

Lemma remove_widgets_cases ws : forall st,
  key_error_or_same (remove_widgets ws st) st (fun s => s).
Proof.
  induction ws as [|w ws IH]; intros st; cbn [remove_widgets].
  - right. exists st. auto.
  - unfold remove_widget. destruct (rw_visualization w); cbn [item bind];
      [|left; eexists; reflexivity].
    destruct (IH (send (DeleteWidget (rw_id w)) st)) as [(k & ->)|(a & -> & H3 & H4)].
    + left. eexists. reflexivity.
    + right. exists a. auto.
Qed.

Lemma update_dashboard_cases name sd acc :
  key_error_or_same (update_dashboard name sd acc) (snd acc) snd.
Proof.
  destruct acc as [error st]. unfold update_dashboard.
  destruct (dict_get name (existing_dashboards st)) as [d|]; cbn [item bind];
    [|left; eexists; reflexivity].
  match goal with
  | |- context [bind ?m _] =>
      assert (H : key_error_or_same m st (fun s => s))
  end.
  { destruct (d_widgets d) as [[|w ws]|].
    - right. exists st. auto.
    - apply remove_widgets_cases.
    - right. exists st. auto. }
  destruct H as [(k & ->)|(st1 & -> & H1 & H2)]; [left; eexists; reflexivity|]. cbn [bind].
  destruct (add_widgets_cases d (sd_widgets sd) (error, st1))
    as [(k & ->)|(a & -> & H3 & H4)]; [left; eexists; reflexivity|].
  right. exists a. simpl in *. split; [reflexivity|]. split; congruence.
Qed.

Lemma update_dashboard_missing name sd error st :
  (exists w, In w (sd_widgets sd) /\ names_unsaved_query st w) ->
  exists k, update_dashboard name sd (error, st) = Raise (KeyError k).
Proof.
  intros Hw. unfold update_dashboard.
  destruct (dict_get name (existing_dashboards st)) as [d|]; cbn [item bind];
    [|eexists; reflexivity].
  match goal with
  | |- context [bind ?m _] =>
      assert (H : key_error_or_same m st (fun s => s))
  end.
  { destruct (d_widgets d) as [[|w ws]|].
    - right. exists st. auto.
    - apply remove_widgets_cases.
    - right. exists st. auto. }
  destruct H as [(k & ->)|(st1 & -> & H1 & H2)]; [eexists; reflexivity|]. cbn [bind].
  apply add_widgets_missing. destruct Hw as (w & Hin & Hw).
  exists w. split; auto. eapply names_unsaved_query_same; eauto.
Qed.

Lemma update_each_missing sds : forall error st,
  (exists name sd w, In (name, sd) sds /\ In w (sd_widgets sd)
                     /\ names_unsaved_query st w) ->
  exists k, update_each sds (error, st) = Raise (KeyError k).
Proof.
  induction sds as [|[name0 sd0] sds IH]; intros error st
    (name & sd & w & Hin & Hw & Hmiss); [destruct Hin|].
  cbn [update_each].
  destruct (update_dashboard_cases name0 sd0 (error, st))
    as [(k & ->)|([e st1] & E & H1 & _)]; [eexists; reflexivity|].
  rewrite E. cbn [bind]. destruct Hin as [[= -> ->]|Hin].
  - destruct (update_dashboard_missing name sd error st) as (k & Ek).
    { exists w. auto. }
    rewrite Ek in E. discriminate.
  - apply IH. exists name, sd, w. repeat split; auto.
    eapply names_unsaved_query_same; eauto.
Qed.

End KeyErrorFacts.

(** C10.  When some widget of some saved dashboard names, in its
    visualization, a query that is not among the saved queries,
    [update_dashboards] raises a KeyError: it returns neither 0 nor 1.
    A widget whose query is saved but has no visualization of the name
    is the one case the loop takes in: the widget is skipped, with an
    error logged and the flag set, and the loop goes on. *)
Theorem unsaved_query_raises_KeyError
    (saved_dashboards : dict Push.saved_dashboard) (st : Push.state) :
  (forall name sd w visualisationName queryName,
     In (name, sd) saved_dashboards -> In w (Push.sd_widgets sd) ->
     Push.w_visualization w = Some (visualisationName, queryName) ->
     dict_get queryName (Push.saved_queries st) = None ->
     exists key, Push.update_dashboards saved_dashboards st = Raise (KeyError key))
  /\
  (forall dashboard w error visualisationName queryName query,
     Push.w_visualization w = Some (visualisationName, queryName) ->
     dict_get queryName (Push.saved_queries st) = Some query ->
     find (fun i => String.eqb (Push.v_name i) visualisationName)
          (Push.q_visualizations query) = None ->
     exists l,
       Push.add_widget dashboard w (error, st)
       = Ok (true, Push.logging (ErrVisualisation visualisationName queryName :: l) st)).
Proof.
  split.
  - intros name sd w vn qn Hin Hw Hv Hq. unfold Push.update_dashboards.
    destruct (KeyErrorFacts.update_each_missing saved_dashboards false st)
      as (k & ->).
    { exists name, sd, w. repeat split; auto. now exists vn, qn. }
    exists k. reflexivity.
  - intros d w error vn qn query Hv Hq Hf. unfold Push.add_widget.
    rewrite Hv. cbn [item bind]. rewrite Hq. cbn [item bind]. rewrite Hf.
    eexists. reflexivity.
Qed.

Import DashboardFacts.

Lemma any_unresolved_In saved sds name sd w :
  In (name, sd) sds -> In w (Push.sd_widgets sd) -> unresolved saved w = true ->
  any_unresolved saved sds = true.
Proof.
  intros Hsd Hw Hu. unfold any_unresolved. apply existsb_exists.
  exists (name, sd). split; auto. apply existsb_exists. now exists w.
Qed.

(** [push] exits with what [update_dashboards] returns. *)
Lemma push_exit_code created_query updated_visualization created_visualization
    created_dashboard fuel datasources datasource_name existing_dashboards0
    saved_dashboards existing_queries0 saved_queries0 ds st1 st2 :
  Push.find_data_source datasources datasource_name = Ok ds ->
  Push.create_missing_dashboards created_dashboard saved_dashboards
    {| Push.saved_queries := saved_queries0;
       Push.existing_queries := existing_queries0;
       Push.existing_dashboards := existing_dashboards0;
       Push.requests := [];
       Push.log := [] |} = Ok st1 ->
  Push.upload_queries created_query updated_visualization created_visualization
    fuel st1 = Ok st2 ->
  Push.push created_query updated_visualization created_visualization
    created_dashboard fuel datasources datasource_name existing_dashboards0
    saved_dashboards existing_queries0 saved_queries0
  = Push.update_dashboards saved_dashboards st2.
Proof.
  intros Hds Hc Hu. unfold Push.push. rewrite Hds, Hc. cbn [bind].
  now rewrite Hu.
Qed.

(** C3, as the code has it.  When every lookup of [update_dashboards]
    succeeds, the requests it sends are, for each saved dashboard in
    turn: the deletion of every widget the server has on it, then the
    creation of the saved widgets whose visualization is found on its
    saved query, one request each, in the order of the saved document;
    a saved widget whose visualization is not found gets no request.
    In the document fetch.py writes, the widgets are in nondecreasing
    order of (row, column). *)
Theorem widgets_deleted_then_created_in_saved_order
    (saved_dashboards : dict Push.saved_dashboard) (st : Push.state) :
  forallb (dashboard_ok (Push.saved_queries st) (Push.existing_dashboards st))
          saved_dashboards = true ->
  (exists code st',
     Push.update_dashboards saved_dashboards st = Ok (code, st')
     /\ Push.requests st'
        = Push.requests st
          ++ flat_map
               (fun nd =>
                  match dict_get (fst nd) (Push.existing_dashboards st) with
                  | Some d =>
                      deletions d
                      ++ flat_map (widget_requests (Push.saved_queries st) (d_id d))
                                  (Push.sd_widgets (snd nd))
                  | None => []
                  end) saved_dashboards)
  /\ (forall dashboard_id w v id,
        found (Push.saved_queries st) w = Some v ->
        Push.v_uploaded_id v = Some id ->
        widget_requests (Push.saved_queries st) dashboard_id w
        = [Push.CreateWidget dashboard_id id (Push.w_text w) (Push.w_options w)])
  /\ (forall dashboard_id w,
        found (Push.saved_queries st) w = None ->
        widget_requests (Push.saved_queries st) dashboard_id w = [])
  /\ (forall ws out,
        Forall (fun w => WidgetFacts.position w <> None) ws ->
        Fetch.saved_widgets (JList ws) = Ok out ->
        StronglySorted WidgetFacts.row_col_le out).
Proof.
  intros Hok. split; [|split; [|split]].
  - destruct (update_dashboards_spec saved_dashboards st Hok)
      as (st' & E & _ & _ & _ & Hr & _).
    eexists _, st'. split; [exact E|exact Hr].
  - intros id w v vid Hf Hu. unfold widget_requests. now rewrite Hf, Hu.
  - intros id w Hf. unfold widget_requests. now rewrite Hf.
  - intros ws out Hpos Hs. now destruct (WidgetFacts.saved_widgets_sorted ws out Hpos Hs).
Qed.

(** C4, as the code has it.  When every lookup of [update_dashboards]
    succeeds (every saved dashboard is on the server, every widget the
    server has carries a visualization, every saved widget names a
    visualization of a saved query), a saved widget whose
    visualization is not found on its query is skipped and the others
    are processed: every widget the server had is deleted, every saved
    widget whose visualization is found is created, and
    [update_dashboards] returns 1 if some widget was skipped, 0 if
    none was; [push] exits with that value. *)
Theorem unresolved_widgets_are_skipped_and_fail_the_run
    (saved_dashboards : dict Push.saved_dashboard) (st : Push.state) :
  forallb (dashboard_ok (Push.saved_queries st) (Push.existing_dashboards st))
          saved_dashboards = true ->
  exists st',
    Push.update_dashboards saved_dashboards st
    = Ok (if any_unresolved (Push.saved_queries st) saved_dashboards
          then 1%Z else 0%Z, st')
    /\ (forall name sd d w v id,
          In (name, sd) saved_dashboards ->
          dict_get name (Push.existing_dashboards st) = Some d ->
          In w (Push.sd_widgets sd) ->
          found (Push.saved_queries st) w = Some v ->
          Push.v_uploaded_id v = Some id ->
          In (Push.CreateWidget (d_id d) id (Push.w_text w) (Push.w_options w))
             (Push.requests st'))
    /\ (forall name sd d ws rw,
          In (name, sd) saved_dashboards ->
          dict_get name (Push.existing_dashboards st) = Some d ->
          d_widgets d = Some ws -> In rw ws ->
          In (Push.DeleteWidget (rw_id rw)) (Push.requests st'))
    /\ (forall created_query updated_visualization created_visualization
               created_dashboard fuel datasources datasource_name
               existing_dashboards0 existing_queries0 saved_queries0 ds st1,
          Push.find_data_source datasources datasource_name = Ok ds ->
          Push.create_missing_dashboards created_dashboard saved_dashboards
            {| Push.saved_queries := saved_queries0;
               Push.existing_queries := existing_queries0;
               Push.existing_dashboards := existing_dashboards0;
               Push.requests := [];
               Push.log := [] |} = Ok st1 ->
          Push.upload_queries created_query updated_visualization
            created_visualization fuel st1 = Ok st ->
          Push.push created_query updated_visualization created_visualization
            created_dashboard fuel datasources datasource_name
            existing_dashboards0 saved_dashboards existing_queries0 saved_queries0
          = Ok (if any_unresolved (Push.saved_queries st) saved_dashboards
                then 1%Z else 0%Z, st')).
Proof.
  intros Hok.
  destruct (update_dashboards_spec saved_dashboards st Hok)
    as (st' & E & _ & _ & _ & Hr & _).
  exists st'. split; [exact E|]. split; [|split].
  - intros name sd d w v id Hsd Hd Hw Hf Hu. rewrite Hr.
    apply in_or_app. right. apply in_flat_map. exists (name, sd). split; auto.
    unfold dashboard_requests. simpl. rewrite Hd. apply in_or_app. right.
    apply in_flat_map. exists w. split; auto.
    unfold widget_requests. rewrite Hf, Hu. now left.
  - intros name sd d ws rw Hsd Hd Hws Hrw. rewrite Hr.
    apply in_or_app. right. apply in_flat_map. exists (name, sd). split; auto.
    unfold dashboard_requests. simpl. rewrite Hd. apply in_or_app. left.
    unfold deletions. rewrite Hws.
    now apply (in_map (fun w => Push.DeleteWidget (rw_id w))).
  - intros cq uv cv cd fuel dss dn eds0 eq0 sq0 ds st1 Hds Hc Hu.
    rewrite (push_exit_code cq uv cv cd fuel dss dn eds0 saved_dashboards
               eq0 sq0 ds st1 st Hds Hc Hu).
    exact E.
Qed.

(** ** The flag of [update_dashboards] *)

Module FlagFacts.
Import Push.

(** The widget names a visualization its saved query does not have. *)
Definition skipped (st : state) (w : saved_widget) : Prop :=
  exists visualisationName queryName query,
    w_visualization w = Some (visualisationName, queryName)
    /\ dict_get queryName (saved_queries st) = Some query
    /\ find (fun i => String.eqb (v_name i) visualisationName)
            (q_visualizations query) = None.

Lemma skipped_same st st' w :
  saved_queries st' = saved_queries st -> skipped st w -> skipped st' w.
Proof. intros E (vn & qn & q & H1 & H2 & H3). exists vn, qn, q. now rewrite E. Qed.

(** A step of [update_dashboards] raises a KeyError or goes on with
    the flag set, the saved queries as they were. *)
Definition key_error_or_flag (r : result (bool * state)) (st : state) : Prop :=
  (exists k, r = Raise (KeyError k))
  \/ (exists st', r = Ok (true, st') /\ saved_queries st' = saved_queries st).

(** The flag is set by a widget that is skipped, and by nothing
    unset. *)
Lemma add_widget_flag d w error st :
  error = true \/ skipped st w ->
  key_error_or_flag (add_widget d w (error, st)) st.
Proof.
  intros H. unfold key_error_or_flag, add_widget.
  destruct (w_visualization w) as [[vn qn]|] eqn:Ev; cbn [item bind];
    [|left; eexists; reflexivity].
  destruct (dict_get qn (saved_queries st)) as [query|] eqn:Eq; cbn [item bind];
    [|left; eexists; reflexivity].
  destruct (find _ (q_visualizations query)) as [v|] eqn:Ef.
  - destruct (v_uploaded_id v); cbn [item bind]; [|left; eexists; reflexivity].
    right. destruct H as [->|(vn' & qn' & q' & H1 & H2 & H3)].
    + eexists. split; reflexivity.
    + rewrite Ev in H1. injection H1 as <- <-. rewrite Eq in H2.
      injection H2 as <-. rewrite Ef in H3. discriminate.
  - right. eexists. split; reflexivity.
Qed.

Lemma add_widgets_flag d ws : forall error st,
  error = true \/ (exists w, In w ws /\ skipped st w) ->
  key_error_or_flag (add_widgets d ws (error, st)) st.
Proof.
  induction ws as [|w0 ws IH]; intros error st H; cbn [add_widgets].
  - destruct H as [->|(w & [] & _)]. right. exists st. auto.
  - destruct (KeyErrorFacts.add_widget_cases d w0 error st)
      as [(k & ->)|([e st1] & E & H1 & _)]; [left; eexists; reflexivity|].
    rewrite E. cbn [bind]. simpl in H1.
    assert (H' : e = true \/ exists w, In w ws /\ skipped st1 w).
    { assert (Hstep : error = true \/ skipped st w0 -> e = true).
      { intros Hs. destruct (add_widget_flag d w0 error st Hs)
          as [(k & Ek)|(st2 & Ek & _)]; rewrite Ek in E; congruence. }
      destruct H as [->|(w & Hin & Hw)]; [left; auto|].
      destruct Hin as [->|Hin]; [left; auto|].
      right. exists w. split; auto. now apply (skipped_same st). }
    destruct (IH e st1 H') as [(k & ->)|(st2 & -> & H2)];
      [left; eexists; reflexivity|].
    right. exists st2. split; [reflexivity|congruence].
Qed.

Lemma update_dashboard_flag name sd error st :
  error = true \/ (exists w, In w (sd_widgets sd) /\ skipped st w) ->
  key_error_or_flag (update_dashboard name sd (error, st)) st.
Proof.
  intros H. unfold update_dashboard.
  destruct (dict_get name (existing_dashboards st)) as [d|]; cbn [item bind];
    [|left; eexists; reflexivity].
  match goal with
  | |- context [bind ?m _] =>
      assert (Hr : KeyErrorFacts.key_error_or_same m st (fun s => s))
  end.
  { destruct (d_widgets d) as [[|w ws]|].
    - right. exists st. auto.
    - apply KeyErrorFacts.remove_widgets_cases.
    - right. exists st. auto. }
  destruct Hr as [(k & ->)|(st1 & -> & H1 & _)]; [left; eexists; reflexivity|].
  cbn [bind].
  destruct (add_widgets_flag d (sd_widgets sd) error st1)
    as [(k & ->)|(st2 & -> & H2)]; [|left; eexists; reflexivity|].
  - destruct H as [->|(w & Hin & Hw)]; auto.
    right. exists w. split; auto. now apply (skipped_same st).
  - right. exists st2. split; [reflexivity|congruence].
Qed.

Lemma update_each_flag sds : forall error st,
  error = true
  \/ (exists name sd w, In (name, sd) sds /\ In w (sd_widgets sd) /\ skipped st w) ->
  key_error_or_flag (update_each sds (error, st)) st.
Proof.
  induction sds as [|[name0 sd0] sds IH]; intros error st H; cbn [update_each].
  - destruct H as [->|(name & sd & w & [] & _)]. right. exists st. auto.
  - destruct (KeyErrorFacts.update_dashboard_cases name0 sd0 (error, st))
      as [(k & ->)|([e st1] & E & H1 & _)]; [left; eexists; reflexivity|].
    rewrite E. cbn [bind]. simpl in H1.
    assert (H' : e = true
                 \/ exists name sd w, In (name, sd) sds /\ In w (sd_widgets sd)
                                      /\ skipped st1 w).
    { assert (Hstep : error = true
                      \/ (exists w, In w (sd_widgets sd0) /\ skipped st w) ->
                      e = true).
      { intros Hs. destruct (update_dashboard_flag name0 sd0 error st Hs)
          as [(k & Ek)|(st2 & Ek & _)]; rewrite Ek in E; congruence. }
      destruct H as [->|(name & sd & w & Hin & Hw & Hs)]; [left; auto|].
      destruct Hin as [[= -> ->]|Hin].
      - left. apply Hstep. right. exists w. auto.
      - right. exists name, sd, w. repeat split; auto.
        now apply (skipped_same st). }
    destruct (IH e st1 H') as [(k & ->)|(st2 & -> & H2)];
      [left; eexists; reflexivity|].
    right. exists st2. split; [reflexivity|congruence].
Qed.

(** With a widget that is skipped, [update_dashboards] does not
    return 0. *)
Lemma update_dashboards_flag sds st :
  (exists name sd w, In (name, sd) sds /\ In w (sd_widgets sd) /\ skipped st w) ->
  (exists k, update_dashboards sds st = Raise (KeyError k))
  \/ (exists st', update_dashboards sds st = Ok (1%Z, st')).
Proof.
  intros H. unfold update_dashboards.
  destruct (update_each_flag sds false st (or_intror H))
    as [(k & ->)|(st1 & -> & _)]; [left|right]; eexists; reflexivity.
Qed.

End FlagFacts.

Import FlagFacts.

(** C9, as the code has it.  A saved widget that names a visualization
    "Table" of a saved query that has no visualization of that name
    (fetch.py does not write the default table) is not given a default:
    the widget is skipped, with an error and the note on the default
    table logged and the flag set.  [update_dashboards] on saved
    dashboards with such a widget never returns 0: it returns 1 or
    ends in a KeyError, and it returns 1, with the note in the log,
    when every lookup of it succeeds.  On fetch, no visualization
    equal to the default table is written. *)
Theorem default_table_is_not_synthesized
    (dashboard : remote_dashboard) (w : Push.saved_widget) (error : bool)
    (st : Push.state) (queryName : string) (query : Push.saved_query) :
  Push.w_visualization w = Some ("Table", queryName) ->
  dict_get queryName (Push.saved_queries st) = Some query ->
  find (fun i => String.eqb (Push.v_name i) "Table")
       (Push.q_visualizations query) = None ->
  Push.add_widget dashboard w (error, st)
  = Ok (true, Push.logging [ErrVisualisation "Table" queryName; ErrTableNote] st)
  /\ (forall saved_dashboards name sd,
        In (name, sd) saved_dashboards -> In w (Push.sd_widgets sd) ->
        ((exists key, Push.update_dashboards saved_dashboards st
                      = Raise (KeyError key))
         \/ (exists st', Push.update_dashboards saved_dashboards st
                          = Ok (1%Z, st')))
        /\ (forallb (dashboard_ok (Push.saved_queries st)
                                  (Push.existing_dashboards st))
                    saved_dashboards = true ->
            exists st', Push.update_dashboards saved_dashboards st = Ok (1%Z, st')
                        /\ In ErrTableNote (Push.log st')))
  /\ (forall fetched metadata m,
        Fetch.store_visualizations fetched metadata = Ok m ->
        dict_in "visualizations" fetched = true ->
        exists vizs, dict_get "visualizations" m = Some (JList vizs)
                     /\ forall v, In v vizs -> py_eq v Fetch.default_table = false).
Proof.
  intros Hv Hq Hf.
  assert (Hfound : found (Push.saved_queries st) w = None).
  { unfold found. now rewrite Hv, Hq. }
  split; [|split].
  - unfold Push.add_widget. rewrite Hv. cbn [item bind]. rewrite Hq.
    cbn [item bind]. now rewrite Hf.
  - intros sds name sd Hsd Hw. split.
    { apply update_dashboards_flag. exists name, sd, w. repeat split; auto.
      exists "Table", queryName, query. auto. }
    intros Hok.
    destruct (update_dashboards_spec sds st Hok)
      as (st' & E & _ & _ & _ & _ & Hl).
    assert (Hwok : widget_ok (Push.saved_queries st) w = true).
    { unfold widget_ok, dict_in. now rewrite Hv, Hq, Hfound. }
    assert (Hany : any_unresolved (Push.saved_queries st) sds = true).
    { apply (any_unresolved_In _ _ name sd w); auto.
      unfold unresolved. now rewrite Hwok, Hfound. }
    rewrite Hany in E. exists st'. split; [exact E|].
    rewrite Hl. apply in_or_app. right. apply in_or_app. left.
    apply in_flat_map. exists (name, sd). split; auto.
    unfold dashboard_log. apply in_flat_map. exists w. split; auto.
    unfold widget_log, dict_in. rewrite Hv, Hfound, Hq. simpl. auto.
  - intros fetched metadata m. apply store_visualizations_drops_default.
Qed.


(* ================================================================= *)
(** * A run on three queries and a dashboard *)

Module Sample.
Import Push.

(** A server that numbers what it creates by the requests it has
    seen, and gives every new query its default table. *)
Definition created_query (sent : list request) (name : string) (data : saved_query)
  : remote_query :=
  {| rq_id := 100 + Z.of_nat (length sent);
     rq_visualizations :=
       [{| rv_name := "Table"; rv_id := 1000 + Z.of_nat (length sent) |}] |}.

Definition updated_visualization (sent : list request) (id : Z) (data : visualization)
  : Z := id.

Definition created_visualization (sent : list request) (data : visualization) : Z :=
  2000 + Z.of_nat (length sent).

Definition created_dashboard (sent : list request) (name : string) : remote_dashboard :=
  {| d_id := 50 + Z.of_nat (length sent); d_slug := name; d_widgets := None |}.

Definition query_parameter (name queryName : string) : parameter :=
  {| p_name := name; p_type := "query";
     p_queryName := Some queryName; p_queryId := None |}.

Definition text_parameter (name : string) : parameter :=
  {| p_name := name; p_type := "text"; p_queryName := None; p_queryId := None |}.

Definition chart : visualization :=
  {| v_name := "Chart";
     v_columns := Some [{| c_name := "class"; c_displayAs := Some "link";
                           c_linkUrlTemplate := Some "/dashboards/0-board?p=1" |}];
     v_query_id := None; v_uploaded_id := None |}.

Definition table : visualization :=
  {| v_name := "Table"; v_columns := None;
     v_query_id := None; v_uploaded_id := None |}.

(** Scores refers to Teams and to Classes, Teams to Classes. *)
Definition scores : saved_query :=
  {| q_parameters := Some [query_parameter "team" "Teams"; text_parameter "from";
                           query_parameter "class" "Classes"];
     q_visualizations := [chart];
     q_uploaded_id := None |}.

Definition teams : saved_query :=
  {| q_parameters := Some [query_parameter "class" "Classes"];
     q_visualizations := [table];
     q_uploaded_id := None |}.

Definition classes : saved_query :=
  {| q_parameters := None; q_visualizations := []; q_uploaded_id := None |}.

Definition rank (name : string) : nat :=
  if String.eqb name "Scores" then 2
  else if String.eqb name "Teams" then 1 else 0.

Definition board : remote_dashboard :=
  {| d_id := 3; d_slug := "board";
     d_widgets := Some [{| rw_id := 11; rw_visualization := Some ("Chart", "Scores") |};
                        {| rw_id := 12; rw_visualization := Some ("Table", "Teams") |}] |}.

(** The state the queries are loaded in: the server has Teams. *)
Definition loaded : state :=
  {| saved_queries := [("Scores", scores); ("Teams", teams); ("Classes", classes)];
     existing_queries :=
       [("Teams", {| rq_id := 7;
                     rq_visualizations := [{| rv_name := "Table"; rv_id := 70 |}] |})];
     existing_dashboards := [("board", board)];
     requests := [];
     log := [] |}.

Definition widget (visualisationName queryName : string) (row col : Z) : saved_widget :=
  {| w_visualization := Some (visualisationName, queryName);
     w_text := "";
     w_options := JDict [("position", JDict [("row", JInt row); ("col", JInt col)])] |}.

Definition dashboard_of (ws : list saved_widget) : dict saved_dashboard :=
  [("board", {| sd_is_draft := JBool false; sd_tags := JList [];
                sd_dashboard_filters_enabled := JBool false;
                sd_widgets := ws |})].

(** The state after the queries were uploaded. *)
Definition uploaded : state :=
  match upload_queries created_query updated_visualization created_visualization
          3 loaded with
  | Ok st => st
  | _ => loaded
  end.

(** The requests about queries, by name. *)
Definition query_requests (l : list request) : list (string * string) :=
  flat_map (fun r => match r with
                     | CreateQuery n _ => [("create", n)]
                     | UpdateQuery n _ _ => [("update", n)]
                     | _ => []
                     end) l.

End Sample.

Example run_order :
  Sample.query_requests (Push.requests Sample.uploaded)
  = [("create", "Classes"); ("update", "Classes"); ("update", "Teams");
     ("create", "Scores"); ("update", "Scores")].
Proof. reflexivity. Qed.

Example run_out_of_fuel :
  Push.upload_queries Sample.created_query Sample.updated_visualization
    Sample.created_visualization 2 Sample.loaded = OutOfFuel.
Proof. reflexivity. Qed.

Lemma dependencies_uploaded_first_witness :
  well_formed Sample.rank Sample.loaded = true
  /\ depth Sample.rank Sample.loaded <= 3
  /\ exists id st' evs pre data post id2 data2 p',
       Push.upload_query Sample.created_query Sample.updated_visualization
         Sample.created_visualization 3 "Scores" Sample.loaded = Ok (id, st')
       /\ Push.requests st' = Push.requests Sample.loaded ++ evs
       /\ evs = pre ++ own Sample.loaded "Scores" id data ++ post
       /\ In (Push.UpdateQuery "Classes" id2 data2) pre
       /\ uploaded_id_of st' "Classes" = Some id2
       /\ remote_id Sample.created_query Sample.loaded st' pre "Classes" id2
       /\ nth_error (Push.parameters_of data) 2 = Some p'
       /\ Push.p_queryName p' = None /\ Push.p_queryId p' = Some id2.
Proof.
  split; [reflexivity|]. split; [apply le_n|].
  exact (proj1 (dependencies_uploaded_first Sample.created_query
                  Sample.updated_visualization Sample.created_visualization
                  Sample.rank Sample.loaded 3 "Scores" Sample.scores 2
                  (Sample.query_parameter "class" "Classes") "Classes"
                  eq_refl (le_n 3) eq_refl eq_refl eq_refl eq_refl)).
Defined.

(** The run of the sample: Classes is created, and the id the server
    answers is the id sent for it and held by the parameters that
    name it. *)
Example ids_of_the_server :
  exists st',
    Push.upload_queries Sample.created_query Sample.updated_visualization
      Sample.created_visualization 3 Sample.loaded = Ok st'
    /\ map (fun r => match r with
                     | Push.CreateQuery n _ => (n, None)
                     | Push.UpdateQuery n id _ => (n, Some id)
                     | _ => ("", None)
                     end)
           (filter about_query (Push.requests st'))
       = [("Classes", None); ("Classes", Some 100%Z); ("Teams", Some 7%Z);
          ("Scores", None); ("Scores", Some 104%Z)]
    /\ map (fun nr => (fst nr, Push.rq_id (snd nr))) (Push.existing_queries st')
       = [("Teams", 7%Z); ("Classes", 100%Z); ("Scores", 104%Z)].
Proof. eexists. split; [reflexivity|]. split; reflexivity. Qed.

Lemma one_update_per_query_witness :
  well_formed Sample.rank Sample.loaded = true
  /\ depth Sample.rank Sample.loaded <= 3
  /\ exists st' evs,
       Push.upload_queries Sample.created_query Sample.updated_visualization
         Sample.created_visualization 3 Sample.loaded = Ok st'
       /\ Push.requests st' = Push.requests Sample.loaded ++ evs
       /\ forall n, dict_in n (Push.saved_queries Sample.loaded) = true ->
            updates_of n evs = 1
            /\ creates_of n evs
               = (if dict_in n (Push.existing_queries Sample.loaded) then 0 else 1)
            /\ exists id,
                 uploaded_id_of st' n = Some id
                 /\ forall fuel',
                      Push.upload_query Sample.created_query
                        Sample.updated_visualization
                        Sample.created_visualization (S fuel') n st'
                      = Ok (id, st').
Proof.
  split; [reflexivity|]. split; [apply le_n|].
  exact (one_update_per_query Sample.created_query Sample.updated_visualization
           Sample.created_visualization Sample.rank Sample.loaded 3
           eq_refl (le_n 3)).
Defined.

(** The state [update_dashboards] starts in, what was sent and logged
    before left out. *)
Definition ready : Push.state :=
  {| Push.saved_queries := Push.saved_queries Sample.uploaded;
     Push.existing_queries := Push.existing_queries Sample.uploaded;
     Push.existing_dashboards := Push.existing_dashboards Sample.uploaded;
     Push.requests := [];
     Push.log := [] |}.

Definition is_create_widget (r : Push.request) : bool :=
  match r with Push.CreateWidget _ _ _ _ => true | _ => false end.

(** A dashboard with a widget of a visualization its query has not. *)
Definition board_with_trend : dict Push.saved_dashboard :=
  Sample.dashboard_of [Sample.widget "Chart" "Scores" 0 0;
                        Sample.widget "Trend" "Scores" 0 1;
                        Sample.widget "Table" "Teams" 1 0].

Example update_dashboards_skips_trend :
  exists st',
    Push.update_dashboards board_with_trend ready = Ok (1%Z, st')
    /\ Push.requests st'
       = [Push.DeleteWidget 11; Push.DeleteWidget 12;
          Push.CreateWidget 3 2006 ""
            (JDict [("position", JDict [("row", JInt 0); ("col", JInt 0)])]);
          Push.CreateWidget 3 70 ""
            (JDict [("position", JDict [("row", JInt 1); ("col", JInt 0)])])]
    /\ Push.log st' = [ErrVisualisation "Trend" "Scores"; InfoLoadedWithErrors].
Proof.
  eexists. split; [vm_compute; reflexivity|]. split; reflexivity.
Qed.

(** C3, the claim as it is written, fails: three widgets are saved, two
    are created. *)
Lemma skipped_widget_is_not_created :
  ~ (forall code st',
       Push.update_dashboards board_with_trend ready = Ok (code, st') ->
       length (filter is_create_widget (Push.requests st'))
       = length (flat_map Push.sd_widgets (dict_values board_with_trend))).
Proof.
  intros H.
  destruct update_dashboards_skips_trend as (st' & E & Hr & _).
  specialize (H _ _ E). rewrite Hr in H. discriminate H.
Qed.

Lemma widgets_deleted_then_created_in_saved_order_witness :
  forallb (dashboard_ok (Push.saved_queries ready) (Push.existing_dashboards ready))
          board_with_trend = true
  /\ exists code st',
       Push.update_dashboards board_with_trend ready = Ok (code, st')
       /\ Push.requests st'
          = Push.requests ready
            ++ flat_map
                 (fun nd =>
                    match dict_get (fst nd) (Push.existing_dashboards ready) with
                    | Some d =>
                        deletions d
                        ++ flat_map (widget_requests (Push.saved_queries ready) (d_id d))
                                    (Push.sd_widgets (snd nd))
                    | None => []
                    end) board_with_trend.
Proof.
  split; [reflexivity|].
  exact (proj1 (widgets_deleted_then_created_in_saved_order board_with_trend
                  ready eq_refl)).
Defined.

(** A dashboard with a widget of a query that is not saved, before a
    widget that resolves. *)
Definition board_with_archived : dict Push.saved_dashboard :=
  Sample.dashboard_of [Sample.widget "Table" "Archived" 0 0;
                        Sample.widget "Chart" "Scores" 0 1].

(** C4, the claim as it is written, fails: the visualization of the
    first widget cannot be resolved, the run ends in a KeyError, the
    second widget is not created and no 1 is returned. *)
Lemma unsaved_query_aborts_the_run :
  Push.update_dashboards board_with_archived ready = Raise (KeyError "Archived")
  /\ found (Push.saved_queries ready) (Sample.widget "Chart" "Scores" 0 1) <> None
  /\ ~ (exists st', Push.update_dashboards board_with_archived ready = Ok (1%Z, st')).
Proof.
  split; [reflexivity|]. split; [discriminate|].
  intros (st' & H). discriminate H.
Qed.

Lemma unresolved_widgets_are_skipped_and_fail_the_run_witness :
  forallb (dashboard_ok (Push.saved_queries ready) (Push.existing_dashboards ready))
          board_with_trend = true
  /\ exists st',
       Push.update_dashboards board_with_trend ready
       = Ok (if any_unresolved (Push.saved_queries ready) board_with_trend
             then 1%Z else 0%Z, st').
Proof.
  split; [reflexivity|].
  destruct (unresolved_widgets_are_skipped_and_fail_the_run board_with_trend
              ready eq_refl) as (st' & E & _).
  exists st'. exact E.
Defined.

(** A dashboard with a widget of the default table of Classes, which
    fetch.py has not written. *)
Definition board_with_default_table : dict Push.saved_dashboard :=
  Sample.dashboard_of [Sample.widget "Table" "Classes" 0 0].

(** C9, the claim as it is written, fails: the widget of the default
    table is not created, and the run fails. *)
Lemma default_table_widget_fails :
  exists st',
    Push.update_dashboards board_with_default_table ready = Ok (1%Z, st')
    /\ filter is_create_widget (Push.requests st') = []
    /\ Push.log st' = [ErrVisualisation "Table" "Classes"; ErrTableNote;
                       InfoLoadedWithErrors].
Proof.
  eexists. split; [vm_compute; reflexivity|]. split; reflexivity.
Qed.

Lemma default_table_is_not_synthesized_witness :
  Push.w_visualization (Sample.widget "Table" "Classes" 0 0)
  = Some ("Table", "Classes")
  /\ dict_in "Classes" (Push.saved_queries ready) = true
  /\ Push.add_widget Sample.board (Sample.widget "Table" "Classes" 0 0)
       (false, ready)
     = Ok (true,
           Push.logging [ErrVisualisation "Table" "Classes"; ErrTableNote] ready).
Proof.
  split; [reflexivity|]. split; [reflexivity|].
  exact (proj1 (default_table_is_not_synthesized Sample.board
                  (Sample.widget "Table" "Classes" 0 0) false ready "Classes"
                  _ eq_refl eq_refl eq_refl)).
Defined.

(** Beside a text box the widget of the default table does not make
    the run return 1: the run ends in the KeyError of the text box. *)
Example default_table_beside_a_text_box :
  Push.update_dashboards
    (Sample.dashboard_of [Sample.widget "Table" "Classes" 0 0;
                          {| Push.w_visualization := None;
                             Push.w_text := "Classes of the term";
                             Push.w_options := JDict [] |}]) ready
  = Raise (KeyError "visualization").
Proof. vm_compute. reflexivity. Qed.

Lemma unsaved_query_raises_KeyError_witness :
  In ("board", {| Push.sd_is_draft := JBool false; Push.sd_tags := JList [];
                  Push.sd_dashboard_filters_enabled := JBool false;
                  Push.sd_widgets := [Sample.widget "Table" "Archived" 0 0;
                                      Sample.widget "Chart" "Scores" 0 1] |})
     board_with_archived
  /\ dict_get "Archived" (Push.saved_queries ready) = None
  /\ exists key,
       Push.update_dashboards board_with_archived ready = Raise (KeyError key).
Proof.
  split; [now left|]. split; [reflexivity|].
  exact (proj1 (unsaved_query_raises_KeyError board_with_archived ready)
           "board" _ (Sample.widget "Table" "Archived" 0 0) "Table" "Archived"
           (or_introl eq_refl) (or_introl eq_refl) eq_refl eq_refl).
Defined.

(** A query as the server returns it, with a parameter that refers to
    the query of id 4, and the metadata document of an earlier fetch,
    which a hand has edited. *)
Definition fetched_report : dict json :=
  [("id", JInt 5); ("name", JStr "Report"); ("description", JNull);
   ("is_draft", JBool true);
   ("options",
    JDict [("parameters",
            JList [JDict [("name", JStr "team"); ("type", JStr "query");
                          ("queryId", JInt 4)];
                   JDict [("name", JStr "from"); ("type", JStr "text")]])]);
   ("tags", JList [JStr "weekly"])].

Definition stored_report : dict json :=
  [("tags", JList [JStr "weekly"]); ("owner", JStr "ops");
   ("is_draft", JInt 1); ("name", JStr "Old report")].

Definition fetched_queries : list (Z * json) :=
  [(4%Z, JDict [("id", JInt 4); ("name", JStr "Teams"); ("options", JDict [])]);
   (5%Z, JDict fetched_report)].

(** The name and the options differ and are assigned; the tags and the
    draft flag ([1 == True]) are equal and stay; the description is
    [None] on both sides and is not written; the key a hand has added
    stays. *)
Example report_metadata :
  Fetch.query_metadata fetched_queries fetched_report stored_report
  = Ok ([("tags", JList [JStr "weekly"]); ("owner", JStr "ops");
         ("is_draft", JInt 1); ("name", JStr "Report");
         ("options",
          JDict [("parameters",
                  JList [JDict [("name", JStr "team"); ("type", JStr "query");
                                ("queryName", JStr "Teams")];
                         JDict [("name", JStr "from"); ("type", JStr "text")]])])],
        ["name"; "options"]).
Proof. reflexivity. Qed.

Definition fetched_board : dict json :=
  [("id", JInt 3); ("slug", JStr "board"); ("name", JStr "Board");
   ("layout", JList []); ("dashboard_filters_enabled", JBool false);
   ("options", JDict []); ("is_archived", JBool false);
   ("is_draft", JBool false); ("tags", JList []);
   ("widgets", JList [])].

Definition stored_board : dict json :=
  [("slug", JStr "board"); ("name", JStr "Board"); ("is_draft", JBool true)].

Lemma fetched_board_has_fields :
  forall i, In i Fetch.DASHBOARD_FIELDS -> dict_in i fetched_board = true.
Proof.
  intros i Hi. simpl in Hi.
  repeat (destruct Hi as [<-|Hi]; [reflexivity|]). destruct Hi.
Defined.

Lemma merge_assigns_changed_fields_only_witness :
  (forall i, In i Fetch.DASHBOARD_FIELDS -> dict_in i fetched_board = true)
  /\ merge_spec Fetch.QUERY_META_FIELDS fetched_report stored_report
       (fst (Fetch.store_fields fetched_report stored_report))
       (snd (Fetch.store_fields fetched_report stored_report))
  /\ exists merged written,
       Fetch.store_dashboard_fields fetched_board stored_board = Ok (merged, written)
       /\ merge_spec Fetch.DASHBOARD_FIELDS fetched_board stored_board merged written.
Proof.
  split; [exact fetched_board_has_fields|].
  split.
  - exact (proj1 (merge_assigns_changed_fields_only fetched_report stored_report
                    fetched_board stored_board)).
  - exact (proj2 (merge_assigns_changed_fields_only fetched_report stored_report
                    fetched_board stored_board) fetched_board_has_fields).
Defined.

Lemma references_by_name_on_disk_by_id_on_the_wire_witness :
  (exists m w options,
     Fetch.query_metadata fetched_queries fetched_report stored_report = Ok (m, w)
     /\ dict_get "options" m = Some options
     /\ forall p, In p (ParameterFacts.parameters_in options) ->
                  ParameterFacts.is_query_parameter p = true ->
                  ParameterFacts.has_key "queryName" p = true
                  /\ ParameterFacts.has_key "queryId" p = false)
  /\ well_formed Sample.rank Sample.loaded = true
  /\ depth Sample.rank Sample.loaded <= 3
  /\ exists st' evs,
       Push.upload_queries Sample.created_query Sample.updated_visualization
         Sample.created_visualization 3 Sample.loaded = Ok st'
       /\ Push.requests st' = Push.requests Sample.loaded ++ evs
       /\ forall r data,
            In r evs ->
            (exists n, r = Push.CreateQuery n data)
            \/ (exists n id, r = Push.UpdateQuery n id data) ->
            forall p, In p (Push.parameters_of data) ->
                      Push.p_type p = "query" ->
                      Push.p_queryId p <> None /\ Push.p_queryName p = None.
Proof.
  split.
  - eexists _, _, _. split; [exact report_metadata|]. split; [reflexivity|].
    exact (proj1 references_by_name_on_disk_by_id_on_the_wire
             fetched_queries fetched_report stored_report _ _ _
             report_metadata eq_refl).
  - split; [reflexivity|]. split; [apply le_n|].
    exact (proj2 references_by_name_on_disk_by_id_on_the_wire
             Sample.created_query Sample.updated_visualization
             Sample.created_visualization Sample.rank Sample.loaded 3
             eq_refl (le_n 3)).
Defined.


(* ================================================================= *)
(** * Dashboard links, beyond the link form *)

Module LinkFacts.
Import Re.

Lemma strip_prefix_sound (p s rest : string) :
  strip_prefix p s = Some rest -> s = (p ++ rest)%string.
Proof.
  revert s. induction p as [|a p IH]; intros [|b s]; simpl; try congruence.
  destruct (Ascii.eqb_spec a b) as [->|]; [|discriminate].
  intros H. now rewrite (IH s H).
Qed.

(** What [cs+] hands to its continuation: a run of [cs], not empty,
    and what follows it. *)
Lemma plus_class_sound {A} cs s (k : string -> string -> option A) x :
  plus_class cs s k = Some x ->
  exists t r, s = (t ++ r)%string /\ t <> "" /\ all_in cs t = true /\ k t r = Some x.
Proof.
  revert k. induction s as [|c s IH]; intros k; simpl; [discriminate|].
  destruct (in_cset cs c) eqn:Ec; [|discriminate].
  destruct (plus_class cs s (fun t r => k (String c t) r)) as [y|] eqn:E.
  - intros [= <-]. apply IH in E as (t & r & -> & _ & Hall & Hk).
    exists (String c t), r. simpl. rewrite Ec. repeat split; auto. discriminate.
  - intros Hk. exists (String c ""), s. simpl. rewrite Ec. repeat split; auto.
    discriminate.
Qed.

Lemma plus_class_map {A B} cs s (h : A -> B)
    (k : string -> string -> option A) (k' : string -> string -> option B) :
  (forall t r, k' t r = option_map h (k t r)) ->
  plus_class cs s k' = option_map h (plus_class cs s k).
Proof.
  revert k k'. induction s as [|c s IH]; intros k k' Hk; simpl; auto.
  destruct (in_cset cs c); auto.
  rewrite (IH (fun t r => k (String c t) r) (fun t r => k' (String c t) r))
    by (intros; apply Hk).
  destruct (plus_class cs s _); simpl; auto.
Qed.

(** A pattern with no anchor at the start and no group. *)
Fixpoint plain (r : regex) : bool :=
  match r with
  | Lit _ | Plus _ | Eol => true
  | Bol | Group _ _ => false
  | Cat r1 r2 | Alt r1 r2 => plain r1 && plain r2
  end.

(** A plain pattern matches a prefix of its input and leaves the
    groups as they are. *)
Lemma exec_plain_sound r : plain r = true ->
  forall pos rest g k m,
  exec r pos rest g k = Some m ->
  exists t rest', rest = (t ++ rest')%string /\ k t rest' g = Some m.
Proof.
  induction r as [s|cs| | |r1 IH1 r2 IH2|r1 IH1 r2 IH2|n r IH];
    simpl; intros Hp pos rest g k m H; try discriminate.
  - destruct (strip_prefix s rest) as [rest'|] eqn:E; [|discriminate].
    exists s, rest'. split; auto using strip_prefix_sound.
  - apply plus_class_sound in H as (t & r & -> & _ & _ & H). eauto.
  - destruct (at_end rest); [|discriminate]. exists "", rest. auto.
  - apply andb_true_iff in Hp as [H1 H2].
    apply (IH1 H1) in H as (t1 & rest1 & -> & H).
    apply (IH2 H2) in H as (t2 & rest2 & -> & H).
    exists (t1 ++ t2)%string, rest2. split; auto.
    clear. induction t1; simpl; congruence.
  - apply andb_true_iff in Hp as [H1 H2].
    destruct (exec r1 pos rest g k) as [x|] eqn:E.
    + injection H as <-. now apply (IH1 H1) in E.
    + now apply (IH2 H2) in H.
Qed.

(** The match of a plain pattern does not depend on where it starts,
    and goes through a change of what the continuation returns. *)
Lemma exec_plain_map r : plain r = true ->
  forall pos pos' rest g (h : found -> found) k k',
  (forall t rest' g', k' t rest' g' = option_map h (k t rest' g')) ->
  exec r pos' rest g k' = option_map h (exec r pos rest g k).
Proof.
  induction r as [s|cs| | |r1 IH1 r2 IH2|r1 IH1 r2 IH2|n r IH];
    simpl; intros Hp pos pos' rest g h k k' Hk; try discriminate.
  - destruct (strip_prefix s rest); auto.
  - apply plus_class_map. intros. apply Hk.
  - destruct (at_end rest); auto.
  - apply andb_true_iff in Hp as [H1 H2].
    apply (IH1 H1). intros t1 rest1 g1.
    apply (IH2 H2). intros. apply Hk.
  - apply andb_true_iff in Hp as [H1 H2].
    rewrite (IH1 H1 pos pos' rest g h k k' Hk).
    destruct (exec r1 pos rest g k); simpl; auto.
Qed.


(** The part of the pattern of fetch.py after the digits. *)
Definition fetch_tail : regex :=
  Alt (Cat (Lit "-") (Cat (Plus slug_char) (Cat (Lit "?") (Plus Dot)))) Eol.

Definition tail_k (digits : string) (t rest : string) (g : captures) : option found :=
  Some {| m_text := "/dashboards/" ++ digits ++ t; m_rest := rest;
          m_groups := (2, t) :: g |}.

Lemma fetch_match_at_start s :
  match_at fetch_link_re 0 ("/dashboards/" ++ s)
  = plus_class digit s (fun digits r =>
      exec fetch_tail (12 + String.length digits) r [(1, "/dashboards/")]
           (tail_k digits)).
Proof.
  unfold match_at, fetch_link_re. cbn [exec Nat.eqb].
  rewrite strip_prefix_app. reflexivity.
Qed.

Lemma fetch_no_match_elsewhere url :
  strip_prefix "/dashboards/" url = None -> match_at fetch_link_re 0 url = None.
Proof.
  intros H. unfold match_at, fetch_link_re. cbn [exec Nat.eqb]. now rewrite H.
Qed.

(** Where the pattern does not match at the start, nothing is
    replaced. *)
Lemma sub_no_match url :
  match_at fetch_link_re 0 url = None -> anonymise_link url = url.
Proof.
  intros H. unfold anonymise_link, sub. cbn [sub_from]. rewrite H.
  destruct url as [|c url]; auto.
  now rewrite sub_from_anchored by discriminate.
Qed.

(** After the digits comes [-] or the end: no digit. *)
Lemma fetch_tail_stops pos r g k m :
  exec fetch_tail pos r g k = Some m -> stops digit r = true.
Proof.
  unfold fetch_tail. cbn [exec].
  destruct (strip_prefix "-" r) as [r1|] eqn:E1.
  - intros _. apply strip_prefix_sound in E1. now subst r.
  - destruct r as [|c [|c' r]]; simpl; try discriminate; auto.
    destruct (Ascii.eqb_spec c newline) as [->|]; [reflexivity|discriminate].
Qed.

(** What [anonymise_link] does to any string: nothing, or the digits
    that follow a leading [/dashboards/] become [0]. *)
Definition to_zero (m : found) : found :=
  {| m_text := "/dashboards/" ++ "0" ++ group_text 2 m;
     m_rest := m_rest m; m_groups := m_groups m |}.

(** Replacing a match of the pattern at the start of the string. *)
Lemma sub_match s m t r :
  match_at fetch_link_re 0 ("/dashboards/" ++ s) = Some m ->
  m_text m = String "/" t -> m_rest m = r ->
  anonymise_link ("/dashboards/" ++ s)
  = (expand fetch_link_tpl (m_groups m) ++ r)%string.
Proof.
  intros Hm Ht Hr. unfold anonymise_link, sub. cbn [sub_from].
  rewrite Hm, Ht. rewrite sub_from_anchored by discriminate. now rewrite Hr.
Qed.

Lemma anonymise_link_cases url :
  anonymise_link url = url
  \/ exists digits r,
       url = ("/dashboards/" ++ digits ++ r)%string
       /\ digits <> "" /\ all_in digit digits = true /\ stops digit r = true
       /\ anonymise_link url = ("/dashboards/0" ++ r)%string
       /\ anonymise_link ("/dashboards/0" ++ r) = ("/dashboards/0" ++ r)%string.
Proof.
  destruct (strip_prefix "/dashboards/" url) as [s|] eqn:Ep;
    [|left; auto using sub_no_match, fetch_no_match_elsewhere].
  apply strip_prefix_sound in Ep. subst url.
  destruct (match_at fetch_link_re 0 ("/dashboards/" ++ s)) as [m|] eqn:Em;
    [|left; auto using sub_no_match].
  right. pose proof Em as Hk. rewrite fetch_match_at_start in Hk.
  apply plus_class_sound in Hk as (digits & r & -> & Hne & Hall & Hk).
  assert (Hstop := fetch_tail_stops _ _ _ _ _ Hk).
  pose proof Hk as Hm.
  apply exec_plain_sound in Hm as (t2 & r2 & -> & Hm); [|reflexivity].
  injection Hm as <-.
  exists digits, (t2 ++ r2)%string.
  split; [reflexivity|]. split; [assumption|]. split; [assumption|].
  split; [assumption|]. split.
  - erewrite sub_match; [|exact Em|reflexivity|reflexivity].
    simpl. now rewrite append_nil_r.
  - assert (Hk0 : exec fetch_tail (12 + String.length "0") (t2 ++ r2)
                    [(1, "/dashboards/")] (tail_k "0")
                  = Some (to_zero
                      {| m_text := "/dashboards/" ++ digits ++ t2; m_rest := r2;
                         m_groups := [(2, t2); (1, "/dashboards/")] |})).
    { erewrite (exec_plain_map fetch_tail eq_refl
                  (12 + String.length digits) _ _ _ to_zero (tail_k digits)).
      - rewrite Hk. reflexivity.
      - reflexivity. }
    change ("/dashboards/0" ++ t2 ++ r2)%string
      with ("/dashboards/" ++ ("0" ++ (t2 ++ r2)))%string.
    rewrite (sub_match _ _ ("dashboards/0" ++ t2) r2
               (eq_trans (fetch_match_at_start _)
                  (plus_class_run digit "0" (t2 ++ r2) _ _
                     ltac:(discriminate) eq_refl Hstop Hk0)) eq_refl eq_refl).
    simpl. now rewrite append_nil_r.
Qed.

End LinkFacts.

Import LinkFacts.

Lemma prefix_strip_prefix (p s : string) :
  String.prefix p s = false -> Re.strip_prefix p s = None.
Proof.
  revert s. induction p as [|a p IH]; intros [|b s]; simpl; try congruence.
  destruct (ascii_dec a b) as [->|Hne].
  - rewrite Ascii.eqb_refl. apply IH.
  - apply Ascii.eqb_neq in Hne. now rewrite Hne.
Qed.

Lemma push_link_re_anchored pos rest :
  pos <> 0 -> Re.search_from push_link_re pos rest = None.
Proof.
  revert pos. induction rest as [|c rest IH]; intros pos Hpos;
    unfold Re.search_from, Re.match_at, push_link_re; cbn [Re.exec];
    apply Nat.eqb_neq in Hpos; rewrite Hpos; auto.
Qed.

Lemma push_link_re_prefix url :
  Re.strip_prefix "/dashboards/" url = None -> Re.search push_link_re url = None.
Proof.
  intros H. unfold Re.search.
  assert (Hm : Re.match_at push_link_re 0 url = None).
  { unfold Re.match_at, push_link_re. cbn [Re.exec Nat.eqb]. now rewrite H. }
  destruct url as [|c url]; cbn [Re.search_from]; rewrite Hm; auto.
  now apply push_link_re_anchored.
Qed.

(** X1.  A template that does not begin with [/dashboards/] (a link to
    another site, a link to a query) goes through fetch.py and push.py
    as it is, and nothing is logged for it. *)
Theorem links_elsewhere_are_left_alone (url : string)
    (existing_dashboards : dict remote_dashboard) :
  String.prefix "/dashboards/" url = false ->
  anonymise_link url = url
  /\ fix_dashboard_url_id url existing_dashboards = (url, []).
Proof.
  intros H. apply prefix_strip_prefix in H. split.
  - now apply sub_no_match, fetch_no_match_elsewhere.
  - unfold fix_dashboard_url_id. now rewrite push_link_re_prefix.
Qed.

Lemma links_elsewhere_are_left_alone_witness :
  String.prefix "/dashboards/" "https://example.org/{{ id }}" = false
  /\ anonymise_link "https://example.org/{{ id }}" = "https://example.org/{{ id }}"
  /\ fix_dashboard_url_id "https://example.org/{{ id }}" [] = ("https://example.org/{{ id }}", []).
Proof.
  split; [reflexivity|].
  exact (links_elsewhere_are_left_alone "https://example.org/{{ id }}" [] eq_refl).
Defined.

(** X2.  Whatever the template, fetch.py changes at most the digits that
    follow a leading [/dashboards/], which become [0]: the slug, the
    query string and every other template are written as they are. *)
Theorem anonymise_link_changes_the_id_only (url : string) :
  anonymise_link url = url
  \/ exists digits rest,
       url = ("/dashboards/" ++ digits ++ rest)%string
       /\ digits <> "" /\ all_in Re.digit digits = true
       /\ anonymise_link url = ("/dashboards/0" ++ rest)%string.
Proof.
  destruct (anonymise_link_cases url) as [H|(digits & r & H1 & H2 & H3 & _ & H4 & _)];
    [now left|right].
  exists digits, r. auto.
Qed.

(** X3.  Anonymising is idempotent on every template: a file fetched again
    from what was written is written the same. *)
Theorem anonymise_link_idempotent (url : string) :
  anonymise_link (anonymise_link url) = anonymise_link url.
Proof.
  destruct (anonymise_link_cases url) as [H|(digits & r & _ & _ & _ & _ & H1 & H2)].
  - now rewrite !H.
  - now rewrite H1, H2.
Qed.

Lemma anonymise_link_no_query digits slug :
  link_parts digits slug "" ->
  anonymise_link (dashboard_link digits slug "") = dashboard_link digits slug "".
Proof.
  intros H. apply sub_no_match. now apply fetch_link_re_needs_query.
Qed.

Lemma find_filter {A} (f : A -> bool) (l : list A) x :
  find f l = Some x -> exists rest, filter f l = x :: rest.
Proof.
  induction l as [|a l IH]; simpl; [discriminate|].
  destruct (f a); [intros [= ->]; eauto|auto].
Qed.

(** The id a link gets on push: that of the first dashboard of the
    server with the slug of the link. *)
Lemma fix_dashboard_url_id_first digits slug query existing_dashboards d :
  link_parts digits slug query ->
  find (fun d => String.eqb (d_slug d) slug) (dict_values existing_dashboards)
  = Some d ->
  fix_dashboard_url_id (dashboard_link digits slug query) existing_dashboards
  = (dashboard_link (str_of_int (d_id d)) slug query, []).
Proof.
  intros Hparts Hfind. unfold fix_dashboard_url_id.
  destruct (push_link_search digits slug query Hparts) as (m & -> & -> & ->).
  apply find_filter in Hfind as (rest & ->). reflexivity.
Qed.

(** X4.  A dashboard link, with or without a query string, that fetch.py
    has written and push.py then reads comes out with the id of the
    first dashboard of the server that has its slug, the slug and the
    query string as they were: pushed to the server it was fetched
    from, the link is the link that was fetched. *)
Theorem fetched_link_is_restored_on_push (digits slug query : string)
    (existing_dashboards : dict remote_dashboard) (d : remote_dashboard) :
  link_parts digits slug query ->
  find (fun d => String.eqb (d_slug d) slug) (dict_values existing_dashboards)
  = Some d ->
  fix_dashboard_url_id (anonymise_link (dashboard_link digits slug query))
    existing_dashboards
  = (dashboard_link (str_of_int (d_id d)) slug query, [])
  /\ (str_of_int (d_id d) = digits ->
      fix_dashboard_url_id (anonymise_link (dashboard_link digits slug query))
        existing_dashboards
      = (dashboard_link digits slug query, [])).
Proof.
  intros Hparts Hfind.
  assert (H : fix_dashboard_url_id (anonymise_link (dashboard_link digits slug query))
                existing_dashboards
              = (dashboard_link (str_of_int (d_id d)) slug query, [])).
  { destruct query as [|c q].
    - rewrite anonymise_link_no_query by assumption.
      now apply fix_dashboard_url_id_first.
    - assert (Hc : c = "?"%char).
      { destruct Hparts as (_ & _ & _ & _ & Hq). simpl in Hq.
        apply andb_true_iff in Hq as [Hq _]. apply andb_true_iff in Hq as [Hq _].
        now apply Ascii.eqb_eq in Hq. }
      subst c. rewrite anonymise_link_with_query by assumption.
      apply fix_dashboard_url_id_first; auto.
      destruct Hparts as (_ & _ & Hs & Hsa & Hq). repeat split; auto. discriminate. }
  split; [exact H|]. intros E. now rewrite H, E.
Qed.

Definition dashboards_on_server : dict remote_dashboard :=
  [("Overview", {| d_id := 5; d_slug := "overview"; d_widgets := None |});
   ("Class summary", {| d_id := 7; d_slug := "class-summary"; d_widgets := None |})].

Lemma fetched_link_is_restored_on_push_witness :
  link_parts "7" "class-summary" "?p_class=1"
  /\ fix_dashboard_url_id
       (anonymise_link (dashboard_link "7" "class-summary" "?p_class=1"))
       dashboards_on_server
     = (dashboard_link "7" "class-summary" "?p_class=1", []).
Proof.
  assert (H : link_parts "7" "class-summary" "?p_class=1")
    by (repeat split; discriminate).
  split; [exact H|].
  exact (proj2 (fetched_link_is_restored_on_push "7" "class-summary" "?p_class=1"
                  dashboards_on_server _ H eq_refl) eq_refl).
Defined.

(* ================================================================= *)
(** * Fetching twice *)

Module RefetchFacts.
Import Fetch.

(** A document as a parser gives it: no dict holds a key twice. *)
Fixpoint well_keyed (v : json) : bool :=
  match v with
  | JList l => forallb well_keyed l
  | JDict d =>
      (fix entries (d : list (string * json)) : bool :=
         match d with
         | [] => true
         | (k, x) :: d' => negb (dict_in k d') && well_keyed x && entries d'
         end) d
  | _ => true
  end.

Lemma json_nested_ind (P : json -> Prop) :
  P JNull -> (forall b, P (JBool b)) -> (forall n, P (JInt n)) ->
  (forall s, P (JStr s)) ->
  (forall l, Forall P l -> P (JList l)) ->
  (forall d, Forall (fun kv => P (snd kv)) d -> P (JDict d)) ->
  forall v, P v.
Proof.
  intros Hn Hb Hi Hs Hl Hd. fix IH 1.
  intros [|b|n|s|l|d];
    [apply Hn|apply Hb|apply Hi|apply Hs|apply Hl|apply Hd].
  - induction l as [|x l IHl]; constructor; [apply IH|exact IHl].
  - induction d as [|[k x] d IHd]; constructor; [apply IH|exact IHd].
Qed.

Lemma py_eq_list_unfold l1 l2 :
  py_eq (JList l1) (JList l2)
  = match l1, l2 with
    | [], [] => true
    | x :: l1', y :: l2' => py_eq x y && py_eq (JList l1') (JList l2')
    | _, _ => false
    end.
Proof. destruct l1, l2; reflexivity. Qed.

Definition entries_eq (d1 d2 : dict json) : bool :=
  forallb (fun kv => match dict_get (fst kv) d2 with
                     | Some w => py_eq (snd kv) w
                     | None => false
                     end) d1.

Lemma py_eq_dict_unfold d1 d2 :
  py_eq (JDict d1) (JDict d2)
  = entries_eq d1 d2 && forallb (fun kv => dict_in (fst kv) d1) d2.
Proof.
  simpl. f_equal. unfold entries_eq.
  induction d1 as [|[k v] d1 IH]; simpl; auto. now rewrite IH.
Qed.

Lemma well_keyed_dict k x d :
  well_keyed (JDict ((k, x) :: d))
  = negb (dict_in k d) && well_keyed x && well_keyed (JDict d).
Proof. reflexivity. Qed.

Lemma well_keyed_get d k x :
  well_keyed (JDict d) = true -> In (k, x) d ->
  dict_get k d = Some x /\ well_keyed x = true.
Proof.
  induction d as [|[k' x'] d IH]; intros Hw Hin; [destruct Hin|].
  rewrite well_keyed_dict in Hw.
  apply andb_true_iff in Hw as [Hw Hd]. apply andb_true_iff in Hw as [Hk Hx].
  simpl. destruct Hin as [[= -> ->]|Hin].
  - now rewrite String.eqb_refl.
  - destruct (IH Hd Hin) as [Hget Hwx]. split; auto.
    destruct (String.eqb_spec k k') as [->|]; auto.
    unfold dict_in in Hk. rewrite Hget in Hk. discriminate.
Qed.

(** On such documents [==] is reflexive. *)
Lemma py_eq_refl v : well_keyed v = true -> py_eq v v = true.
Proof.
  induction v as [|b|n|s|l IH|d IH] using json_nested_ind; intros Hw; simpl; auto.
  - apply Bool.eqb_reflx.
  - apply Z.eqb_refl.
  - apply String.eqb_refl.
  - change (py_eq (JList l) (JList l) = true).
    induction IH as [|x l Hx Hl IHl]; [reflexivity|].
    rewrite py_eq_list_unfold. simpl in Hw.
    apply andb_true_iff in Hw as [Hwx Hwl].
    apply andb_true_iff. split; auto.
  - change (py_eq (JDict d) (JDict d) = true).
    rewrite py_eq_dict_unfold. apply andb_true_iff. split.
    + unfold entries_eq. apply forallb_forall. intros [k x] Hin. simpl.
      destruct (well_keyed_get d k x Hw Hin) as [-> Hwx].
      rewrite Forall_forall in IH. now apply (IH (k, x)).
    + apply forallb_forall. intros [k x] Hin. simpl.
      destruct (well_keyed_get d k x Hw Hin) as [Hget _].
      unfold dict_in. now rewrite Hget.
Qed.

(** A merge step that finds the stored value equal assigns nothing. *)
Lemma fold_store_field_same fields fetched stored :
  (forall f v, In f fields -> dict_get f fetched = Some v ->
               py_eq (py_get stored f) v = true) ->
  forall written,
  fold_left (store_field fetched) fields (stored, written) = (stored, written).
Proof.
  induction fields as [|f fields IH]; intros Hsame written; cbn [fold_left]; auto.
  assert (Hstep : store_field fetched (stored, written) f = (stored, written)).
  { unfold store_field. destruct (dict_get f fetched) as [v|] eqn:E; auto.
    unfold py_get at 2. rewrite E.
    now rewrite (Hsame f v (or_introl eq_refl) E). }
  rewrite Hstep. apply IH. intros g v Hg. apply Hsame. now right.
Qed.

Lemma merged_agrees fields fetched stored m w :
  NoDup fields ->
  (forall f v, dict_get f fetched = Some v -> well_keyed v = true) ->
  fold_left (store_field fetched) fields (stored, []) = (m, w) ->
  forall f v, In f fields -> dict_get f fetched = Some v ->
              py_eq (py_get m f) v = true.
Proof.
  intros Hnd Hwk Hfold f v Hin Hget.
  apply fold_store_field in Hfold as (_ & Hm & _); auto.
  unfold py_get. rewrite Hm.
  apply listed_In in Hin. rewrite Hin. simpl.
  destruct (differs fetched stored f) eqn:Ed.
  - rewrite Hget. apply py_eq_refl. eauto.
  - unfold differs in Ed. rewrite Hget in Ed. now apply negb_false_iff in Ed.
Qed.

End RefetchFacts.

Import RefetchFacts.

(** X5.  Fetching again what has not changed on the server assigns no
    field: when the document merged from a fetched query (or
    dashboard) is merged with the same query (or dashboard) again, it
    is left as it is and no field is written.  The fetched values are
    documents in which no dict holds a key twice. *)
Theorem second_merge_assigns_nothing (query metadata dashboard dashboard_data : dict json) :
  (forall field v, dict_get field query = Some v -> well_keyed v = true) ->
  (forall field v, dict_get field dashboard = Some v -> well_keyed v = true) ->
  (forall i, In i Fetch.DASHBOARD_FIELDS -> dict_in i dashboard = true) ->
  Fetch.store_fields query (fst (Fetch.store_fields query metadata))
  = (fst (Fetch.store_fields query metadata), [])
  /\ exists merged written,
       Fetch.store_dashboard_fields dashboard dashboard_data = Ok (merged, written)
       /\ Fetch.store_dashboard_fields dashboard merged = Ok (merged, []).
Proof.
  intros Hq Hd Hall. split.
  - destruct (Fetch.store_fields query metadata) as [m w] eqn:E. simpl.
    unfold Fetch.store_fields. apply fold_store_field_same.
    apply (merged_agrees _ _ metadata m w QUERY_META_FIELDS_NoDup Hq E).
  - unfold Fetch.store_dashboard_fields.
    rewrite fold_store_dashboard_field by assumption.
    destruct (fold_left (Fetch.store_field dashboard) Fetch.DASHBOARD_FIELDS
                (dashboard_data, [])) as [m w] eqn:E.
    exists m, w. split; auto.
    rewrite fold_store_dashboard_field by assumption. f_equal.
    apply fold_store_field_same.
    apply (merged_agrees _ _ dashboard_data m w DASHBOARD_FIELDS_NoDup Hd E).
Qed.

(** A query and a dashboard as the server returns them. *)
Definition query_on_server : dict json :=
  [("id", JInt 8); ("name", JStr "Attendance"); ("is_draft", JBool false);
   ("options", JDict [("parameters", JList [])]); ("tags", JList [JStr "daily"])].

Definition dashboard_on_server : dict json :=
  [("id", JInt 3); ("slug", JStr "attendance"); ("name", JStr "Attendance");
   ("layout", JList []); ("dashboard_filters_enabled", JBool true);
   ("options", JDict []); ("is_archived", JBool false);
   ("is_draft", JBool false); ("tags", JList []); ("widgets", JList [])].

Ltac each_entry :=
  intros ? ?; simpl;
  repeat match goal with
         | |- context [if ?b then _ else _] => destruct b
         end;
  intros [= <-]; reflexivity.

Ltac each_field :=
  let i := fresh "i" in
  let Hi := fresh "Hi" in
  intros i Hi; simpl in Hi;
  repeat (destruct Hi as [<-|Hi]; [reflexivity|]); destruct Hi.

Lemma second_merge_assigns_nothing_witness :
  Fetch.store_fields query_on_server
    (fst (Fetch.store_fields query_on_server [("name", JStr "Presence")]))
  = (fst (Fetch.store_fields query_on_server [("name", JStr "Presence")]), [])
  /\ exists merged written,
       Fetch.store_dashboard_fields dashboard_on_server [] = Ok (merged, written)
       /\ Fetch.store_dashboard_fields dashboard_on_server merged = Ok (merged, []).
Proof.
  apply (second_merge_assigns_nothing query_on_server [("name", JStr "Presence")]
           dashboard_on_server []).
  - each_entry.
  - each_entry.
  - each_field.
Defined.

(* ================================================================= *)
(** * The order of strings *)

Module StringOrder.
Import OrderedTypeEx.

Lemma leb_iff a b : String.leb a b = true <-> a = b \/ String_as_OT.lt a b.
Proof.
  unfold String.leb. rewrite <- String_as_OT.cmp_eq, <- String_as_OT.cmp_lt.
  unfold String_as_OT.cmp. destruct (String.compare a b); intuition discriminate.
Qed.

Lemma leb_trans a b c :
  String.leb a b = true -> String.leb b c = true -> String.leb a c = true.
Proof.
  rewrite !leb_iff. intros [->|H1] [->|H2]; auto.
  right. eapply String_as_OT.lt_trans; eauto.
Qed.

Lemma ltb_leb a b : String.ltb a b = true -> String.leb a b = true.
Proof.
  unfold String.ltb, String.leb. now destruct (String.compare a b).
Qed.

Lemma not_ltb_leb a b : String.ltb a b = false -> String.leb b a = true.
Proof.
  unfold String.ltb, String.leb. rewrite (String.compare_antisym a b).
  now destruct (String.compare b a).
Qed.

End StringOrder.

(** ** Sorting returns, on keys that can be compared *)

Section SortTotal.
Context {K A : Type} (lt : K -> K -> result bool) (good : K -> Prop).
Hypothesis lt_total : forall a b, good a -> good b -> exists r, lt a b = Ok r.

Lemma insert_sorted_total (x : K * A) l :
  good (fst x) -> Forall (fun y => good (fst y)) l ->
  exists r, insert_sorted lt x l = Ok r.
Proof.
  intros Hx. induction l as [|y l IH]; simpl; intros Hl; [eauto|].
  inversion Hl as [|? ? Hy Hl']; subst.
  destruct (lt_total (fst x) (fst y) Hx Hy) as ([|] & ->); simpl; [eauto|].
  destruct (IH Hl') as (r & ->). simpl. eauto.
Qed.

Lemma sort_keyed_total (l : list (K * A)) : forall acc,
  Forall (fun y => good (fst y)) acc -> Forall (fun y => good (fst y)) l ->
  exists r, sort_keyed lt acc l = Ok r.
Proof.
  induction l as [|x l IH]; simpl; intros acc Hacc Hl; [eauto|].
  inversion Hl as [|? ? Hx Hl']; subst.
  destruct (insert_sorted_total x acc Hx Hacc) as (acc' & E). rewrite E. simpl.
  apply IH; auto.
  eapply Permutation_Forall; [eapply insert_sorted_perm; exact E|].
  now constructor.
Qed.
End SortTotal.

Lemma mapM_total {A B} (f : A -> result B) l :
  Forall (fun x => exists y, f x = Ok y) l -> exists l', mapM f l = Ok l'.
Proof.
  induction 1 as [|x l (y & Hy) _ (l' & IH)]; simpl; [eauto|].
  rewrite Hy, IH. simpl. eauto.
Qed.

(* ================================================================= *)
(** * The visualizations fetch.py writes *)

Module VisualizationFacts.
Import Fetch.

Lemma dict_del_absent {V} k (d : dict V) : dict_in k d = false -> dict_del k d = d.
Proof.
  unfold dict_in, dict_del. induction d as [|[k' v] d IH]; simpl; auto.
  destruct (String.eqb k k'); [discriminate|]. simpl. intros H. now rewrite IH.
Qed.

(** What is left of a dict when the [fields] are deleted. *)
Definition drop_fields (fields : list string) (d : dict json) : dict json :=
  fold_left (fun d f => dict_del f d) fields d.

Lemma drop_fields_get fields : forall d k,
  dict_get k (drop_fields fields d)
  = if listed fields k then None else dict_get k d.
Proof.
  unfold drop_fields, listed.
  induction fields as [|f fields IH]; intros d k; simpl; auto.
  rewrite IH. destruct (String.eqb_spec k f) as [->|Hne]; simpl.
  - rewrite dict_get_del_same. now destruct (existsb _ fields).
  - now rewrite dict_get_del_other.
Qed.

Definition strip_step (acc : result json) (field : string) : result json :=
  v <- acc ;;
  has <- contains field v ;;
  if has then del_item v field else Ok v.

Lemma strip_fields_fold fields v :
  strip_fields fields v = fold_left strip_step fields (Ok v).
Proof. reflexivity. Qed.

Lemma strip_raise fields e : fold_left strip_step fields (Raise e) = Raise e.
Proof. induction fields; simpl; auto. Qed.

Lemma strip_fields_dict fields : forall d,
  strip_fields fields (JDict d) = Ok (JDict (drop_fields fields d)).
Proof.
  induction fields as [|f fields IH]; intros d; [reflexivity|].
  rewrite strip_fields_fold in *. cbn [fold_left].
  assert (Hstep : strip_step (Ok (JDict d)) f = Ok (JDict (dict_del f d))).
  { unfold strip_step. cbn [bind contains].
    destruct (dict_in f d) eqn:E; cbn [del_item].
    - now rewrite E.
    - now rewrite dict_del_absent. }
  rewrite Hstep. rewrite <- strip_fields_fold. apply IH.
Qed.

(** Deleting the fields of anything but a dict leaves it or raises. *)
Lemma strip_fields_other fields v v' :
  (forall d, v <> JDict d) -> strip_fields fields v = Ok v' -> v' = v.
Proof.
  intros Hv. rewrite strip_fields_fold.
  induction fields as [|f fields IH]; cbn [fold_left]; [now intros [= <-]|].
  assert (Hstep : strip_step (Ok v) f = Ok v \/ exists e, strip_step (Ok v) f = Raise e).
  { unfold strip_step. cbn [bind].
    destruct v as [|b|n|s|l|d]; simpl; eauto.
    - destruct (is_infix f s); simpl; eauto.
    - destruct (existsb _ l); simpl; eauto.
    - now destruct (Hv d). }
  destruct Hstep as [->|(e & ->)]; [exact IH|].
  rewrite strip_raise. discriminate.
Qed.

(** [i.get("name")], the key of the sort. *)
Definition name_of (v : json) : json :=
  match v with JDict d => py_get d "name" | _ => JNull end.

(** A visualization that is written keeps every key but the ignored
    ones; its options may have changed, in the link columns. *)
Lemma clean_visualization_keys v v' :
  clean_visualization v = Ok v' ->
  exists d d', v = JDict d /\ v' = JDict d'
    /\ forall k, k <> "options" ->
         dict_get k d' = if listed VISUALIZATIONS_IGNORE_FIELDS k then None
                         else dict_get k d.
Proof.
  unfold clean_visualization.
  destruct (strip_fields VISUALIZATIONS_IGNORE_FIELDS v) as [viz1| |] eqn:Es;
    simpl; try discriminate.
  destruct v as [| | | |l|d];
    try (apply strip_fields_other in Es; [subst viz1; discriminate|discriminate]).
  rewrite strip_fields_dict in Es. injection Es as <-.
  destruct (subscript _ "options") as [options| |]; simpl; try discriminate.
  destruct (get_method options "columns" (JList [])) as [columns| |];
    simpl; try discriminate.
  destruct (py_iter columns) as [cols| |]; simpl; try discriminate.
  destruct (mapM anonymise_column cols) as [cols'| |]; simpl; try discriminate.
  intros H. exists d.
  assert (Hkeep : Ok (JDict (drop_fields VISUALIZATIONS_IGNORE_FIELDS d)) = Ok v' ->
            exists d', JDict d = JDict d /\ v' = JDict d'
              /\ forall k, k <> "options" ->
                   dict_get k d' = if listed VISUALIZATIONS_IGNORE_FIELDS k then None
                                   else dict_get k d).
  { intros [= <-]. eexists. split; [reflexivity|]. split; [reflexivity|].
    intros k _. exact (drop_fields_get VISUALIZATIONS_IGNORE_FIELDS d k). }
  destruct options as [| | | | |o]; auto.
  destruct columns as [| | | |cs|]; auto.
  destruct (dict_in "columns" o); auto.
  simpl in H. injection H as <-. eexists. split; [reflexivity|].
  split; [reflexivity|]. intros k Hk.
  rewrite dict_get_set_other by assumption.
  exact (drop_fields_get VISUALIZATIONS_IGNORE_FIELDS d k).
Qed.

Lemma clean_visualization_name v v' :
  clean_visualization v = Ok v' -> name_of v' = name_of v.
Proof.
  intros H. apply clean_visualization_keys in H as (d & d' & -> & -> & Hk).
  unfold name_of, py_get. now rewrite (Hk "name") by discriminate.
Qed.

(** A column the link of which can be rewritten. *)
Definition column_writable (c : json) : bool :=
  match c with
  | JDict d =>
      if py_eq (py_get d "displayAs") (JStr "link")
      then match dict_get "linkUrlTemplate" d with
           | Some (JStr _) => true
           | _ => false
           end
      else true
  | _ => false
  end.

(** A visualization as the server returns it: a dict with a name,
    which is a string, and options, the columns of which, if any,
    are a list of such columns. *)
Definition visualization_writable (v : json) : bool :=
  match v with
  | JDict d =>
      match dict_get "name" d, dict_get "options" d with
      | Some (JStr _), Some (JDict o) =>
          match dict_get "columns" o with
          | Some (JList cs) => forallb column_writable cs
          | Some _ => false
          | None => true
          end
      | _, _ => false
      end
  | _ => false
  end.

Lemma anonymise_column_total c :
  column_writable c = true -> exists c', anonymise_column c = Ok c'.
Proof.
  unfold column_writable, anonymise_column. destruct c as [| | | | |d]; try discriminate.
  simpl. unfold py_get.
  destruct (py_eq _ (JStr "link")); [|eauto].
  destruct (dict_get "linkUrlTemplate" d) as [[| | |url| |]|]; try discriminate.
  simpl. eauto.
Qed.

Lemma clean_visualization_total v :
  visualization_writable v = true ->
  exists v' s, clean_visualization v = Ok v' /\ name_of v' = JStr s.
Proof.
  intros Hw.
  assert (Hex : exists v', clean_visualization v = Ok v').
  { unfold visualization_writable in Hw. destruct v as [| | | | |d]; try discriminate.
    destruct (dict_get "name" d) as [[| | |s| |]|]; try discriminate.
    destruct (dict_get "options" d) as [[| | | | |o]|] eqn:Eo; try discriminate.
    unfold clean_visualization. rewrite strip_fields_dict. cbn [bind subscript].
    rewrite drop_fields_get. cbn [listed existsb VISUALIZATIONS_IGNORE_FIELDS].
    simpl String.eqb. cbn [orb]. rewrite Eo. cbn [item bind get_method].
    destruct (dict_get "columns" o) as [[| | | |cs|]|] eqn:Ec; try discriminate.
    - cbn [py_iter bind].
      destruct (mapM_total anonymise_column cs) as (cs' & ->).
      { rewrite forallb_forall in Hw. apply Forall_forall.
        intros c Hc. apply anonymise_column_total. now apply Hw. }
      cbn [bind]. unfold dict_in. rewrite Ec. simpl. eauto.
    - cbn [py_iter bind mapM]. unfold dict_in. rewrite Ec. eauto. }
  destruct Hex as (v' & Hv'). exists v'.
  pose proof (clean_visualization_name v v' Hv') as Hn.
  unfold visualization_writable in Hw. destruct v as [| | | | |d]; try discriminate.
  destruct (dict_get "name" d) as [[| | |s| |]|] eqn:En; try discriminate.
  exists s. split; auto. rewrite Hn. unfold name_of, py_get. now rewrite En.
Qed.

(** The order of the names. *)
Definition name_le (a b : json) : Prop :=
  exists x y, name_of a = JStr x /\ name_of b = JStr y /\ String.leb x y = true.

Definition is_str (k : json) : Prop := exists s, k = JStr s.

Definition str_le (a b : json) : Prop :=
  exists x y, a = JStr x /\ b = JStr y /\ String.leb x y = true.

Lemma py_lt_str a b : is_str a -> is_str b -> exists r, py_lt a b = Ok r.
Proof. intros (x & ->) (y & ->). simpl. eauto. Qed.

Lemma py_lt_str_le a b : is_str a -> is_str b -> py_lt a b = Ok true -> str_le a b.
Proof.
  intros (x & ->) (y & ->). simpl. intros [= H].
  exists x, y. auto using StringOrder.ltb_leb.
Qed.

Lemma py_not_lt_str_le a b :
  is_str a -> is_str b -> py_lt a b = Ok false -> str_le b a.
Proof.
  intros (x & ->) (y & ->). simpl. intros [= H].
  exists y, x. auto using StringOrder.not_ltb_leb.
Qed.

Lemma str_le_trans a b c : str_le a b -> str_le b c -> str_le a c.
Proof.
  intros (x & y & -> & -> & H1) (y' & z & E & -> & H2). injection E as <-.
  exists x, z. eauto using StringOrder.leb_trans.
Qed.

Lemma sorted_by_name (keyed : list (json * json)) :
  Forall (fun kx => fst kx = name_of (snd kx)) keyed ->
  StronglySorted (fun a b => str_le (fst a) (fst b)) keyed ->
  StronglySorted name_le (map snd keyed).
Proof.
  intros Hk Hs. induction Hs as [|[k x] l Hs IH Hx]; simpl; [constructor|].
  inversion Hk as [|? ? Hkx Hl]; subst. simpl in Hkx. constructor; auto.
  rewrite Forall_forall in *. intros y Hy.
  apply in_map_iff in Hy as ([k' y'] & <- & Hin).
  specialize (Hx _ Hin). specialize (Hl _ Hin). simpl in *.
  destruct Hx as (a & b & -> & -> & Hab). exists a, b. auto.
Qed.

(** Sorting dicts with string names by name. *)
Lemma sort_by_name l :
  Forall (fun v => exists d s, v = JDict d /\ name_of v = JStr s) l ->
  exists out,
    sort_by py_lt (fun i => get_method i "name" JNull) l = Ok out
    /\ Permutation l out /\ StronglySorted name_le out.
Proof.
  intros Hl. unfold sort_by.
  destruct (mapM_total (fun x => k <- get_method x "name" JNull ;; Ok (k, x)) l)
    as (keyed & Ek).
  { eapply Forall_impl; [|exact Hl]. intros v (d & s & -> & _). simpl. eauto. }
  rewrite Ek. cbn [bind].
  destruct (mapM_keyed _ _ _ Ek) as [Hsnd Hkeys].
  assert (Hgood : Forall (fun kx : json * json =>
                    is_str (fst kx) /\ fst kx = name_of (snd kx)) keyed).
  { rewrite Forall_forall in *. intros [k x] Hin.
    assert (Hx : In x l) by (rewrite <- Hsnd; now apply (in_map snd) in Hin).
    destruct (Hl _ Hx) as (d & s & -> & Hs). specialize (Hkeys _ Hin).
    simpl in *. injection Hkeys as <-. split; [now exists s|reflexivity]. }
  destruct (sort_keyed_total py_lt is_str py_lt_str keyed []) as (sorted & Es).
  { constructor. }
  { eapply Forall_impl; [|exact Hgood]. now intros kx [H _]. }
  rewrite Es. cbn [bind]. exists (map snd sorted). split; [reflexivity|].
  pose proof (sort_keyed_perm py_lt keyed [] sorted Es) as Hperm. simpl in Hperm.
  split; [rewrite <- Hsnd; now apply Permutation_map|].
  apply sorted_by_name.
  - eapply Permutation_Forall; [exact Hperm|].
    eapply Forall_impl; [|exact Hgood]. now intros kx [_ H].
  - apply (sort_keyed_sorted py_lt is_str str_le py_lt_str_le py_not_lt_str_le
             str_le_trans keyed [] sorted); auto; try constructor.
    eapply Forall_impl; [|exact Hgood]. now intros kx [H _].
Qed.

End VisualizationFacts.

Import VisualizationFacts.

Lemma mapM_Forall2_total {A B} (f : A -> result B) (P : B -> Prop) l :
  Forall (fun x => exists y, f x = Ok y /\ P y) l ->
  exists l', mapM f l = Ok l' /\ Forall P l'.
Proof.
  induction 1 as [|x l (y & Hy & Py) _ (l' & IH & Pl)]; simpl.
  - exists []. split; auto.
  - rewrite Hy, IH. simpl. exists (y :: l'). split; auto.
Qed.

(** [store_visualizations] on visualizations that can be written. *)
Lemma store_visualizations_sorted
    (query metadata : dict json) (vizs : list json) :
  dict_get "visualizations" query = Some (JList vizs) ->
  forallb visualization_writable vizs = true ->
  exists cleaned out,
    mapM Fetch.clean_visualization vizs = Ok cleaned
    /\ Fetch.store_visualizations query metadata
       = Ok (dict_set "visualizations" (JList out) metadata)
    /\ Permutation
         (filter (fun i => negb (py_eq i Fetch.default_table)) cleaned) out
    /\ StronglySorted name_le out.
Proof.
  intros Hq Hw. unfold Fetch.store_visualizations. rewrite Hq. cbn [py_iter bind].
  destruct (mapM_Forall2_total Fetch.clean_visualization
              (fun v => exists d s, v = JDict d /\ name_of v = JStr s) vizs)
    as (cleaned & Ec & Hc).
  { rewrite forallb_forall in Hw. apply Forall_forall. intros v Hv.
    destruct (clean_visualization_total v (Hw v Hv)) as (v' & s & E & Hs).
    exists v'. split; auto.
    destruct (clean_visualization_keys v v' E) as (d & d' & _ & -> & _).
    now exists d', s. }
  rewrite Ec. cbn [bind].
  destruct (sort_by_name
              (filter (fun i => negb (py_eq i Fetch.default_table)) cleaned))
    as (out & Es & Hperm & Hsorted).
  { rewrite Forall_forall in *. intros v Hv. apply filter_In in Hv as [Hv _]. auto. }
  rewrite Es. cbn [bind]. exists cleaned, out. auto.
Qed.

(** X6.  The visualizations of a query, each a dict with a string for its
    name and a dict of options, are written: the ones that are not the
    default table, without the ignored fields, and sorted by name. *)
Theorem visualizations_are_written_in_name_order
    (query metadata : dict json) (vizs : list json) :
  dict_get "visualizations" query = Some (JList vizs) ->
  forallb visualization_writable vizs = true ->
  exists cleaned out,
    mapM Fetch.clean_visualization vizs = Ok cleaned
    /\ Fetch.store_visualizations query metadata
       = Ok (dict_set "visualizations" (JList out) metadata)
    /\ Permutation
         (filter (fun i => negb (py_eq i Fetch.default_table)) cleaned) out
    /\ StronglySorted name_le out.
Proof. apply store_visualizations_sorted. Qed.

(** X7.  No visualization written holds the id the server gave it or the
    times of its creation and update; whatever else it held, but for
    its options, it holds as fetched. *)
Theorem visualizations_are_written_without_ids
    (query metadata m : dict json) (vizs : list json) :
  dict_get "visualizations" query = Some (JList vizs) ->
  Fetch.store_visualizations query metadata = Ok m ->
  exists out,
    dict_get "visualizations" m = Some (JList out)
    /\ forall v', In v' out ->
         exists v d d',
           In v vizs /\ v = JDict d /\ v' = JDict d'
           /\ dict_in "id" d' = false
           /\ dict_in "updated_at" d' = false
           /\ dict_in "created_at" d' = false
           /\ forall k, ~ In k ("options" :: Fetch.VISUALIZATIONS_IGNORE_FIELDS) ->
                        dict_get k d' = dict_get k d.
Proof.
  intros Hq. unfold Fetch.store_visualizations. rewrite Hq. cbn [py_iter bind].
  destruct (mapM Fetch.clean_visualization vizs) as [cleaned| |] eqn:Ec;
    cbn [bind]; try discriminate.
  destruct (sort_by _ _ _) as [out| |] eqn:Es; cbn [bind]; try discriminate.
  intros [= <-]. exists out. split; [apply dict_get_set_same|].
  intros v' Hv'. apply sort_by_perm in Es.
  apply (Permutation_in _ (Permutation_sym Es)) in Hv'.
  apply filter_In in Hv' as [Hv' _].
  apply WidgetFacts.mapM_Forall2 in Ec.
  assert (Hv : exists v, In v vizs /\ Fetch.clean_visualization v = Ok v').
  { clear -Ec Hv'. induction Ec as [|x y l l' Hxy _ IH]; [destruct Hv'|].
    destruct Hv' as [<-|Hin]; [exists x; split; [now left|assumption]|].
    destruct (IH Hin) as (v & Hv & E). exists v. split; [now right|assumption]. }
  destruct Hv as (v & Hin & E).
  destruct (clean_visualization_keys v v' E) as (d & d' & -> & -> & Hk).
  exists (JDict d), d, d'. repeat split; auto;
    try (unfold dict_in; now rewrite Hk by discriminate).
  intros k Hnot. rewrite Hk by (intros ->; apply Hnot; now left).
  destruct (listed Fetch.VISUALIZATIONS_IGNORE_FIELDS k) eqn:El; auto.
  apply listed_In in El. exfalso. apply Hnot. now right.
Qed.

(* ================================================================= *)
(** * The widgets fetch.py writes *)

Module SavedWidgetFacts.
Import Fetch.

Lemma dict_get_filter_keys {V} (keep : string -> bool) k (d : dict V) :
  dict_get k (filter (fun kv => keep (fst kv)) d)
  = if keep k then dict_get k d else None.
Proof.
  induction d as [|[k' v] d IH]; simpl; [now destruct (keep k)|].
  destruct (String.eqb_spec k k') as [->|Hne].
  - destruct (keep k') eqn:E; simpl; [now rewrite String.eqb_refl|].
    rewrite IH. now try rewrite E.
  - destruct (keep k'); simpl; auto.
    apply String.eqb_neq in Hne. now rewrite Hne.
Qed.

(** What [filter_widget] makes of the visualization of a widget: the
    name of the visualization and the name of its query. *)
Definition reference_of (visualization : json) : result json :=
  name <- subscript visualization "name" ;;
  query <- subscript visualization "query" ;;
  queryName <- subscript query "name" ;;
  Ok (JDict [("name", name); ("queryName", queryName)]).

Lemma filter_widget_keys w w' :
  filter_widget w = Ok w' ->
  exists d d', w = JDict d /\ w' = JDict d'
    /\ (forall k, k <> "visualization" ->
          dict_get k d' = if listed DASHBOARD_WIDGET_IGNORE_FIELDS k then None
                          else dict_get k d)
    /\ match dict_get "visualization" d with
       | Some visualization =>
           exists reference, reference_of visualization = Ok reference
                             /\ dict_get "visualization" d' = Some reference
       | None => dict_get "visualization" d' = None
       end.
Proof.
  unfold filter_widget. destruct w as [| | | | |d]; try discriminate.
  assert (Hf : forall k,
    dict_get k (filter (fun kv => negb (existsb (String.eqb (fst kv))
                                          DASHBOARD_WIDGET_IGNORE_FIELDS)) d)
    = if listed DASHBOARD_WIDGET_IGNORE_FIELDS k then None else dict_get k d).
  { intros k.
    rewrite (dict_get_filter_keys
               (fun k => negb (existsb (String.eqb k) DASHBOARD_WIDGET_IGNORE_FIELDS))).
    unfold listed.
    destruct (existsb (String.eqb k) DASHBOARD_WIDGET_IGNORE_FIELDS); reflexivity. }
  destruct (dict_get "visualization" d) as [v|] eqn:Ev.
  - destruct (subscript v "name") as [name| |] eqn:E1; simpl; try discriminate.
    destruct (subscript v "query") as [q| |] eqn:E2; simpl; try discriminate.
    destruct (subscript q "name") as [qn| |] eqn:E3; simpl; try discriminate.
    intros [= <-]. eexists _, _. split; [reflexivity|]. split; [reflexivity|].
    split.
    + intros k Hk. rewrite dict_get_set_other by assumption. apply Hf.
    + rewrite Ev. eexists. split; [|apply dict_get_set_same].
      unfold reference_of. rewrite E1. cbn [bind]. rewrite E2. cbn [bind].
      now rewrite E3.
  - intros [= <-]. eexists _, _. split; [reflexivity|]. split; [reflexivity|].
    split; [intros k _; apply Hf|]. now rewrite Ev, Hf.
Qed.


(** A widget as fetched and the widget written for it. *)
Definition written_as (w w' : json) : Prop :=
  exists d d',
    w = JDict d /\ w' = JDict d'
    /\ (forall k, In k ["dashboard_id"; "id"; "updated_at"; "created_at"; "query"] ->
                  dict_in k d' = false)
    /\ (forall k, ~ In k DASHBOARD_WIDGET_IGNORE_FIELDS ->
                  dict_get k d' = dict_get k d)
    /\ match dict_get "visualization" d with
       | Some visualization =>
           exists reference,
             reference_of visualization = Ok reference
             /\ dict_get "visualization" d' = Some reference
       | None => dict_get "visualization" d' = None
       end.

Lemma filter_widget_written_as w w' :
  filter_widget w = Ok w' -> written_as w w'.
Proof.
  intros E.
  destruct (filter_widget_keys w w' E) as (d & d' & -> & -> & Hk & Hv).
  exists d, d'. repeat split; auto.
  - intros k Hin'. unfold dict_in. simpl in Hin'.
    repeat (destruct Hin' as [<-|Hin']; [now rewrite Hk by discriminate|]).
    destruct Hin'.
  - intros k Hnot. rewrite Hk by (intros ->; apply Hnot; simpl; tauto).
    destruct (listed DASHBOARD_WIDGET_IGNORE_FIELDS k) eqn:El; auto.
    apply listed_In in El. contradiction.
Qed.

End SavedWidgetFacts.

Import SavedWidgetFacts.

(** X8.  The widgets of a dashboard are all written, each once: the
    widgets written are, one for one, those of the dashboard in another
    order ([sorted]).  Each is written without the ids and the times
    the server gave it and without the query; a widget with a
    visualization holds, in its place, the name of the visualization
    and the name of its query; a widget without one (a text box) is
    written without one.  What else a widget held, it holds as
    fetched. *)
Theorem widgets_are_written_by_name (dashboard dashboard_data doc : dict json)
    (written : list string) (ws : list json) :
  dict_get "widgets" dashboard = Some (JList ws) ->
  Fetch.dashboard_document dashboard dashboard_data = Ok (doc, written) ->
  exists sorted out,
    dict_get "widgets" doc = Some (JList out)
    /\ Permutation ws sorted
    /\ Forall2 written_as sorted out.
Proof.
  intros Hw. unfold Fetch.dashboard_document.
  destruct (Fetch.store_dashboard_fields dashboard dashboard_data)
    as [[data1 written1]| |]; cbn [bind]; try discriminate.
  rewrite Hw. cbn [item bind Fetch.saved_widgets].
  destruct (sort_by Fetch.tuple_lt Fetch.widget_key ws) as [sorted| |] eqn:Es;
    cbn [bind]; try discriminate.
  destruct (mapM Fetch.filter_widget sorted) as [out| |] eqn:Em;
    cbn [bind]; try discriminate.
  intros [= <- <-]. exists sorted, out. split; [apply dict_get_set_same|].
  apply sort_by_perm in Es. apply WidgetFacts.mapM_Forall2 in Em.
  split; [exact Es|]. clear Hw.
  clear Es. induction Em as [|x y l l' Hxy _ IH]; constructor; [|exact IH].
  now apply filter_widget_written_as.
Qed.

(* ================================================================= *)
(** * A parameter that refers to a query the server did not return *)

Module RenameFacts.
Import Fetch.

Definition returns {A} (r : result A) : Prop := r <> OutOfFuel.

Lemma rename_parameter_returns queries p :
  rename_parameter queries p <> OutOfFuel.
Proof.
  unfold rename_parameter.
  destruct p as [| | | | |d]; simpl; try discriminate.
  destruct (dict_get "type" d) as [t|]; simpl; [|discriminate].
  destruct (py_eq t (JStr "query")); [|discriminate].
  destruct (dict_get "queryId" d) as [i|]; simpl; [|discriminate].
  assert (Hq : queries_item queries i <> OutOfFuel).
  { destruct i; simpl; try discriminate;
      match goal with |- item _ ?o <> _ => destruct o end; discriminate. }
  destruct (queries_item queries i) as [q| |]; simpl; try discriminate;
    [|contradiction].
  destruct q as [| | | | |dq]; simpl; try discriminate.
  destruct (dict_get "name" dq); simpl; [|discriminate].
  destruct (dict_in "queryId" _); discriminate.
Qed.

Lemma mapM_raises {A B} (f : A -> result B) l x e :
  (forall y, f y <> OutOfFuel) -> In x l -> f x = Raise e ->
  exists e', mapM f l = Raise e'.
Proof.
  intros Hf. induction l as [|y l IH]; intros Hin Hx; [destruct Hin|].
  simpl. destruct (f y) as [b|e'|] eqn:Ey; simpl; eauto.
  - destruct Hin as [->|Hin]; [congruence|].
    destruct (IH Hin Hx) as (e' & ->). simpl. eauto.
  - now destruct (Hf y).
Qed.

End RenameFacts.

(** X9.  When a parameter of type query of a fetched query holds the id of
    a query that is not among the fetched ones, no metadata is made
    for the query: an exception is raised. *)
Theorem unknown_query_id_aborts_the_fetch
    (queries : list (Z * json)) (query metadata options d : dict json)
    (params : list json) (n : Z) :
  dict_get "options" query = Some (JDict options) ->
  dict_get "parameters" options = Some (JList params) ->
  In (JDict d) params ->
  dict_get "type" d = Some (JStr "query") ->
  dict_get "queryId" d = Some (JInt n) ->
  Fetch.assoc_int n queries = None ->
  Fetch.rename_parameter queries (JDict d) = Raise (KeyError (str_of_int n))
  /\ exists e, Fetch.query_metadata queries query metadata = Raise e.
Proof.
  intros Ho Hp Hin Ht Hi Hn.
  assert (Hr : Fetch.rename_parameter queries (JDict d)
               = Raise (KeyError (str_of_int n))).
  { unfold Fetch.rename_parameter. simpl. rewrite Ht. simpl. rewrite Hi. simpl.
    now rewrite Hn. }
  split; [exact Hr|].
  unfold Fetch.query_metadata, Fetch.rename_parameters.
  rewrite Ho. cbn [item bind contains]. unfold dict_in. rewrite Hp.
  cbn [subscript]. rewrite Hp. cbn [item bind py_iter].
  destruct (RenameFacts.mapM_raises (Fetch.rename_parameter queries) params
              (JDict d) _ (RenameFacts.rename_parameter_returns queries) Hin Hr)
    as (e & ->).
  exists e. reflexivity.
Qed.

(* ================================================================= *)
(** * Dashboards that cannot be written *)

Module DashboardErrorFacts.
Import Fetch.

Lemma store_dashboard_field_raise dashboard fields e :
  fold_left (store_dashboard_field dashboard) fields (Raise e) = Raise e.
Proof. induction fields; simpl; auto. Qed.

(** The loop over the fields stops at the first field the dashboard
    does not have. *)
Lemma store_dashboard_fields_missing dashboard fields : forall acc,
  (exists i, In i fields /\ dict_in i dashboard = false) ->
  exists pre k post,
    fields = pre ++ k :: post
    /\ (forall i, In i pre -> dict_in i dashboard = true)
    /\ dict_in k dashboard = false
    /\ fold_left (store_dashboard_field dashboard) fields (Ok acc)
       = Raise (KeyError k).
Proof.
  induction fields as [|f fields IH]; intros [data written] (i & Hin & Hi);
    [destruct Hin|].
  cbn [fold_left]. unfold store_dashboard_field at 2. cbn [bind].
  destruct (dict_get f dashboard) as [v|] eqn:Ef; cbn [item bind].
  - assert (Hex : exists i, In i fields /\ dict_in i dashboard = false).
    { exists i. split; auto. destruct Hin as [->|Hin]; auto.
      unfold dict_in in Hi. rewrite Ef in Hi. discriminate. }
    assert (Hf : forall i, In i [f] -> dict_in i dashboard = true).
    { intros j [<-|[]]. unfold dict_in. now rewrite Ef. }
    destruct (negb (py_eq (py_get data f) v)).
    + destruct (IH (dict_set f v data, written ++ [f]) Hex)
        as (pre & k & post & -> & Hpre & Hk & ->).
      exists (f :: pre), k, post. repeat split; auto.
      intros j [<-|Hj]; [apply Hf; now left|auto].
    + destruct (IH (data, written) Hex)
        as (pre & k & post & -> & Hpre & Hk & ->).
      exists (f :: pre), k, post. repeat split; auto.
      intros j [<-|Hj]; [apply Hf; now left|auto].
  - exists [], f, fields. rewrite store_dashboard_field_raise.
    unfold dict_in. rewrite Ef. repeat split; auto.
Qed.
Lemma widget_key_returns w : widget_key w <> OutOfFuel.
Proof.
  unfold widget_key.
  destruct (subscript w "options") as [o| |] eqn:Eo; cbn [bind]; try discriminate.
  - destruct (subscript o "position") as [p| |] eqn:Ep; cbn [bind]; try discriminate.
    + destruct (subscript p "row") as [r| |] eqn:Er; cbn [bind]; try discriminate.
      * destruct (subscript p "col") as [c| |] eqn:Ec; cbn [bind]; try discriminate.
        destruct p; simpl in Ec; try discriminate.
        destruct (dict_get "col" d); discriminate.
      * destruct p; simpl in Er; try discriminate.
        destruct (dict_get "row" d); discriminate.
    + destruct o; simpl in Ep; try discriminate.
      destruct (dict_get "position" d); discriminate.
  - destruct w; simpl in Eo; try discriminate.
    destruct (dict_get "options" d); discriminate.
Qed.

End DashboardErrorFacts.

Import DashboardErrorFacts.

(** X10.  A dashboard is written only if the server returns it whole: when
    it lacks one of the fields that are copied, [save_dashboards]
    raises a KeyError for the first one it lacks, in the order of
    [DASHBOARD_FIELDS] (the fields [pre] before it are all there); and
    when the key of one of its widgets (its row and column) cannot be
    read, the sort raises. *)
Theorem incomplete_dashboards_are_not_written
    (dashboard dashboard_data : dict json) :
  ((exists i, In i Fetch.DASHBOARD_FIELDS /\ dict_in i dashboard = false) ->
   exists pre k post,
     Fetch.DASHBOARD_FIELDS = pre ++ k :: post
     /\ (forall i, In i pre -> dict_in i dashboard = true)
     /\ dict_in k dashboard = false
     /\ Fetch.dashboard_document dashboard dashboard_data = Raise (KeyError k))
  /\
  (forall ws w e,
     (forall i, In i Fetch.DASHBOARD_FIELDS -> dict_in i dashboard = true) ->
     dict_get "widgets" dashboard = Some (JList ws) ->
     In w ws -> Fetch.widget_key w = Raise e ->
     exists e', Fetch.dashboard_document dashboard dashboard_data = Raise e').
Proof.
  split.
  - intros Hmiss. unfold Fetch.dashboard_document, Fetch.store_dashboard_fields.
    destruct (store_dashboard_fields_missing dashboard Fetch.DASHBOARD_FIELDS
                (dashboard_data, []) Hmiss) as (pre & k & post & E & Hpre & Hk & ->).
    exists pre, k, post. auto.
  - intros ws w e Hall Hws Hin Hkey.
    unfold Fetch.dashboard_document, Fetch.store_dashboard_fields.
    rewrite fold_store_dashboard_field by assumption.
    destruct (fold_left _ _ _) as [data1 written]. cbn [bind].
    rewrite Hws. cbn [item bind Fetch.saved_widgets]. unfold sort_by.
    destruct (RenameFacts.mapM_raises
                (fun x => k <- Fetch.widget_key x ;; Ok (k, x)) ws w e)
      as (e' & ->); auto.
    + intros y. pose proof (widget_key_returns y).
      destruct (Fetch.widget_key y); simpl; congruence.
    + now rewrite Hkey.
    + exists e'. reflexivity.
Qed.

(* ================================================================= *)
(** * A fetch that ends well *)

Module FetchFacts.
Import Fetch.

(** A parameter fetch.py can write: a dict with a type; when the type
    is query, with the id of a fetched query that has a name. *)
Definition parameter_writable (queries : list (Z * json)) (p : json) : bool :=
  match p with
  | JDict d =>
      match dict_get "type" d with
      | Some t =>
          if py_eq t (JStr "query") then
            match dict_get "queryId" d with
            | Some id =>
                match queries_item queries id with
                | Ok (JDict q) => dict_in "name" q
                | _ => false
                end
            | None => false
            end
          else true
      | None => false
      end
  | _ => false
  end.

(** A query as the server returns it: its options are a dict, the
    parameters in them, if any, a list of such parameters, and its
    visualizations, if any, a list of visualizations that can be
    written. *)
Definition query_writable (queries : list (Z * json)) (query : dict json) : bool :=
  match dict_get "options" query with
  | Some (JDict o) =>
      match dict_get "parameters" o with
      | Some (JList ps) => forallb (parameter_writable queries) ps
      | Some _ => false
      | None => true
      end
  | _ => false
  end
  && match dict_get "visualizations" query with
     | Some (JList vizs) => forallb visualization_writable vizs
     | Some _ => false
     | None => true
     end.

Lemma rename_parameter_total queries p :
  parameter_writable queries p = true -> exists p', rename_parameter queries p = Ok p'.
Proof.
  unfold parameter_writable, rename_parameter.
  destruct p as [| | | | |d]; try discriminate. cbn [subscript].
  destruct (dict_get "type" d) as [t|]; [|discriminate]. cbn [item bind].
  destruct (py_eq t (JStr "query")); [|eauto].
  destruct (dict_get "queryId" d) as [id|] eqn:Ei; [|discriminate]. cbn [item bind].
  destruct (queries_item queries id) as [[| | | | |q]| |]; try discriminate.
  cbn [bind subscript]. unfold dict_in.
  destruct (dict_get "name" q) as [name|]; [|discriminate]. cbn [item bind set_item].
  intros _. unfold del_item, dict_in.
  rewrite dict_get_set_other, Ei by discriminate. eauto.
Qed.

(** Renaming the parameters changes the options only. *)
Lemma rename_parameters_total queries query :
  query_writable queries query = true ->
  exists query1,
    rename_parameters queries query = Ok query1
    /\ forall k, k <> "options" -> dict_get k query1 = dict_get k query.
Proof.
  unfold query_writable, rename_parameters. intros H.
  apply andb_true_iff in H as [H _].
  destruct (dict_get "options" query) as [[| | | | |o]|]; try discriminate.
  cbn [item bind contains]. unfold dict_in.
  destruct (dict_get "parameters" o) as [[| | | |ps|]|] eqn:Ep; try discriminate.
  - cbn [bind subscript]. rewrite Ep. cbn [item bind py_iter].
    destruct (mapM_total (rename_parameter queries) ps) as (ps' & ->).
    { rewrite forallb_forall in H. apply Forall_forall. intros p Hp.
      apply rename_parameter_total. now apply H. }
    cbn [bind set_item]. eexists. split; [reflexivity|].
    intros k Hk. now apply dict_get_set_other.
  - cbn [bind]. eauto.
Qed.

Lemma store_fields_keeps fields fetched : forall stored written m w k,
  fold_left (store_field fetched) fields (stored, written) = (m, w) ->
  dict_in k stored = true -> dict_in k m = true.
Proof.
  induction fields as [|f fields IH]; intros stored written m w k; cbn [fold_left].
  - now intros [= <- _].
  - unfold store_field at 2.
    destruct (dict_get f fetched) as [v|]; [|apply IH].
    destruct (negb (py_eq _ _)); [|apply IH].
    intros Hfold Hk. eapply IH; [exact Hfold|].
    destruct (String.eqb_spec k f) as [->|Hne]; unfold dict_in.
    + now rewrite dict_get_set_same.
    + rewrite dict_get_set_other by assumption. exact Hk.
Qed.

End FetchFacts.

Import FetchFacts.

(** X11.  The metadata of a query the server returns well formed is made:
    [query_metadata] returns.  Every key of the document read from
    disk is a key of the document written, so that what a hand has
    added stays; and the visualizations written are a list. *)
Theorem metadata_of_a_query_is_written
    (queries : list (Z * json)) (query metadata : dict json) :
  query_writable queries query = true ->
  exists m written,
    Fetch.query_metadata queries query metadata = Ok (m, written)
    /\ (forall k, dict_in k metadata = true -> dict_in k m = true)
    /\ (dict_in "visualizations" query = true ->
        exists out, dict_get "visualizations" m = Some (JList out)
                    /\ StronglySorted name_le out).
Proof.
  intros Hw. unfold Fetch.query_metadata.
  destruct (rename_parameters_total queries query Hw) as (query1 & -> & Hsame).
  cbn [bind].
  destruct (Fetch.store_fields query1 metadata) as [m1 w1] eqn:Es.
  assert (Hkeep : forall k, dict_in k metadata = true -> dict_in k m1 = true).
  { intros k. eapply store_fields_keeps. exact Es. }
  unfold query_writable in Hw. apply andb_true_iff in Hw as [_ Hv].
  rewrite <- (Hsame "visualizations") in Hv by discriminate.
  destruct (dict_get "visualizations" query1) as [[| | | |vizs|]|] eqn:Ev;
    try discriminate.
  - destruct (store_visualizations_sorted query1 m1 vizs Ev Hv)
      as (cleaned & out & _ & -> & _ & Hsorted).
    cbn [bind]. eexists _, _. split; [reflexivity|]. split.
    + intros k Hk. destruct (String.eqb_spec k "visualizations") as [->|Hne];
        unfold dict_in.
      * now rewrite dict_get_set_same.
      * rewrite dict_get_set_other by assumption. now apply Hkeep.
    + intros _. exists out. split; [apply dict_get_set_same|exact Hsorted].
  - unfold Fetch.store_visualizations. rewrite Ev. cbn [bind].
    eexists _, _. split; [reflexivity|]. split; [exact Hkeep|].
    unfold dict_in. rewrite <- (Hsame "visualizations"), Ev by discriminate.
    discriminate.
Qed.

Module DashboardFetchFacts.
Import Fetch WidgetFacts.

(** A widget fetch.py can write: it has a row and a column, which
    are integers, and its visualization, if it has one, has a name and
    a query that has a name. *)
Definition widget_writable (w : json) : bool :=
  match position w, w with
  | Some _, JDict d =>
      match dict_get "visualization" d with
      | Some visualization =>
          match reference_of visualization with Ok _ => true | _ => false end
      | None => true
      end
  | _, _ => false
  end.

Lemma tuple_lt_total a b : int_pair a -> int_pair b -> exists r, tuple_lt a b = Ok r.
Proof.
  intros (ra & ca & ->) (rb & cb & ->). unfold tuple_lt. simpl.
  destruct (Z.eqb ra rb); [destruct (Z.eqb ca cb)|]; eauto.
Qed.

Lemma filter_widget_total w :
  widget_writable w = true -> exists w', filter_widget w = Ok w'.
Proof.
  unfold widget_writable, filter_widget.
  destruct (position w); [|discriminate].
  destruct w as [| | | | |d]; try discriminate.
  destruct (dict_get "visualization" d) as [v|]; [|eauto].
  unfold reference_of.
  destruct (subscript v "name") as [name| |]; cbn [bind]; try discriminate.
  destruct (subscript v "query") as [q| |]; cbn [bind]; try discriminate.
  destruct (subscript q "name") as [qn| |]; cbn [bind]; try discriminate.
  eauto.
Qed.

Lemma saved_widgets_total ws :
  forallb widget_writable ws = true ->
  exists out, saved_widgets (JList ws) = Ok out.
Proof.
  intros Hw. rewrite forallb_forall in Hw. unfold saved_widgets, sort_by.
  destruct (mapM_Forall2_total (fun x => k <- widget_key x ;; Ok (k, x))
              (fun kx => int_pair (fst kx) /\ widget_writable (snd kx) = true) ws)
    as (keyed & -> & Hkeyed).
  { apply Forall_forall. intros w Hin. specialize (Hw w Hin).
    pose proof Hw as Hp. unfold widget_writable in Hp.
    destruct (position w) as [p|] eqn:Ep; [|discriminate].
    rewrite (position_key w p Ep). cbn [bind]. eexists. split; [reflexivity|].
    split; [now exists (fst p), (snd p)|exact Hw]. }
  cbn [bind].
  destruct (sort_keyed_total tuple_lt int_pair tuple_lt_total keyed []) as (sorted & Es).
  { constructor. }
  { eapply Forall_impl; [|exact Hkeyed]. now intros kx [H _]. }
  rewrite Es. cbn [bind].
  apply mapM_total. apply sort_keyed_perm in Es. simpl in Es.
  apply Forall_forall. intros w Hin. apply filter_widget_total.
  apply in_map_iff in Hin as (kx & <- & Hin).
  apply (Permutation_in _ (Permutation_sym Es)) in Hin.
  rewrite Forall_forall in Hkeyed. now apply Hkeyed.
Qed.

End DashboardFetchFacts.

Import DashboardFetchFacts.

(** X12.  The document of a dashboard the server returns well formed (it
    has every field that is copied, and widgets that can be written)
    is made: [dashboard_document] returns, with every key of the
    document read from disk and with as many widgets as the dashboard
    has, in the order of their rows and columns. *)
Theorem document_of_a_dashboard_is_written
    (dashboard dashboard_data : dict json) (ws : list json) :
  (forall i, In i Fetch.DASHBOARD_FIELDS -> dict_in i dashboard = true) ->
  dict_get "widgets" dashboard = Some (JList ws) ->
  forallb widget_writable ws = true ->
  exists doc written out,
    Fetch.dashboard_document dashboard dashboard_data = Ok (doc, written)
    /\ (forall k, dict_in k dashboard_data = true -> dict_in k doc = true)
    /\ dict_get "widgets" doc = Some (JList out)
    /\ length out = length ws
    /\ StronglySorted WidgetFacts.row_col_le out.
Proof.
  intros Hall Hws Hw. unfold Fetch.dashboard_document, Fetch.store_dashboard_fields.
  rewrite fold_store_dashboard_field by assumption.
  destruct (fold_left (Fetch.store_field dashboard) Fetch.DASHBOARD_FIELDS
              (dashboard_data, [])) as [data1 written] eqn:Es.
  cbn [bind]. rewrite Hws. cbn [item bind].
  destruct (saved_widgets_total ws Hw) as (out & Eo). rewrite Eo. cbn [bind].
  exists (dict_set "widgets" (JList out) data1), written, out.
  split; [reflexivity|].
  assert (Hpos : Forall (fun w => WidgetFacts.position w <> None) ws).
  { rewrite forallb_forall in Hw. apply Forall_forall. intros w Hin.
    specialize (Hw w Hin). unfold widget_writable in Hw.
    destruct (WidgetFacts.position w); [discriminate|discriminate]. }
  destruct (WidgetFacts.saved_widgets_sorted ws out Hpos Eo)
    as (Hsorted & sorted & Hperm & Hmap).
  split; [|split; [apply dict_get_set_same|split; [|exact Hsorted]]].
  - intros k Hk.
    assert (Hk1 : dict_in k data1 = true)
      by (eapply store_fields_keeps; [exact Es|exact Hk]).
    destruct (String.eqb_spec k "widgets") as [->|Hne]; unfold dict_in.
    + now rewrite dict_get_set_same.
    + rewrite dict_get_set_other by assumption. exact Hk1.
  - rewrite (Permutation_length Hperm).
    apply WidgetFacts.mapM_Forall2 in Hmap. symmetry.
    now apply Forall2_length in Hmap.
Qed.

(* ================================================================= *)
(** * The files of a query *)

Module FilesFacts.
Import Files.

Lemma endswith_eq s suffix :
  endswith s suffix
  = if String.eqb s suffix then true
    else match s with
         | EmptyString => false
         | String _ s' => endswith s' suffix
         end.
Proof. destruct s; reflexivity. Qed.

Lemma endswith_iff s suffix :
  endswith s suffix = true <-> exists pre, s = (pre ++ suffix)%string.
Proof.
  induction s as [|c s IH]; rewrite endswith_eq.
  - destruct (String.eqb_spec "" suffix) as [E|Hne].
    + split; auto. intros _. now exists "".
    + split; [discriminate|]. intros ([|? ?] & E); simpl in E; congruence.
  - destruct (String.eqb_spec (String c s) suffix) as [E|Hne].
    + split; auto. intros _. now exists "".
    + rewrite IH. split.
      * intros (pre & ->). now exists (String c pre).
      * intros ([|c' pre] & E); simpl in E; [congruence|].
        injection E as _ ->. now exists pre.
Qed.

Lemma string_length_app (a b : string) :
  String.length (a ++ b) = String.length a + String.length b.
Proof. induction a; simpl; auto. Qed.

Lemma substring_app (a b : string) : substring 0 (String.length a) (a ++ b) = a.
Proof.
  induction a as [|c a IH]; simpl.
  - now destruct b.
  - now rewrite IH.
Qed.

Lemma without_last_app (a b : string) : without_last (String.length b) (a ++ b) = a.
Proof.
  unfold without_last. rewrite string_length_app, Nat.add_sub. apply substring_app.
Qed.

Lemma app_inj_r (a a' b : string) : (a ++ b)%string = (a' ++ b)%string -> a = a'.
Proof.
  intros H.
  rewrite <- (without_last_app a b), <- (without_last_app a' b). now rewrite H.
Qed.

End FilesFacts.

Import FilesFacts.

(** X13.  The file of a query holds the text of the query, and one line
    feed more when the text does not end with one: it always ends with
    a line feed, and writing what was read from it writes the same. *)
Theorem query_file_ends_with_a_line_feed (query : string) :
  Files.endswith (Files.query_text query) Files.LF = true
  /\ (Files.query_text query = query
      \/ Files.query_text query = (query ++ Files.LF)%string
         /\ Files.endswith query Files.LF = false)
  /\ Files.query_text (Files.query_text query) = Files.query_text query.
Proof.
  assert (H : Files.endswith (Files.query_text query) Files.LF = true).
  { unfold Files.query_text. destruct (Files.endswith query Files.LF) eqn:E; auto.
    apply endswith_iff. now exists query. }
  split; [exact H|]. split.
  - unfold Files.query_text. destruct (Files.endswith query Files.LF); auto.
  - unfold Files.query_text at 1. now rewrite H.
Qed.

(** X14.  push.py reads the query of every metadata file, and of nothing
    else: the names of the query files it opens are the names [f]
    such that [f] with the suffix of the metadata files is in the
    directory.  So the file fetch.py writes beside the metadata file
    [path + METAFILE_SUFFIX], which is [path], is the one read. *)
Theorem query_files_are_those_of_the_metadata_files
    (listing : list string) (f : string) :
  In f (Files.query_filenames listing)
  <-> In (f ++ Files.METAFILE_SUFFIX)%string listing.
Proof.
  unfold Files.query_filenames. rewrite in_map_iff. split.
  - intros (i & <- & Hi). apply filter_In in Hi as [Hi He].
    apply endswith_iff in He as (pre & ->).
    now rewrite without_last_app.
  - intros H. exists (f ++ Files.METAFILE_SUFFIX)%string. split.
    + apply without_last_app.
    + apply filter_In. split; auto. apply endswith_iff. now exists f.
Qed.

(* ================================================================= *)
(** * The dashboards are created before anything else *)

Module CreateFacts.
Import Push.

Section Created.
Variable created_dashboard : list request -> string -> remote_dashboard.

(** What is sent for a saved dashboard: its creation when the server
    had none of its name, and an update of the dashboard the server
    has in the end. *)
Definition upserts (before after : dict remote_dashboard)
    (nd : string * saved_dashboard) : list request :=
  (if dict_in (fst nd) before then [] else [CreateDashboard (fst nd)])
  ++ match dict_get (fst nd) after with
     | Some d => [UpdateDashboard (d_id d) (sd_is_draft (snd nd)) (sd_tags (snd nd))
                    (sd_dashboard_filters_enabled (snd nd))]
     | None => []
     end.

Record created (sds : dict saved_dashboard) (st st' : state) : Prop := {
  created_queries : saved_queries st' = saved_queries st;
  created_existing : existing_queries st' = existing_queries st;
  created_log : log st' = log st;
  created_kept : forall n d,
    dict_get n (existing_dashboards st) = Some d ->
    dict_get n (existing_dashboards st') = Some d;
  created_new : forall n d,
    dict_get n (existing_dashboards st') = Some d ->
    dict_get n (existing_dashboards st) = Some d
    \/ (In n (dict_keys sds) /\ exists sent, d = created_dashboard sent n);
  created_all : forall n,
    In n (dict_keys sds) -> dict_in n (existing_dashboards st') = true;
  created_sent : NoDup (dict_keys sds) ->
    requests st' = requests st
                   ++ flat_map (upserts (existing_dashboards st)
                                        (existing_dashboards st')) sds
}.

Lemma flat_map_agree {A B} (f g : A -> list B) l :
  (forall x, In x l -> f x = g x) -> flat_map f l = flat_map g l.
Proof.
  induction l as [|x l IH]; simpl; intros H; auto.
  rewrite (H x), IH; auto.
Qed.

Lemma upserts_ext before before' after after' nd :
  dict_in (fst nd) before = dict_in (fst nd) before' ->
  dict_get (fst nd) after = dict_get (fst nd) after' ->
  upserts before after nd = upserts before' after' nd.
Proof. unfold upserts. now intros -> ->. Qed.

Lemma create_missing_dashboards_spec sds : forall st,
  exists st',
    create_missing_dashboards created_dashboard sds st = Ok st'
    /\ created sds st st'.
Proof.
  induction sds as [|[name sd] sds IH]; intros st.
  - exists st. split; [reflexivity|].
    constructor; auto. intros _. simpl. now rewrite app_nil_r.
  - cbn [create_missing_dashboards].
    set (st1 := if dict_in name (existing_dashboards st) then st
                else set_existing_dashboards
                       (dict_set name (created_dashboard (requests st) name)
                          (existing_dashboards st))
                       (send (CreateDashboard name) st)).
    assert (H1 : saved_queries st1 = saved_queries st
                 /\ existing_queries st1 = existing_queries st
                 /\ log st1 = log st
                 /\ requests st1
                    = requests st ++ (if dict_in name (existing_dashboards st)
                                      then [] else [CreateDashboard name])
                 /\ (forall n, n <> name ->
                       dict_get n (existing_dashboards st1)
                       = dict_get n (existing_dashboards st))
                 /\ exists d, dict_get name (existing_dashboards st1) = Some d
                     /\ (dict_get name (existing_dashboards st) = Some d
                         \/ (dict_get name (existing_dashboards st) = None
                             /\ d = created_dashboard (requests st) name))).
    { subst st1. unfold dict_in.
      destruct (dict_get name (existing_dashboards st)) as [d|] eqn:E.
      - rewrite app_nil_r. repeat split; auto. exists d. auto.
      - simpl. repeat split; auto.
        + intros n Hn. now apply dict_get_set_other.
        + eexists. split; [apply dict_get_set_same|]. right. auto. }
    destruct H1 as (Hq & He & Hl & Hr & Hother & d & Hd & Hcase).
    rewrite Hd. cbn [item bind].
    set (st2 := send _ st1).
    destruct (IH st2) as (st' & Hrun & Hc). exists st'. split; [exact Hrun|].
    destruct Hc as [Cq Ce Cl Ckept Cnew Call Csent].
    assert (Hd' : dict_get name (existing_dashboards st') = Some d)
      by (apply Ckept; exact Hd).
    constructor.
    + now rewrite Cq.
    + now rewrite Ce.
    + now rewrite Cl.
    + intros n x Hx. apply Ckept. simpl.
      destruct (String.eqb_spec n name) as [->|Hne].
      * destruct Hcase as [Hc|[Hc _]]; congruence.
      * now rewrite Hother.
    + intros n x Hx. destruct (Cnew n x Hx) as [Hold|[Hin Hsent]].
      * simpl in Hold. destruct (String.eqb_spec n name) as [->|Hne].
        -- rewrite Hd in Hold. injection Hold as <-.
           destruct Hcase as [Hc|[_ Hc]]; [now left|].
           right. split; [now left|]. eauto.
        -- left. now rewrite <- Hother.
      * right. split; [now right|assumption].
    + intros n Hin. simpl in Hin.
      destruct Hin as [<-|Hin]; [unfold dict_in; now rewrite Hd'|now apply Call].
    + intros Hnd. inversion Hnd as [|? ? Hnin Hnd']; subst.
      rewrite (Csent Hnd'). simpl requests. rewrite Hr.
      cbn [flat_map]. unfold upserts at 2. cbn [fst snd]. rewrite Hd'.
      rewrite <- !app_assoc. do 2 f_equal. simpl. f_equal.
      apply flat_map_agree. intros [n x] Hin. apply upserts_ext; auto.
      cbn [fst]. unfold dict_in. simpl existing_dashboards.
      rewrite Hother; auto.
      intros ->. apply Hnin. now apply (in_map fst) in Hin.
Qed.

End Created.

End CreateFacts.

Import CreateFacts.

(** X15.  [create_missing_dashboards] never fails.  For every saved
    dashboard in turn it sends a creation, when the server has no
    dashboard of the name, and then an update with the saved draft
    flag, tags and filter flag; every saved dashboard is on the
    server afterwards, the dashboards the server had are as they
    were, and nothing else has changed. *)
Theorem dashboards_are_created_then_updated
    (created_dashboard : list Push.request -> string -> remote_dashboard)
    (saved_dashboards : dict Push.saved_dashboard) (st : Push.state) :
  NoDup (dict_keys saved_dashboards) ->
  exists st',
    Push.create_missing_dashboards created_dashboard saved_dashboards st = Ok st'
    /\ Push.requests st'
       = Push.requests st
         ++ flat_map (upserts (Push.existing_dashboards st)
                              (Push.existing_dashboards st')) saved_dashboards
    /\ (forall n, In n (dict_keys saved_dashboards) ->
                  dict_in n (Push.existing_dashboards st') = true)
    /\ (forall n d, dict_get n (Push.existing_dashboards st) = Some d ->
                    dict_get n (Push.existing_dashboards st') = Some d)
    /\ Push.saved_queries st' = Push.saved_queries st
    /\ Push.existing_queries st' = Push.existing_queries st.
Proof.
  intros Hnd.
  destruct (create_missing_dashboards_spec created_dashboard saved_dashboards st)
    as (st' & Hrun & [Cq Ce Cl Ckept Cnew Call Csent]).
  exists st'. repeat split; auto.
Qed.

Lemma dashboards_are_created_then_updated_witness :
  NoDup (dict_keys (Sample.dashboard_of [] ++ [("new", {| Push.sd_is_draft := JBool true;
                                                          Push.sd_tags := JList [];
                                                          Push.sd_dashboard_filters_enabled := JBool false;
                                                          Push.sd_widgets := [] |})]))
  /\ exists st',
       Push.create_missing_dashboards Sample.created_dashboard
         (Sample.dashboard_of [] ++ [("new", {| Push.sd_is_draft := JBool true;
                                                Push.sd_tags := JList [];
                                                Push.sd_dashboard_filters_enabled := JBool false;
                                                Push.sd_widgets := [] |})])
         Sample.loaded = Ok st'
       /\ Push.requests st'
          = [Push.UpdateDashboard 3 (JBool false) (JList []) (JBool false);
             Push.CreateDashboard "new";
             Push.UpdateDashboard 51 (JBool true) (JList []) (JBool false)].
Proof.
  assert (Hnd : NoDup (dict_keys (Sample.dashboard_of [] ++
                  [("new", {| Push.sd_is_draft := JBool true;
                              Push.sd_tags := JList [];
                              Push.sd_dashboard_filters_enabled := JBool false;
                              Push.sd_widgets := [] |})]))).
  { repeat constructor; simpl; intuition discriminate. }
  split; [exact Hnd|].
  destruct (dashboards_are_created_then_updated Sample.created_dashboard _
              Sample.loaded Hnd) as (st' & Hrun & Hreq & _).
  exists st'. split; [exact Hrun|].
  rewrite Hreq. injection Hrun as <-. reflexivity.
Defined.

(* ================================================================= *)
(** * The data source *)

(** X16.  [find_data_source] returns the data source of the name given, and
    the only data source when no name (or an empty one) is given.
    With no name and no or several data sources [push] exits with
    status 1 before it has sent anything; with a name no data source
    has, the KeyError is not caught and ends [push]. *)
Theorem push_needs_a_data_source
    (created_query : list Push.request -> string -> Push.saved_query -> Push.remote_query)
    (updated_visualization : list Push.request -> Z -> Push.visualization -> Z)
    (created_visualization : list Push.request -> Push.visualization -> Z)
    (created_dashboard : list Push.request -> string -> remote_dashboard)
    (fuel : nat) (datasources : dict string) (datasource_name : option string)
    (existing_dashboards0 : dict remote_dashboard)
    (saved_dashboards : dict Push.saved_dashboard)
    (existing_queries0 : dict Push.remote_query)
    (saved_queries0 : dict Push.saved_query) :
  let run := Push.push created_query updated_visualization created_visualization
               created_dashboard fuel datasources datasource_name
               existing_dashboards0 saved_dashboards existing_queries0
               saved_queries0 in
  let unnamed := match datasource_name with
                 | Some name => String.eqb name ""
                 | None => true
                 end in
  (unnamed = true -> length datasources <> 1 ->
   Push.find_data_source datasources datasource_name = Raise RuntimeError
   /\ exists st, run = Ok (1%Z, st) /\ Push.requests st = [])
  /\ (unnamed = true -> forall d, datasources = [d] ->
      Push.find_data_source datasources datasource_name = Ok d)
  /\ (forall name, datasource_name = Some name -> name <> "" ->
      match dict_get name datasources with
      | Some type =>
          Push.find_data_source datasources datasource_name = Ok (name, type)
      | None =>
          Push.find_data_source datasources datasource_name = Raise (KeyError name)
          /\ run = Raise (KeyError name)
      end).
Proof.
  cbv zeta. split; [|split].
  - intros Hun Hlen.
    assert (Hf : Push.find_data_source datasources datasource_name
                 = Raise RuntimeError).
    { unfold Push.find_data_source.
      destruct datasource_name as [name|]; [simpl in Hun; rewrite Hun|];
        destruct datasources as [|d [|d' ds]]; simpl in Hlen; congruence. }
    split; [exact Hf|]. unfold Push.push. rewrite Hf. eexists. split; reflexivity.
  - intros Hun d ->. unfold Push.find_data_source.
    destruct datasource_name as [name|]; [simpl in Hun; now rewrite Hun|reflexivity].
  - intros name -> Hne. unfold Push.find_data_source, Push.push.
    apply String.eqb_neq in Hne. rewrite Hne.
    destruct (dict_get name datasources) as [type|] eqn:E; simpl.
    + reflexivity.
    + unfold Push.find_data_source. rewrite Hne, E. simpl. split; reflexivity.
Qed.

(* ================================================================= *)
(** * The visualizations of a query on push *)

Module VisualizationUploadFacts.
Import Push.

Lemma find_last {A} (f : A -> bool) l x :
  find f (l ++ [x])
  = match find f l with
    | Some y => Some y
    | None => if f x then Some x else None
    end.
Proof.
  induction l as [|a l IH]; simpl; [reflexivity|]. now destruct (f a).
Qed.

(** Of the visualizations of a name the server lists, the dict of
    line 146 holds the last. *)
Lemma by_name_last (remote : list remote_visualization) n :
  dict_get n (by_name remote)
  = find (fun e => String.eqb (rv_name e) n) (rev remote).
Proof.
  unfold by_name.
  assert (H : forall d,
            dict_get n (fold_left (fun d viz => dict_set (rv_name viz) viz d) remote d)
            = match find (fun e => String.eqb (rv_name e) n) (rev remote) with
              | Some e => Some e
              | None => dict_get n d
              end).
  { induction remote as [|v remote IH]; intros d; simpl; [reflexivity|].
    rewrite IH, find_last.
    destruct (find _ (rev remote)); auto.
    destruct (String.eqb_spec (rv_name v) n) as [<-|Hne].
    - apply dict_get_set_same.
    - apply dict_get_set_other. congruence. }
  rewrite H. now destruct (find _ (rev remote)).
Qed.

(** The request for a saved visualization: an update of the
    visualization of its name on the server, or a creation; the data
    sent hold the id of the query. *)
Definition request_for (remote : list remote_visualization) (query_id : Z)
    (v : visualization) (r : request) : Prop :=
  exists data,
    v_name data = v_name v /\ v_query_id data = Some query_id
    /\ match find (fun e => String.eqb (rv_name e) (v_name v)) (rev remote) with
       | Some e => r = UpdateVisualization (rv_id e) data
       | None => r = CreateVisualization data
       end.

End VisualizationUploadFacts.

Import VisualizationUploadFacts.

(** X17.  The loop over the visualizations of a query, all link columns of
    which have a template, sends one request for each visualization,
    in their order: an update of the visualization the server has
    under the name (the last, when it lists several), a creation when
    it has none.  Every visualization is left with the id of the
    query and the id the server answered. *)
Theorem each_visualization_is_updated_or_created
    (updated_visualization : list Push.request -> Z -> Push.visualization -> Z)
    (created_visualization : list Push.request -> Push.visualization -> Z)
    (dashboards : dict remote_dashboard)
    (remote : list Push.remote_visualization) (query_id : Z)
    (vs : list Push.visualization)
    (sent : list Push.request) (logged : list log_record) :
  forallb visualization_ok vs = true ->
  exists vs' new logged',
    Push.upload_visualizations updated_visualization created_visualization
      dashboards (Push.by_name remote) query_id sent logged vs
    = Ok (vs', sent ++ new, logged')
    /\ Forall2 (request_for remote query_id) vs new
    /\ Forall2 (fun v v' => Push.v_name v' = Push.v_name v
                            /\ Push.v_query_id v' = Some query_id
                            /\ Push.v_uploaded_id v' <> None) vs vs'.
Proof.
  revert sent logged. induction vs as [|v vs IH]; intros sent logged Hok.
  - exists [], [], logged. simpl. rewrite app_nil_r. repeat split; constructor.
  - simpl in Hok. apply andb_true_iff in Hok as [Hv Hvs].
    cbn [Push.upload_visualizations]. unfold Push.upload_visualization.
    assert (Hcols : exists columns l,
              match Push.v_columns v with
              | Some cs => '(cs', l) <- Push.fix_columns dashboards cs ;; Ok (Some cs', l)
              | None => Ok (None, [])
              end = Ok (columns, l)).
    { unfold visualization_ok in Hv. destruct (Push.v_columns v) as [cs|]; [|eauto].
      destruct (fix_columns_ok dashboards cs Hv) as (cs' & l & ->).
      simpl. eauto. }
    destruct Hcols as (columns & l & ->). cbn [bind].
    set (data := {| Push.v_name := Push.v_name v; Push.v_columns := columns;
                    Push.v_query_id := Some query_id;
                    Push.v_uploaded_id := Push.v_uploaded_id v |}).
    destruct (dict_get (Push.v_name v) (Push.by_name remote)) as [e|] eqn:Ee.
    + cbv beta iota. cbn [bind].
      destruct (IH (sent ++ [Push.UpdateVisualization (Push.rv_id e) data])
                  (logged ++ l) Hvs)
        as (vs' & new & logged' & -> & Hnew & Hres).
      cbn [bind]. eexists _, (_ :: new), _. rewrite <- app_assoc.
      split; [reflexivity|]. split; constructor; auto.
      * exists data. rewrite <- by_name_last, Ee. auto.
      * simpl. repeat split; auto. discriminate.
    + cbv beta iota. cbn [bind].
      destruct (IH (sent ++ [Push.CreateVisualization data]) (logged ++ l) Hvs)
        as (vs' & new & logged' & -> & Hnew & Hres).
      cbn [bind]. eexists _, (_ :: new), _. rewrite <- app_assoc.
      split; [reflexivity|]. split; constructor; auto.
      * exists data. rewrite <- by_name_last, Ee. auto.
      * simpl. repeat split; auto. discriminate.
Qed.

(* ================================================================= *)
(** * Widgets without a visualization *)

Module TextWidgetFacts.
Import Push KeyErrorFacts.

Lemma add_widgets_text d ws : forall acc,
  (exists w, In w ws /\ w_visualization w = None) ->
  exists k, add_widgets d ws acc = Raise (KeyError k).
Proof.
  induction ws as [|w0 ws IH]; intros [error st] (w & Hin & Hw); [destruct Hin|].
  cbn [add_widgets].
  destruct (add_widget_cases d w0 error st) as [(k & ->)|(acc1 & E & _)].
  - eexists. reflexivity.
  - rewrite E. cbn [bind]. destruct Hin as [->|Hin].
    + unfold add_widget in E. rewrite Hw in E. discriminate.
    + apply IH. eauto.
Qed.

Lemma remove_widgets_text ws : forall st,
  (exists rw, In rw ws /\ rw_visualization rw = None) ->
  exists k, remove_widgets ws st = Raise (KeyError k).
Proof.
  induction ws as [|w0 ws IH]; intros st (rw & Hin & Hrw); [destruct Hin|].
  cbn [remove_widgets]. unfold remove_widget.
  destruct (rw_visualization w0) eqn:E0; cbn [item bind]; [|eexists; reflexivity].
  destruct Hin as [->|Hin]; [congruence|]. apply IH. eauto.
Qed.

(** A saved dashboard the update of which raises, in every state
    with the dashboards of [st]. *)
Definition breaks (st : state) (name : string) (sd : saved_dashboard) : Prop :=
  forall error st',
    existing_dashboards st' = existing_dashboards st ->
    exists k, update_dashboard name sd (error, st') = Raise (KeyError k).

Lemma update_each_breaks sds : forall error st,
  (exists name sd, In (name, sd) sds /\ breaks st name sd) ->
  exists k, update_each sds (error, st) = Raise (KeyError k).
Proof.
  induction sds as [|[name0 sd0] sds IH]; intros error st (name & sd & Hin & Hb);
    [destruct Hin|].
  cbn [update_each].
  destruct (update_dashboard_cases name0 sd0 (error, st))
    as [(k & ->)|([e st1] & E & _ & Hd)]; [eexists; reflexivity|].
  rewrite E. cbn [bind]. destruct Hin as [[= -> ->]|Hin].
  - destruct (Hb error st eq_refl) as (k & Ek). rewrite Ek in E. discriminate.
  - apply IH. exists name, sd. split; auto.
    intros error' st' Hst'. apply Hb. simpl in Hd. congruence.
Qed.

End TextWidgetFacts.

Import TextWidgetFacts.

(** X18.  A widget without a visualization (a text box, which fetch.py
    writes without one) ends [update_dashboards] with a KeyError,
    whether it is a widget of a saved dashboard or a widget the server
    has on a dashboard that is saved: neither 0 nor 1 is returned. *)
Theorem text_widgets_raise_KeyError
    (saved_dashboards : dict Push.saved_dashboard) (st : Push.state) :
  (forall name sd w,
     In (name, sd) saved_dashboards -> In w (Push.sd_widgets sd) ->
     Push.w_visualization w = None ->
     exists key, Push.update_dashboards saved_dashboards st = Raise (KeyError key))
  /\
  (forall name sd d ws rw,
     In (name, sd) saved_dashboards ->
     dict_get name (Push.existing_dashboards st) = Some d ->
     d_widgets d = Some ws -> In rw ws -> rw_visualization rw = None ->
     exists key, Push.update_dashboards saved_dashboards st = Raise (KeyError key)).
Proof.
  assert (Hgo : (exists name sd, In (name, sd) saved_dashboards /\ breaks st name sd) ->
                exists key, Push.update_dashboards saved_dashboards st
                            = Raise (KeyError key)).
  { intros H. unfold Push.update_dashboards.
    destruct (update_each_breaks saved_dashboards false st H) as (k & ->).
    eexists. reflexivity. }
  split.
  - intros name sd w Hsd Hw Hv. apply Hgo. exists name, sd. split; auto.
    intros error st' _. unfold Push.update_dashboard.
    destruct (dict_get name (Push.existing_dashboards st')) as [d|];
      cbn [item bind]; [|eexists; reflexivity].
    match goal with
    | |- context [bind ?m _] =>
        assert (H : KeyErrorFacts.key_error_or_same m st' (fun s => s))
    end.
    { destruct (d_widgets d) as [[|w0 ws]|].
      - right. exists st'. auto.
      - apply KeyErrorFacts.remove_widgets_cases.
      - right. exists st'. auto. }
    destruct H as [(k & ->)|(st1 & -> & _)]; [eexists; reflexivity|]. cbn [bind].
    apply add_widgets_text. eauto.
  - intros name sd d ws rw Hsd Hd Hws Hrw Hv. apply Hgo. exists name, sd.
    split; auto. intros error st' Hst'. unfold Push.update_dashboard.
    rewrite Hst', Hd. cbn [item bind]. rewrite Hws.
    destruct ws as [|w0 ws]; [destruct Hrw|].
    destruct (remove_widgets_text (w0 :: ws) st') as (k & Ek); [eauto|].
    rewrite Ek. eexists. reflexivity.
Qed.

(* ================================================================= *)
(** * References that cannot be resolved *)

Module StuckFacts.
Import Push.

Section Stuck.
Variable created_query : list request -> string -> saved_query -> remote_query.
Variable updated_visualization : list request -> Z -> visualization -> Z.
Variable created_visualization : list request -> visualization -> Z.

(** The queries of [doomed] cannot be uploaded. *)
Variable doomed : string -> Prop.

(** A parameter of type query that has no name, names a query that is
    not saved, or names a query of [doomed]. *)
Definition blocked (st : state) (p : parameter) : Prop :=
  p_type p = "query"
  /\ match p_queryName p with
     | Some m => doomed m \/ dict_in m (saved_queries st) = false
     | None => True
     end.

(** The query saved as [n] carries no id, and its parameter [i] is
    blocked. *)
Definition stuck_at (st : state) (n : string) (i : nat) (p : parameter) : Prop :=
  exists q, dict_get n (saved_queries st) = Some q
            /\ q_uploaded_id q = None
            /\ nth_error (parameters_of q) i = Some p
            /\ blocked st p.

Definition all_stuck (st : state) : Prop :=
  forall n, doomed n -> exists i p, stuck_at st n i p.

(** From [st] to [st']: the same queries are saved, and the queries
    of [doomed] are as they were. *)
Definition frame (st st' : state) : Prop :=
  (forall k, dict_in k (saved_queries st') = dict_in k (saved_queries st))
  /\ (forall x, doomed x -> dict_get x (saved_queries st') = dict_get x (saved_queries st)).

Lemma frame_refl st : frame st st.
Proof. split; auto. Qed.

Lemma frame_trans st1 st2 st3 : frame st1 st2 -> frame st2 st3 -> frame st1 st3.
Proof.
  intros [K1 E1] [K2 E2]. split.
  - intros k. now rewrite K2.
  - intros x Hx. now rewrite E2, E1.
Qed.

Lemma blocked_keys st st' p :
  (forall k, dict_in k (saved_queries st') = dict_in k (saved_queries st)) ->
  blocked st p -> blocked st' p.
Proof.
  intros K [Hty Hn]. split; auto.
  destruct (p_queryName p); auto. now rewrite K.
Qed.

Lemma all_stuck_frame st st' : frame st st' -> all_stuck st -> all_stuck st'.
Proof.
  intros [K E] H n Hn. destruct (H n Hn) as (i & p & q & Hq & Hu & Hi & Hb).
  exists i, p, q. rewrite (E n Hn). eauto using blocked_keys.
Qed.

Lemma set_parameter_keys n i p st k :
  dict_in k (saved_queries (set_parameter n i p st)) = dict_in k (saved_queries st).
Proof.
  unfold set_parameter.
  destruct (dict_get n (saved_queries st)) as [q|] eqn:E; auto. simpl.
  apply dict_in_set. unfold dict_in. now rewrite E.
Qed.

Lemma set_parameter_frame n i p st : ~ doomed n -> frame st (set_parameter n i p st).
Proof.
  intros Hn. split.
  - intros k. apply set_parameter_keys.
  - intros x Hx. apply set_parameter_other. now intros ->.
Qed.

(** What the calls of [upload_query] within a budget do: they
    return for no query of [doomed], and keep the frame. *)
Definition sound (rec : string -> state -> result (Z * state)) : Prop :=
  (forall m st id st', all_stuck st -> rec m st = Ok (id, st') ->
                       ~ doomed m /\ frame st st')
  /\ (forall m st r, dict_in m (saved_queries st) = false -> rec m st <> Ok r).

(** The loop over the parameters of a query that is not in [doomed]. *)
Lemma resolve_parameters_frame rec n : sound rec -> ~ doomed n ->
  forall indices st st1,
  all_stuck st ->
  resolve_parameters rec n indices st = Ok st1 -> frame st st1.
Proof.
  intros [Hrec _] Hn. induction indices as [|i indices IH]; intros st st1 Hst.
  - intros [= <-]. apply frame_refl.
  - cbn [resolve_parameters].
    destruct (nth_error (the_parameters st n) i) as [param|];
      [|intros [= <-]; apply frame_refl].
    destruct (String.eqb (p_type param) "query"); [|now apply IH].
    destruct (p_queryName param) as [m|]; cbn [item bind]; [|discriminate].
    destruct (rec m st) as [[id st2]| |] eqn:Er; cbn [bind]; try discriminate.
    destruct (Hrec m st id st2 Hst Er) as [_ Hf].
    assert (Hst2 := all_stuck_frame _ _ Hf Hst).
    destruct (nth_error (the_parameters st2 n) i) as [param1|].
    + destruct (p_queryName param1); cbn [item bind]; [|discriminate].
      intros H. apply IH in H.
      * eapply frame_trans; [exact Hf|].
        eapply frame_trans; [|exact H]. now apply set_parameter_frame.
      * eapply all_stuck_frame; [|exact Hst2]. now apply set_parameter_frame.
    + intros H. apply IH in H; auto. eapply frame_trans; eauto.
Qed.

Lemma nth_error_lt {A} (l : list A) i x : nth_error l i = Some x -> i < length l.
Proof. intros H. apply nth_error_Some. congruence. Qed.

Lemma the_parameters_get st n q :
  dict_get n (saved_queries st) = Some q -> the_parameters st n = parameters_of q.
Proof. intros H. unfold the_parameters. now rewrite H. Qed.

(** The loop over the parameters of a query of [doomed] does not get past
    the blocked parameter. *)
Lemma resolve_parameters_stuck rec n i p : sound rec -> doomed n ->
  forall len k st r,
  k <= i < k + len ->
  all_stuck st -> stuck_at st n i p ->
  resolve_parameters rec n (seq k len) st <> Ok r.
Proof.
  intros [Hrec Hmiss] Hn. induction len as [|len IH]; intros k st r Hk Hst Hat;
    [lia|].
  cbn [seq resolve_parameters].
  destruct Hat as (q & Hq & Hu & Hi & Hb).
  rewrite (the_parameters_get st n q Hq).
  destruct (Nat.eq_dec k i) as [->|Hne].
  - rewrite Hi. destruct Hb as [Hty Hname]. rewrite Hty. simpl String.eqb. cbv iota.
    destruct (p_queryName p) as [m|]; cbn [item bind]; [|discriminate].
    destruct (rec m st) as [[id st2]| |] eqn:Er; cbn [bind]; try discriminate.
    exfalso. destruct Hname as [Hm|Hm].
    + now destruct (Hrec m st id st2 Hst Er).
    + now apply (Hmiss m st (id, st2) Hm).
  - assert (Hat : stuck_at st n i p) by (exists q; auto).
    destruct (nth_error (parameters_of q) k) as [param|] eqn:Ek.
    2:{ apply nth_error_None in Ek. apply nth_error_lt in Hi.
        exfalso. lia. }
    destruct (String.eqb (p_type param) "query");
      [|apply IH; auto; lia].
    destruct (p_queryName param) as [m|]; cbn [item bind]; [|discriminate].
    destruct (rec m st) as [[id st2]| |] eqn:Er; cbn [bind]; try discriminate.
    destruct (Hrec m st id st2 Hst Er) as [_ Hf].
    assert (Hst2 := all_stuck_frame _ _ Hf Hst).
    assert (Hq2 : dict_get n (saved_queries st2) = Some q)
      by (destruct Hf as [_ E]; now rewrite E).
    rewrite (the_parameters_get st2 n q Hq2), Ek.
    destruct (p_queryName param); cbn [item bind]; [|discriminate].
    set (p' := {| p_name := p_name param; p_type := p_type param;
                  p_queryName := None; p_queryId := Some id |}).
    assert (Hkeys : forall x, dict_in x (saved_queries (set_parameter n k p' st2))
                              = dict_in x (saved_queries st2))
      by (intros x; apply set_parameter_keys).
    apply IH; [lia| |].
    + intros x Hx. destruct (Hst2 x Hx) as (j & pj & qx & Hqx & Hux & Hj & Hbx).
      destruct (String.eqb_spec x n) as [->|Hxn].
      * exists i, p.
        destruct (q_parameters q) as [ps|] eqn:Eps;
          [|unfold parameters_of in Hi; rewrite Eps in Hi; destruct i; discriminate].
        eexists. rewrite (set_parameter_saved n k p' st2 q Hq2), dict_get_set_same.
        split; [reflexivity|]. split; [exact Hu|]. split.
        -- unfold parameters_of in *. cbn [q_parameters]. rewrite Eps in *.
           now rewrite nth_error_set_nth_other.
        -- eapply blocked_keys; [exact Hkeys|].
           eapply blocked_keys; [|exact Hb]. now destruct Hf.
      * exists j, pj, qx. rewrite set_parameter_other by assumption.
        split; [exact Hqx|]. split; [exact Hux|]. split; [exact Hj|].
        eapply blocked_keys; [exact Hkeys|exact Hbx].
    + destruct (q_parameters q) as [ps|] eqn:Eps;
        [|unfold parameters_of in Hi; rewrite Eps in Hi; destruct i; discriminate].
      eexists. rewrite (set_parameter_saved n k p' st2 q Hq2), dict_get_set_same.
      split; [reflexivity|]. split; [exact Hu|]. split.
      * unfold parameters_of in *. cbn [q_parameters]. rewrite Eps in *.
        now rewrite nth_error_set_nth_other.
      * eapply blocked_keys; [exact Hkeys|].
        eapply blocked_keys; [|exact Hb]. now destruct Hf.
Qed.

Abbreviation upload :=
  (upload_query created_query updated_visualization created_visualization).

Lemma upload_query_missing fuel m st r :
  dict_in m (saved_queries st) = false -> upload fuel m st <> Ok r.
Proof.
  unfold dict_in. destruct fuel; simpl; [discriminate|].
  destruct (dict_get m (saved_queries st)); discriminate.
Qed.

Lemma update_and_visualize_frame n q st id st' :
  ~ doomed n -> dict_in n (saved_queries st) = true ->
  update_and_visualize updated_visualization created_visualization n q st
  = Ok (id, st') ->
  frame st st'.
Proof.
  intros Hn Hin. unfold update_and_visualize.
  destruct (dict_get n (existing_queries st)) as [remote|]; cbn [item bind];
    [|discriminate].
  destruct (upload_visualizations _ _ _ _ _ _ _ _) as [[[vs sent] logged]| |];
    cbn [bind]; try discriminate.
  intros [= _ <-]. split; simpl.
  - intros k. now apply dict_in_set.
  - intros x Hx. apply dict_get_set_other. now intros ->.
Qed.

Lemma upload_query_sound fuel : sound (upload fuel).
Proof.
  induction fuel as [|fuel IH]; (split; [|intros; now apply upload_query_missing]).
  - discriminate.
  - intros n st id st' Hst. cbn [upload_query].
    destruct (dict_get n (saved_queries st)) as [q|] eqn:Hq; cbn [item bind];
      [|discriminate].
    destruct (q_uploaded_id q) as [uid|] eqn:Hu.
    + intros [= <- <-]. split; [|apply frame_refl].
      intros Hn. destruct (Hst n Hn) as (i & p & q' & Hq' & Hu' & _). congruence.
    + destruct (q_parameters q) as [ps|] eqn:Eps.
      * destruct (resolve_parameters (upload fuel) n (seq 0 (length ps)) st)
          as [st1| |] eqn:Er; cbn [bind]; try discriminate.
        assert (Hn : ~ doomed n).
        { intros Hn. destruct (Hst n Hn) as (i & p & Hat).
          apply (resolve_parameters_stuck (upload fuel) n i p IH Hn
                   (length ps) 0 st st1); auto.
          destruct Hat as (q' & Hq' & _ & Hi & _).
          assert (q' = q) by congruence. subst q'.
          unfold parameters_of in Hi. rewrite Eps in Hi.
          apply nth_error_lt in Hi. lia. }
        intros H. split; [exact Hn|].
        assert (Hf := resolve_parameters_frame (upload fuel) n IH Hn _ _ _ Hst Er).
        eapply frame_trans; [exact Hf|].
        assert (Hin : dict_in n (saved_queries st1) = true).
        { destruct Hf as [K _]. rewrite K. unfold dict_in. now rewrite Hq. }
        destruct (dict_in_get _ _ Hin) as (q1 & Hq1).
        destruct (create_if_missing_spec created_query n q q1 st1 Hq1)
          as (Hs & _).
        apply (frame_trans st1 (create_if_missing created_query n q st1) st').
        -- split; [intros k|intros x _]; now rewrite Hs.
        -- apply (update_and_visualize_frame n q _ id st' Hn); [|exact H].
           now rewrite Hs.
      * cbn [bind]. intros H.
        assert (Hn : ~ doomed n).
        { intros Hn. destruct (Hst n Hn) as (i & p & q' & Hq' & _ & Hi & _).
          assert (q' = q) by congruence. subst q'.
          unfold parameters_of in Hi. rewrite Eps in Hi. destruct i; discriminate. }
        split; [exact Hn|].
        assert (Hin : dict_in n (saved_queries st) = true)
          by (unfold dict_in; now rewrite Hq).
        destruct (create_if_missing_spec created_query n q q st Hq) as (Hs & _).
        apply (frame_trans st (create_if_missing created_query n q st) st').
        -- split; [intros k|intros x _]; now rewrite Hs.
        -- apply (update_and_visualize_frame n q _ id st' Hn); [|exact H].
           now rewrite Hs.
Qed.

Lemma upload_each_stuck fuel names : forall st st',
  all_stuck st -> (exists n, In n names /\ doomed n) ->
  upload_each created_query updated_visualization created_visualization
    fuel names st <> Ok st'.
Proof.
  induction names as [|n names IH]; intros st st' Hst (x & Hin & Hx);
    [destruct Hin|].
  cbn [upload_each].
  destruct (upload fuel n st) as [[id st1]| |] eqn:E; cbn [bind]; try discriminate.
  destruct (upload_query_sound fuel) as [Hs _].
  destruct (Hs n st id st1 Hst E) as [Hn Hf].
  apply IH; [eapply all_stuck_frame; eauto|].
  exists x. split; auto. destruct Hin as [->|]; [contradiction|assumption].
Qed.

End Stuck.

End StuckFacts.

Import StuckFacts.

(** X19.  The converse of the precondition of the upload.  [doomed] is a set of
    saved queries that carry no id, each with a parameter of type
    query that has no queryName, or names a query that is not saved,
    or names a query of [doomed] (a cycle of references is such a set, and
    so is a query with a reference that dangles).  Then, whatever the
    fuel and whatever the server answers, [upload_query] returns for
    no query of [doomed], [upload_queries] does not return, and [push],
    once it has found a data source, exits with no status. *)
Theorem unresolvable_references_stop_the_upload
    (created_query : list Push.request -> string -> Push.saved_query -> Push.remote_query)
    (updated_visualization : list Push.request -> Z -> Push.visualization -> Z)
    (created_visualization : list Push.request -> Push.visualization -> Z)
    (created_dashboard : list Push.request -> string -> remote_dashboard)
    (doomed : string -> Prop) (saved_queries0 : dict Push.saved_query) (fuel : nat) :
  (forall n, doomed n ->
     exists q i p,
       dict_get n saved_queries0 = Some q
       /\ Push.q_uploaded_id q = None
       /\ nth_error (Push.parameters_of q) i = Some p
       /\ Push.p_type p = "query"
       /\ match Push.p_queryName p with
          | Some m => doomed m \/ dict_in m saved_queries0 = false
          | None => True
          end) ->
  (exists n, doomed n) ->
  (forall st n r,
     Push.saved_queries st = saved_queries0 -> doomed n ->
     Push.upload_query created_query updated_visualization created_visualization
       fuel n st <> Ok r)
  /\ (forall st st',
        Push.saved_queries st = saved_queries0 ->
        Push.upload_queries created_query updated_visualization
          created_visualization fuel st <> Ok st')
  /\ (forall datasources datasource_name ds existing_dashboards0 saved_dashboards
             existing_queries0 r,
        Push.find_data_source datasources datasource_name = Ok ds ->
        Push.push created_query updated_visualization created_visualization
          created_dashboard fuel datasources datasource_name existing_dashboards0
          saved_dashboards existing_queries0 saved_queries0 <> Ok r).
Proof.
  intros HS (x & Hx).
  assert (Hst : forall st, Push.saved_queries st = saved_queries0 -> all_stuck doomed st).
  { intros st E n Hn. destruct (HS n Hn) as (q & i & p & Hq & Hu & Hi & Hty & Hm).
    exists i, p, q. unfold blocked. rewrite E.
    split; [exact Hq|]. split; [exact Hu|]. split; [exact Hi|].
    split; [exact Hty|exact Hm]. }
  assert (Hall : forall st st',
            Push.saved_queries st = saved_queries0 ->
            Push.upload_queries created_query updated_visualization
              created_visualization fuel st <> Ok st').
  { intros st st' E. unfold Push.upload_queries.
    apply (upload_each_stuck created_query updated_visualization
             created_visualization doomed); auto.
    exists x. split; auto. apply dict_in_keys.
    destruct (HS x Hx) as (q & _ & _ & Hq & _). unfold dict_in. now rewrite E, Hq. }
  split; [|split; [exact Hall|]].
  - intros st n [id st'] E Hn H.
    destruct (upload_query_sound created_query updated_visualization
                created_visualization doomed fuel) as [Hs _].
    now destruct (Hs n st id st' (Hst st E) H).
  - intros datasources datasource_name ds existing_dashboards0 saved_dashboards
           existing_queries0 r Hds.
    unfold Push.push. rewrite Hds.
    destruct (CreateFacts.create_missing_dashboards_spec created_dashboard
                saved_dashboards
                {| Push.saved_queries := saved_queries0;
                   Push.existing_queries := existing_queries0;
                   Push.existing_dashboards := existing_dashboards0;
                   Push.requests := [];
                   Push.log := [] |}) as (st1 & -> & [Cq _ _ _ _ _ _]).
    cbn [bind].
    destruct (Push.upload_queries _ _ _ fuel st1) as [st2| |] eqn:E;
      cbn [bind]; try discriminate.
    now destruct (Hall st1 st2 Cq).
Qed.

(** Two queries that refer to each other, and one that refers to a
    query that is not saved. *)
Definition tangled : dict Push.saved_query :=
  [("Here", {| Push.q_parameters := Some [Sample.text_parameter "from";
                                           Sample.query_parameter "there" "There"];
               Push.q_visualizations := [];
               Push.q_uploaded_id := None |});
   ("There", {| Push.q_parameters := Some [Sample.query_parameter "here" "Here"];
                Push.q_visualizations := [];
                Push.q_uploaded_id := None |});
   ("Orphan", {| Push.q_parameters := Some [Sample.query_parameter "gone" "Gone"];
                 Push.q_visualizations := [];
                 Push.q_uploaded_id := None |})].

Definition tangled_state : Push.state :=
  {| Push.saved_queries := tangled; Push.existing_queries := [];
     Push.existing_dashboards := []; Push.requests := []; Push.log := [] |}.

Lemma unresolvable_references_stop_the_upload_witness :
  dict_in "Gone" tangled = false
  /\ forall fuel st',
       Push.upload_queries Sample.created_query Sample.updated_visualization
         Sample.created_visualization fuel tangled_state <> Ok st'.
Proof.
  split; [reflexivity|]. intros fuel st'.
  refine (proj1 (proj2 (unresolvable_references_stop_the_upload
            Sample.created_query Sample.updated_visualization
            Sample.created_visualization Sample.created_dashboard
            (fun n => n = "Here" \/ n = "There" \/ n = "Orphan") tangled fuel _ _))
            tangled_state st' eq_refl).
  - intros n [-> | [-> | ->]].
    + eexists _, 1, _. repeat split; simpl; auto.
    + eexists _, 0, _. repeat split; simpl; auto.
    + eexists _, 0, _. repeat split; simpl; auto.
  - exists "Here". auto.
Defined.

(* ================================================================= *)
(** * The three phases of push *)

Module PhaseFacts.
Import Push.

Definition about_dashboard (r : request) : bool :=
  match r with
  | CreateDashboard _ | UpdateDashboard _ _ _ _ => true
  | _ => false
  end.

Definition about_queries (r : request) : bool :=
  match r with
  | CreateQuery _ _ | UpdateQuery _ _ _
  | UpdateVisualization _ _ | CreateVisualization _ => true
  | _ => false
  end.

Definition about_widget (r : request) : bool :=
  match r with
  | DeleteWidget _ | CreateWidget _ _ _ _ => true
  | _ => false
  end.

(** From [st] to [st']: requests of one kind were sent. *)
Definition sends (kind : request -> bool) (st st' : state) : Prop :=
  exists evs, requests st' = requests st ++ evs /\ forallb kind evs = true.

Lemma sends_refl kind st : sends kind st st.
Proof. exists []. now rewrite app_nil_r. Qed.

Lemma sends_trans kind st1 st2 st3 :
  sends kind st1 st2 -> sends kind st2 st3 -> sends kind st1 st3.
Proof.
  intros (e1 & E1 & H1) (e2 & E2 & H2). exists (e1 ++ e2).
  rewrite E2, E1, app_assoc, forallb_app, H1, H2. auto.
Qed.

Lemma sends_one kind r st : kind r = true -> sends kind st (send r st).
Proof. intros H. exists [r]. simpl. now rewrite H. Qed.

Lemma sends_same kind st st' : requests st' = requests st -> sends kind st st'.
Proof. intros H. exists []. now rewrite app_nil_r. Qed.

Section Oracles.
Variable created_query : list request -> string -> saved_query -> remote_query.
Variable updated_visualization : list request -> Z -> visualization -> Z.
Variable created_visualization : list request -> visualization -> Z.
Variable created_dashboard : list request -> string -> remote_dashboard.

Lemma create_missing_dashboards_sends sds : forall st st',
  create_missing_dashboards created_dashboard sds st = Ok st' ->
  sends about_dashboard st st'.
Proof.
  induction sds as [|[name sd] sds IH]; intros st st'.
  - intros [= <-]. apply sends_refl.
  - cbn [create_missing_dashboards].
    set (st1 := if dict_in name (existing_dashboards st) then st else _).
    assert (H1 : sends about_dashboard st st1).
    { subst st1. destruct (dict_in name (existing_dashboards st));
        [apply sends_refl|]. exists [CreateDashboard name]. auto. }
    destruct (dict_get name (existing_dashboards st1)) as [d|]; cbn [item bind];
      [|discriminate].
    intros H. apply IH in H.
    eapply sends_trans; [exact H1|]. eapply sends_trans; [|exact H].
    now apply sends_one.
Qed.

Lemma upload_visualizations_sends dashboards existing query_id vs :
  forall sent logged vs' sent' logged',
  upload_visualizations updated_visualization created_visualization
    dashboards existing query_id sent logged vs = Ok (vs', sent', logged') ->
  exists new, sent' = sent ++ new /\ forallb about_queries new = true.
Proof.
  induction vs as [|v vs IH]; intros sent logged vs' sent' logged'.
  - intros [= _ <- _]. exists []. now rewrite app_nil_r.
  - cbn [upload_visualizations].
    destruct (upload_visualization _ _ _ _ _ _ v) as [[[v1 r] l]| |] eqn:Ev;
      cbn [bind]; try discriminate.
    destruct (upload_visualizations _ _ _ _ _ (sent ++ [r]) _ vs)
      as [[[vs1 sent1] logged1]| |] eqn:Er; cbn [bind]; try discriminate.
    intros [= _ <- _]. apply IH in Er as (new & -> & Hnew).
    exists (r :: new). rewrite <- app_assoc. split; auto.
    simpl. rewrite Hnew, andb_true_r.
    unfold upload_visualization in Ev.
    destruct (match v_columns v with Some _ => _ | None => _ end)
      as [[columns l0]| |]; cbn [bind] in Ev; try discriminate.
    destruct (dict_get (v_name v) existing); injection Ev as _ <- _; reflexivity.
Qed.

Definition quiet (rec : string -> state -> result (Z * state)) : Prop :=
  forall m st id st', rec m st = Ok (id, st') -> sends about_queries st st'.

Lemma set_parameter_requests n i p st :
  requests (set_parameter n i p st) = requests st.
Proof.
  unfold set_parameter. now destruct (dict_get n (saved_queries st)).
Qed.

Lemma resolve_parameters_sends rec n : quiet rec ->
  forall indices st st1,
  resolve_parameters rec n indices st = Ok st1 -> sends about_queries st st1.
Proof.
  intros Hrec. induction indices as [|i indices IH]; intros st st1.
  - intros [= <-]. apply sends_refl.
  - cbn [resolve_parameters].
    destruct (nth_error (the_parameters st n) i) as [param|];
      [|intros [= <-]; apply sends_refl].
    destruct (String.eqb (p_type param) "query"); [|apply IH].
    destruct (p_queryName param) as [m|]; cbn [item bind]; [|discriminate].
    destruct (rec m st) as [[id st2]| |] eqn:Er; cbn [bind]; try discriminate.
    apply Hrec in Er.
    destruct (nth_error (the_parameters st2 n) i) as [param1|].
    + destruct (p_queryName param1); cbn [item bind]; [|discriminate].
      intros H. apply IH in H.
      eapply sends_trans; [exact Er|]. eapply sends_trans; [|exact H].
      apply sends_same. apply set_parameter_requests.
    + intros H. apply IH in H. eapply sends_trans; eauto.
Qed.

Lemma upload_query_sends fuel :
  quiet (upload_query created_query updated_visualization created_visualization fuel).
Proof.
  induction fuel as [|fuel IH]; intros n st id st'; [discriminate|].
  cbn [upload_query].
  destruct (dict_get n (saved_queries st)) as [q|]; cbn [item bind]; [|discriminate].
  destruct (q_uploaded_id q); [intros [= _ <-]; apply sends_refl|].
  match goal with
  | |- context [bind ?m _] =>
      destruct m as [st1| |] eqn:Er; cbn [bind]; try discriminate
  end.
  assert (H1 : sends about_queries st st1).
  { destruct (q_parameters q).
    - eapply resolve_parameters_sends; eauto.
    - injection Er as <-. apply sends_refl. }
  assert (H2 : sends about_queries st1 (create_if_missing created_query n q st1)).
  { unfold create_if_missing. destruct (dict_in n (existing_queries st1));
      [apply sends_refl|]. eexists [_]. split; reflexivity. }
  unfold update_and_visualize.
  destruct (dict_get n (existing_queries _)) as [remote|]; cbn [item bind];
    [|discriminate].
  destruct (upload_visualizations _ _ _ _ _ _ _ _) as [[[vs sent] logged]| |] eqn:Ev;
    cbn [bind]; try discriminate.
  intros [= _ <-].
  apply upload_visualizations_sends in Ev as (new & -> & Hnew).
  eapply sends_trans; [exact H1|]. eapply sends_trans; [exact H2|].
  eexists (_ :: new). simpl. rewrite <- app_assoc. split; [reflexivity|].
  exact Hnew.
Qed.

Lemma upload_each_sends fuel names : forall st st',
  upload_each created_query updated_visualization created_visualization
    fuel names st = Ok st' ->
  sends about_queries st st'.
Proof.
  induction names as [|n names IH]; intros st st'.
  - intros [= <-]. apply sends_refl.
  - cbn [upload_each].
    destruct (upload_query _ _ _ fuel n st) as [[id st1]| |] eqn:E; cbn [bind];
      try discriminate.
    intros H. apply IH in H. apply upload_query_sends in E.
    eapply sends_trans; eauto.
Qed.

Lemma add_widgets_sends d ws : forall error st error' st',
  add_widgets d ws (error, st) = Ok (error', st') -> sends about_widget st st'.
Proof.
  induction ws as [|w ws IH]; intros error st error' st'.
  - intros [= _ <-]. apply sends_refl.
  - cbn [add_widgets].
    destruct (add_widget d w (error, st)) as [[e1 st1]| |] eqn:E; cbn [bind];
      try discriminate.
    intros H. apply IH in H. eapply sends_trans; [|exact H].
    unfold add_widget in E.
    destruct (w_visualization w) as [[vn qn]|]; cbn [item bind] in E;
      [|discriminate].
    destruct (dict_get qn (saved_queries st)) as [query|]; cbn [item bind] in E;
      [|discriminate].
    destruct (find _ (q_visualizations query)) as [v|].
    + destruct (v_uploaded_id v); cbn [item bind] in E; [|discriminate].
      injection E as _ <-. now apply sends_one.
    + injection E as _ <-. now apply sends_same.
Qed.

Lemma remove_widgets_sends ws : forall st st',
  remove_widgets ws st = Ok st' -> sends about_widget st st'.
Proof.
  induction ws as [|w ws IH]; intros st st'.
  - intros [= <-]. apply sends_refl.
  - cbn [remove_widgets]. unfold remove_widget.
    destruct (rw_visualization w); cbn [item bind]; [|discriminate].
    intros H. apply IH in H. eapply sends_trans; [|exact H]. now apply sends_one.
Qed.

Lemma update_each_sends sds : forall error st error' st',
  update_each sds (error, st) = Ok (error', st') -> sends about_widget st st'.
Proof.
  induction sds as [|[name sd] sds IH]; intros error st error' st'.
  - intros [= _ <-]. apply sends_refl.
  - cbn [update_each].
    destruct (update_dashboard name sd (error, st)) as [[e1 st1]| |] eqn:E;
      cbn [bind]; try discriminate.
    intros H. apply IH in H. eapply sends_trans; [|exact H].
    unfold update_dashboard in E.
    destruct (dict_get name (existing_dashboards st)) as [d|]; cbn [item bind] in E;
      [|discriminate].
    match type of E with
    | context [bind ?m _] => destruct m as [st0| |] eqn:Er; cbn [bind] in E;
                             try discriminate
    end.
    apply add_widgets_sends in E. eapply sends_trans; [|exact E].
    destruct (d_widgets d) as [[|w ws]|].
    + injection Er as <-. apply sends_refl.
    + now apply remove_widgets_sends in Er.
    + injection Er as <-. apply sends_refl.
Qed.

End Oracles.

End PhaseFacts.

Import PhaseFacts.

(** X20.  The requests of a run of [push] that returns come in three
    phases: first the creations and updates of dashboards, then the
    creations and updates of queries and visualizations, then the
    deletions and creations of widgets. *)
Theorem push_sends_in_three_phases
    (created_query : list Push.request -> string -> Push.saved_query -> Push.remote_query)
    (updated_visualization : list Push.request -> Z -> Push.visualization -> Z)
    (created_visualization : list Push.request -> Push.visualization -> Z)
    (created_dashboard : list Push.request -> string -> remote_dashboard)
    (fuel : nat) (datasources : dict string) (datasource_name : option string)
    (existing_dashboards0 : dict remote_dashboard)
    (saved_dashboards : dict Push.saved_dashboard)
    (existing_queries0 : dict Push.remote_query)
    (saved_queries0 : dict Push.saved_query) (code : Z) (st : Push.state) :
  Push.push created_query updated_visualization created_visualization
    created_dashboard fuel datasources datasource_name existing_dashboards0
    saved_dashboards existing_queries0 saved_queries0 = Ok (code, st) ->
  exists dashboards queries widgets,
    Push.requests st = dashboards ++ queries ++ widgets
    /\ forallb about_dashboard dashboards = true
    /\ forallb about_queries queries = true
    /\ forallb about_widget widgets = true.
Proof.
  unfold Push.push.
  destruct (Push.find_data_source datasources datasource_name) as [ds|[]|];
    try discriminate.
  - destruct (Push.create_missing_dashboards _ _ _) as [st1| |] eqn:E1;
      cbn [bind]; try discriminate.
    destruct (Push.upload_queries _ _ _ fuel st1) as [st2| |] eqn:E2;
      cbn [bind]; try discriminate.
    unfold Push.update_dashboards.
    destruct (Push.update_each saved_dashboards (false, st2)) as [[error st3]| |] eqn:E3;
      cbn [bind]; try discriminate.
    apply create_missing_dashboards_sends in E1 as (r1 & R1 & H1).
    apply upload_each_sends in E2 as (r2 & R2 & H2).
    apply update_each_sends in E3 as (r3 & R3 & H3).
    intros H. exists r1, r2, r3.
    assert (Hst : Push.requests st = Push.requests st3)
      by (destruct error; injection H as _ <-; reflexivity).
    rewrite Hst, R3, R2, R1. simpl. rewrite <- app_assoc. auto.
  - intros [= _ <-]. exists [], [], []. auto.
Qed.

(* ================================================================= *)
(** * What update_dashboards logs *)

(** X21.  When every lookup of [update_dashboards] succeeds it changes
    nothing but the widgets of the server, and logs: for every saved
    widget the visualization of which is not found on its query, in
    the order of the saved documents, an error, followed by the note
    on the default table when the visualization is named Table; for
    the other widgets nothing; and in the end one line that tells
    whether a widget was skipped. *)
Theorem update_dashboards_logs_each_skipped_widget
    (saved_dashboards : dict Push.saved_dashboard) (st : Push.state) :
  forallb (dashboard_ok (Push.saved_queries st) (Push.existing_dashboards st))
          saved_dashboards = true ->
  (exists code st',
     Push.update_dashboards saved_dashboards st = Ok (code, st')
     /\ Push.log st'
        = Push.log st
          ++ flat_map (fun nd => flat_map (widget_log (Push.saved_queries st))
                                          (Push.sd_widgets (snd nd)))
                      saved_dashboards
          ++ [if any_unresolved (Push.saved_queries st) saved_dashboards
              then InfoLoadedWithErrors else InfoLoaded]
     /\ Push.saved_queries st' = Push.saved_queries st
     /\ Push.existing_queries st' = Push.existing_queries st
     /\ Push.existing_dashboards st' = Push.existing_dashboards st)
  /\ (forall w v,
        found (Push.saved_queries st) w = Some v ->
        widget_log (Push.saved_queries st) w = [])
  /\ (forall w vn qn,
        Push.w_visualization w = Some (vn, qn) ->
        dict_in qn (Push.saved_queries st) = true ->
        found (Push.saved_queries st) w = None ->
        widget_log (Push.saved_queries st) w
        = ErrVisualisation vn qn
          :: (if String.eqb vn "Table" then [ErrTableNote] else [])).
Proof.
  intros Hok. split; [|split].
  - destruct (update_dashboards_spec saved_dashboards st Hok)
      as (st' & Hrun & Hq & He & Hd & _ & Hl).
    eexists _, st'. split; [exact Hrun|]. split; [rewrite Hl; reflexivity|auto].
  - intros w v Hf. unfold widget_log. rewrite Hf.
    now destruct (Push.w_visualization w) as [[? ?]|].
  - intros w vn qn Hv Hq Hf. unfold widget_log. now rewrite Hv, Hf, Hq.
Qed.

(* ================================================================= *)
(** * A whole run of push *)

Module RunFacts.
Import Push.

Lemma well_formed_saved rank st st' :
  saved_queries st' = saved_queries st ->
  well_formed rank st' = well_formed rank st.
Proof.
  intros H. unfold well_formed, query_ok, parameter_ok. now rewrite H.
Qed.

Lemma depth_saved rank st st' :
  saved_queries st' = saved_queries st -> depth rank st' = depth rank st.
Proof. intros H. unfold depth. now rewrite H. Qed.

Lemma find_by_name vn (l : list visualization) :
  find (fun i => String.eqb (v_name i) vn) l = None <-> ~ In vn (map v_name l).
Proof.
  induction l as [|v l IH]; simpl; [tauto|].
  destruct (String.eqb_spec (v_name v) vn) as [E|Hne].
  - split; [discriminate|]. intros H. exfalso. apply H. now left.
  - rewrite IH. tauto.
Qed.

Lemma any_unresolved_false saved sds :
  any_unresolved saved sds = false <->
  forall name sd w, In (name, sd) sds -> In w (sd_widgets sd) ->
                    unresolved saved w = false.
Proof.
  unfold any_unresolved. split.
  - intros H name sd w Hsd Hw.
    destruct (unresolved saved w) eqn:E; auto.
    assert (Ht : existsb (fun nd => existsb (unresolved saved) (sd_widgets (snd nd))) sds
                 = true).
    { apply existsb_exists. exists (name, sd). split; auto.
      apply existsb_exists. now exists w. }
    congruence.
  - intros H.
    destruct (existsb _ sds) eqn:E; auto.
    apply existsb_exists in E as ([name sd] & Hsd & E).
    apply existsb_exists in E as (w & Hw & E).
    rewrite (H name sd w Hsd Hw) in E. discriminate.
Qed.

End RunFacts.

Import RunFacts.

(** X22.  A run of [push] that ends well.  A data source is found; the saved
    queries are well formed for [rank] (their references have no cycle
    and stay within the saved set, their link columns have a
    template); every widget the server has, or returns in a dashboard
    it creates, has a visualization; every saved widget names a
    visualization of a saved query.  Then, with fuel enough, [push]
    returns: with the status 0 when every saved widget names a
    visualization its saved query has, and with the status 1
    otherwise. *)
Theorem push_completes
    (created_query : list Push.request -> string -> Push.saved_query -> Push.remote_query)
    (updated_visualization : list Push.request -> Z -> Push.visualization -> Z)
    (created_visualization : list Push.request -> Push.visualization -> Z)
    (created_dashboard : list Push.request -> string -> remote_dashboard)
    (rank : string -> nat) (fuel : nat)
    (datasources : dict string) (datasource_name : option string)
    (ds : string * string)
    (existing_dashboards0 : dict remote_dashboard)
    (saved_dashboards : dict Push.saved_dashboard)
    (existing_queries0 : dict Push.remote_query)
    (saved_queries0 : dict Push.saved_query) :
  let st0 := {| Push.saved_queries := saved_queries0;
                Push.existing_queries := existing_queries0;
                Push.existing_dashboards := existing_dashboards0;
                Push.requests := [];
                Push.log := [] |} in
  Push.find_data_source datasources datasource_name = Ok ds ->
  well_formed rank st0 = true ->
  depth rank st0 <= fuel ->
  (forall n d, dict_get n existing_dashboards0 = Some d -> remote_ok d = true) ->
  (forall sent n, remote_ok (created_dashboard sent n) = true) ->
  (forall name sd w,
     In (name, sd) saved_dashboards -> In w (Push.sd_widgets sd) ->
     exists vn qn, Push.w_visualization w = Some (vn, qn)
                   /\ dict_in qn saved_queries0 = true) ->
  exists code st',
    Push.push created_query updated_visualization created_visualization
      created_dashboard fuel datasources datasource_name existing_dashboards0
      saved_dashboards existing_queries0 saved_queries0 = Ok (code, st')
    /\ (code = 0%Z \/ code = 1%Z)
    /\ (code = 0%Z <->
        forall name sd w vn qn q,
          In (name, sd) saved_dashboards -> In w (Push.sd_widgets sd) ->
          Push.w_visualization w = Some (vn, qn) ->
          dict_get qn saved_queries0 = Some q ->
          In vn (map Push.v_name (Push.q_visualizations q))).
Proof.
  intros st0 Hds Hwf Hfuel Hremote Hcreated Hwidgets.
  destruct (create_missing_dashboards_spec created_dashboard saved_dashboards st0)
    as (st1 & Hrun1 & [Cq Ce Cl Ckept Cnew Call _]).
  assert (Hwf1 : well_formed rank st1 = true)
    by (rewrite (well_formed_saved rank st0 st1 Cq); exact Hwf).
  assert (Hfuel1 : depth rank st1 <= fuel)
    by (rewrite (depth_saved rank st0 st1 Cq); exact Hfuel).
  destruct (upload_queries_spec created_query updated_visualization
              created_visualization rank st1 Hwf1 fuel Hfuel1)
    as (st2 & Hrun2 & Hinv & Hall).
  destruct Hinv as [Ikeys _ Idash Iviz _].
  assert (Cq' : Push.saved_queries st1 = saved_queries0) by exact Cq.
  (* every visualization of every saved query carries an id *)
  assert (Hfound : forall qn q2, dict_get qn (Push.saved_queries st2) = Some q2 ->
            exists q0, dict_get qn saved_queries0 = Some q0
              /\ map Push.v_name (Push.q_visualizations q2)
                 = map Push.v_name (Push.q_visualizations q0)
              /\ Forall (fun v => Push.v_uploaded_id v <> None)
                        (Push.q_visualizations q2)).
  { intros qn q2 Hq2.
    assert (Hin : dict_in qn (Push.saved_queries st1) = true).
    { rewrite <- Ikeys. unfold dict_in. now rewrite Hq2. }
    destruct (dict_in_get _ _ Hin) as (q0 & Hq0).
    exists q0. split; [now rewrite <- Cq'|].
    apply (Iviz qn q2 q0); auto.
    specialize (Hall qn Hin). unfold uploaded_id_of in Hall. now rewrite Hq2 in Hall. }
  assert (Hok : forallb (dashboard_ok (Push.saved_queries st2)
                           (Push.existing_dashboards st2)) saved_dashboards = true).
  { apply forallb_forall. intros [name sd] Hin. unfold dashboard_ok. cbn [fst snd].
    rewrite Idash.
    assert (Hn : In name (dict_keys saved_dashboards))
      by (apply (in_map fst) in Hin; exact Hin).
    destruct (dict_in_get _ _ (Call name Hn)) as (d & Hd). rewrite Hd.
    apply andb_true_iff. split.
    - destruct (Cnew name d Hd) as [Hold|(_ & sent & ->)]; eauto.
    - apply forallb_forall. intros w Hw.
      destruct (Hwidgets name sd w Hin Hw) as (vn & qn & Hv & Hq).
      unfold widget_ok, found. rewrite Hv.
      assert (Hq2 : dict_in qn (Push.saved_queries st2) = true)
        by (rewrite Ikeys, Cq'; exact Hq).
      rewrite Hq2. destruct (dict_in_get _ _ Hq2) as (q2 & Eq2). rewrite Eq2.
      destruct (find _ (Push.q_visualizations q2)) as [v|] eqn:Ef; auto.
      apply find_some in Ef as [Hv2 _].
      destruct (Hfound qn q2 Eq2) as (_ & _ & _ & Hup).
      rewrite Forall_forall in Hup. specialize (Hup v Hv2).
      now destruct (Push.v_uploaded_id v). }
  destruct (update_dashboards_spec saved_dashboards st2 Hok) as (st' & Hrun3 & _).
  exists (if any_unresolved (Push.saved_queries st2) saved_dashboards
          then 1%Z else 0%Z), st'.
  split.
  { rewrite (push_exit_code created_query updated_visualization
               created_visualization created_dashboard fuel datasources
               datasource_name existing_dashboards0 saved_dashboards
               existing_queries0 saved_queries0 ds st1 st2 Hds Hrun1 Hrun2).
    exact Hrun3. }
  split; [destruct (any_unresolved _ _); auto|].
  assert (Hiff : any_unresolved (Push.saved_queries st2) saved_dashboards = false <->
                 forall name sd w vn qn q,
                   In (name, sd) saved_dashboards -> In w (Push.sd_widgets sd) ->
                   Push.w_visualization w = Some (vn, qn) ->
                   dict_get qn saved_queries0 = Some q ->
                   In vn (map Push.v_name (Push.q_visualizations q))).
  { rewrite any_unresolved_false. split.
    - intros H name sd w vn qn q Hsd Hw Hv Hq.
      specialize (H name sd w Hsd Hw).
      rewrite forallb_forall in Hok. specialize (Hok _ Hsd).
      unfold dashboard_ok in Hok. cbn [fst snd] in Hok.
      destruct (dict_get name (Push.existing_dashboards st2)); [|discriminate].
      apply andb_true_iff in Hok as [_ Hok].
      rewrite forallb_forall in Hok. specialize (Hok w Hw).
      unfold unresolved in H. rewrite Hok in H. simpl in H.
      unfold found in H. rewrite Hv in H.
      assert (Hq2 : dict_in qn (Push.saved_queries st2) = true).
      { rewrite Ikeys, Cq'. unfold dict_in. now rewrite Hq. }
      destruct (dict_in_get _ _ Hq2) as (q2 & Eq2). rewrite Eq2 in H.
      destruct (Hfound qn q2 Eq2) as (q0 & Eq0 & Hnames & _).
      assert (q0 = q) by congruence. subst q0. rewrite <- Hnames.
      destruct (find _ (Push.q_visualizations q2)) as [v|] eqn:Ef; [|discriminate].
      apply find_some in Ef as [Hin Hn]. apply String.eqb_eq in Hn. subst vn.
      now apply in_map.
    - intros H name sd w Hsd Hw.
      destruct (Hwidgets name sd w Hsd Hw) as (vn & qn & Hv & Hq).
      destruct (dict_in_get _ _ Hq) as (q & Eq).
      specialize (H name sd w vn qn q Hsd Hw Hv Eq).
      unfold unresolved, found. rewrite Hv.
      assert (Hq2 : dict_in qn (Push.saved_queries st2) = true)
        by (rewrite Ikeys, Cq'; exact Hq).
      destruct (dict_in_get _ _ Hq2) as (q2 & Eq2). rewrite Eq2.
      destruct (Hfound qn q2 Eq2) as (q0 & Eq0 & Hnames & _).
      assert (q0 = q) by congruence. subst q0.
      destruct (find _ (Push.q_visualizations q2)) as [v|] eqn:Ef;
        [apply andb_false_r|].
      apply find_by_name in Ef. rewrite Hnames in Ef. contradiction. }
  destruct (any_unresolved (Push.saved_queries st2) saved_dashboards).
  - split; [discriminate|]. intros H. apply Hiff in H. discriminate.
  - split; [intros _; now apply Hiff|reflexivity].
Qed.

Lemma push_completes_witness :
  exists st',
    Push.push Sample.created_query Sample.updated_visualization
      Sample.created_visualization Sample.created_dashboard 3
      [("main", "pg")] None (Push.existing_dashboards Sample.loaded)
      (Sample.dashboard_of [Sample.widget "Chart" "Scores" 0 0;
                            Sample.widget "Table" "Teams" 0 1])
      (Push.existing_queries Sample.loaded) (Push.saved_queries Sample.loaded)
    = Ok (0%Z, st').
Proof.
  destruct (push_completes Sample.created_query Sample.updated_visualization
              Sample.created_visualization Sample.created_dashboard Sample.rank 3
              [("main", "pg")] None ("main", "pg")
              (Push.existing_dashboards Sample.loaded)
              (Sample.dashboard_of [Sample.widget "Chart" "Scores" 0 0;
                                    Sample.widget "Table" "Teams" 0 1])
              (Push.existing_queries Sample.loaded)
              (Push.saved_queries Sample.loaded))
    as (code & st' & Hrun & _ & Hcode).
  - reflexivity.
  - reflexivity.
  - apply le_n.
  - intros n d. simpl. destruct (String.eqb n "board"); [|discriminate].
    intros [= <-]. reflexivity.
  - reflexivity.
  - intros name sd w [[= <- <-]|[]] [<-|[<-|[]]]; eexists _, _; split; reflexivity.
  - exists st'. rewrite Hrun. do 2 f_equal. apply Hcode.
    intros name sd w vn qn q [[= <- <-]|[]] [<-|[<-|[]]] [= <- <-] [= <-];
      simpl; auto.
Defined.

(* ================================================================= *)
(** * Runs of the properties above *)

(** A query as the server returns it, with three visualizations: a
    chart with a link column, the default table and a counter. *)
Definition trend_on_server : json :=
  JDict [("id", JInt 12); ("type", JStr "CHART"); ("name", JStr "Trend");
         ("description", JStr "");
         ("options",
          JDict [("columns",
                  JList [JDict [("name", JStr "class"); ("displayAs", JStr "link");
                                ("linkUrlTemplate",
                                 JStr "/dashboards/3-class-summary?p_class=1")];
                         JDict [("name", JStr "score"); ("displayAs", JStr "number")]])]);
         ("updated_at", JStr "2024-05-01"); ("created_at", JStr "2024-04-01")].

Definition table_on_server : json :=
  JDict [("id", JInt 11); ("type", JStr "TABLE"); ("name", JStr "Table");
         ("description", JStr ""); ("options", JDict []);
         ("updated_at", JStr "2024-04-01"); ("created_at", JStr "2024-04-01")].

Definition counter_on_server : json :=
  JDict [("id", JInt 13); ("type", JStr "COUNTER"); ("name", JStr "Count");
         ("description", JStr "all"); ("options", JDict [])].

Definition scores_on_server : dict json :=
  [("id", JInt 5); ("name", JStr "Scores");
   ("options", JDict [("parameters",
                       JList [JDict [("name", JStr "team"); ("type", JStr "query");
                                     ("queryId", JInt 4)]])]);
   ("visualizations", JList [trend_on_server; table_on_server; counter_on_server])].

Definition queries_on_server : list (Z * json) :=
  [(4%Z, JDict [("id", JInt 4); ("name", JStr "Teams"); ("options", JDict [])]);
   (5%Z, JDict scores_on_server)].

Lemma visualizations_are_written_in_name_order_witness :
  exists cleaned out,
    mapM Fetch.clean_visualization
      [trend_on_server; table_on_server; counter_on_server] = Ok cleaned
    /\ Fetch.store_visualizations scores_on_server []
       = Ok (dict_set "visualizations" (JList out) [])
    /\ Permutation
         (filter (fun i => negb (py_eq i Fetch.default_table)) cleaned) out
    /\ StronglySorted name_le out.
Proof.
  exact (visualizations_are_written_in_name_order scores_on_server []
           [trend_on_server; table_on_server; counter_on_server] eq_refl eq_refl).
Defined.

Example visualizations_written :
  Fetch.store_visualizations scores_on_server []
  = Ok [("visualizations",
         JList [JDict [("type", JStr "COUNTER"); ("name", JStr "Count");
                       ("description", JStr "all"); ("options", JDict [])];
                JDict [("type", JStr "CHART"); ("name", JStr "Trend");
                       ("description", JStr "");
                       ("options",
                        JDict [("columns",
                                JList [JDict [("name", JStr "class");
                                              ("displayAs", JStr "link");
                                              ("linkUrlTemplate",
                                               JStr "/dashboards/0-class-summary?p_class=1")];
                                       JDict [("name", JStr "score");
                                              ("displayAs", JStr "number")]])])]])].
Proof. reflexivity. Qed.

Lemma visualizations_are_written_without_ids_witness :
  exists out,
    dict_get "visualizations"
      [("visualizations",
        JList [JDict [("type", JStr "COUNTER"); ("name", JStr "Count");
                      ("description", JStr "all"); ("options", JDict [])];
               JDict [("type", JStr "CHART"); ("name", JStr "Trend");
                      ("description", JStr "");
                      ("options",
                       JDict [("columns",
                               JList [JDict [("name", JStr "class");
                                             ("displayAs", JStr "link");
                                             ("linkUrlTemplate",
                                              JStr "/dashboards/0-class-summary?p_class=1")];
                                      JDict [("name", JStr "score");
                                             ("displayAs", JStr "number")]])])]])]
    = Some (JList out)
    /\ forall v', In v' out ->
         exists v d d',
           In v [trend_on_server; table_on_server; counter_on_server]
           /\ v = JDict d /\ v' = JDict d'
           /\ dict_in "id" d' = false
           /\ dict_in "updated_at" d' = false
           /\ dict_in "created_at" d' = false
           /\ forall k, ~ In k ("options" :: Fetch.VISUALIZATIONS_IGNORE_FIELDS) ->
                        dict_get k d' = dict_get k d.
Proof.
  exact (visualizations_are_written_without_ids scores_on_server [] _
           [trend_on_server; table_on_server; counter_on_server]
           eq_refl visualizations_written).
Defined.

(** A dashboard with a chart and, above it, a text box. *)
Definition board_on_server : dict json :=
  [("id", JInt 3); ("slug", JStr "board"); ("name", JStr "Board");
   ("layout", JList []); ("dashboard_filters_enabled", JBool false);
   ("options", JDict []); ("is_archived", JBool false);
   ("is_draft", JBool false); ("tags", JList []);
   ("widgets",
    JList [JDict [("id", JInt 21); ("dashboard_id", JInt 3); ("text", JStr "");
                  ("options", JDict [("position",
                                      JDict [("row", JInt 2); ("col", JInt 0)])]);
                  ("visualization",
                   JDict [("id", JInt 12); ("name", JStr "Trend");
                          ("query", JDict [("id", JInt 5); ("name", JStr "Scores")])])];
           JDict [("id", JInt 22); ("dashboard_id", JInt 3);
                  ("text", JStr "Scores of the term");
                  ("options", JDict [("position",
                                      JDict [("row", JInt 0); ("col", JInt 0)])])]])].

Example board_written :
  Fetch.dashboard_document board_on_server [("name", JStr "Board")]
  = Ok ([("name", JStr "Board"); ("slug", JStr "board"); ("layout", JList []);
         ("dashboard_filters_enabled", JBool false); ("options", JDict []);
         ("is_archived", JBool false); ("is_draft", JBool false);
         ("tags", JList []);
         ("widgets",
          JList [JDict [("text", JStr "Scores of the term");
                        ("options", JDict [("position",
                                            JDict [("row", JInt 0); ("col", JInt 0)])])];
                 JDict [("text", JStr "");
                        ("options", JDict [("position",
                                            JDict [("row", JInt 2); ("col", JInt 0)])]);
                        ("visualization",
                         JDict [("name", JStr "Trend");
                                ("queryName", JStr "Scores")])]])],
        ["slug"; "layout"; "dashboard_filters_enabled"; "options"; "is_archived";
         "is_draft"; "tags"]).
Proof. reflexivity. Qed.

Lemma widgets_are_written_by_name_witness :
  exists doc written sorted out,
    Fetch.dashboard_document board_on_server [("name", JStr "Board")]
    = Ok (doc, written)
    /\ dict_get "widgets" doc = Some (JList out)
    /\ Forall2 written_as sorted out
    /\ length out = 2.
Proof.
  destruct (widgets_are_written_by_name board_on_server [("name", JStr "Board")]
              _ _ _ eq_refl board_written) as (sorted & out & Hout & Hperm & Hall).
  eexists _, _, sorted, out. split; [exact board_written|]. split; [exact Hout|].
  split; [exact Hall|].
  rewrite <- (Forall2_length Hall), <- (Permutation_length Hperm). reflexivity.
Defined.

Lemma unknown_query_id_aborts_the_fetch_witness :
  Fetch.assoc_int 4 [(5%Z, JDict scores_on_server)] = None
  /\ exists e,
       Fetch.query_metadata [(5%Z, JDict scores_on_server)] scores_on_server []
       = Raise e.
Proof.
  split; [reflexivity|].
  exact (proj2 (unknown_query_id_aborts_the_fetch
                  [(5%Z, JDict scores_on_server)] scores_on_server [] _ _ _ 4
                  eq_refl eq_refl (or_introl eq_refl) eq_refl eq_refl eq_refl)).
Defined.

Lemma incomplete_dashboards_are_not_written_witness :
  exists pre k post,
    Fetch.DASHBOARD_FIELDS = pre ++ k :: post
    /\ (forall i, In i pre ->
          dict_in i [("slug", JStr "board"); ("name", JStr "Board");
                     ("tags", JList [])] = true)
    /\ dict_in k [("slug", JStr "board"); ("name", JStr "Board");
                  ("tags", JList [])] = false
    /\ Fetch.dashboard_document [("slug", JStr "board"); ("name", JStr "Board");
                                 ("tags", JList [])] []
       = Raise (KeyError k).
Proof.
  apply (proj1 (incomplete_dashboards_are_not_written
                  [("slug", JStr "board"); ("name", JStr "Board");
                   ("tags", JList [])] [])).
  exists "options". split; [simpl; tauto|reflexivity].
Defined.

(** The field named is the first of the list the dashboard lacks. *)
Example first_missing_field :
  Fetch.dashboard_document [("slug", JStr "board"); ("name", JStr "Board");
                            ("tags", JList [])] []
  = Raise (KeyError "layout").
Proof. reflexivity. Qed.

Lemma metadata_of_a_query_is_written_witness :
  exists m written,
    Fetch.query_metadata queries_on_server scores_on_server
      [("name", JStr "Scores"); ("owner", JStr "ops")] = Ok (m, written)
    /\ dict_in "owner" m = true.
Proof.
  destruct (metadata_of_a_query_is_written queries_on_server scores_on_server
              [("name", JStr "Scores"); ("owner", JStr "ops")] eq_refl)
    as (m & written & Hrun & Hkeep & _).
  exists m, written. split; [exact Hrun|]. now apply Hkeep.
Defined.

Lemma document_of_a_dashboard_is_written_witness :
  exists doc written out,
    Fetch.dashboard_document board_on_server [("name", JStr "Board")]
    = Ok (doc, written)
    /\ dict_get "widgets" doc = Some (JList out)
    /\ length out = 2.
Proof.
  destruct (document_of_a_dashboard_is_written board_on_server
              [("name", JStr "Board")] _ ltac:(each_field) eq_refl eq_refl)
    as (doc & written & out & Hrun & _ & Hout & Hlen & _).
  exists doc, written, out. auto.
Defined.

Lemma each_visualization_is_updated_or_created_witness :
  exists vs' new logged',
    Push.upload_visualizations Sample.updated_visualization
      Sample.created_visualization (Push.existing_dashboards Sample.loaded)
      (Push.by_name [{| Push.rv_name := "Table"; Push.rv_id := 70 |};
                     {| Push.rv_name := "Table"; Push.rv_id := 71 |}])
      7 [] [] [Sample.chart; Sample.table]
    = Ok (vs', [] ++ new, logged')
    /\ Forall2 (request_for [{| Push.rv_name := "Table"; Push.rv_id := 70 |};
                             {| Push.rv_name := "Table"; Push.rv_id := 71 |}] 7)
               [Sample.chart; Sample.table] new.
Proof.
  destruct (each_visualization_is_updated_or_created Sample.updated_visualization
              Sample.created_visualization (Push.existing_dashboards Sample.loaded)
              [{| Push.rv_name := "Table"; Push.rv_id := 70 |};
               {| Push.rv_name := "Table"; Push.rv_id := 71 |}]
              7 [Sample.chart; Sample.table] [] [] eq_refl)
    as (vs' & new & logged' & Hrun & Hreq & _).
  exists vs', new, logged'. split; [exact Hrun|exact Hreq].
Defined.

Example visualizations_sent :
  exists vs' logged',
    Push.upload_visualizations Sample.updated_visualization
      Sample.created_visualization (Push.existing_dashboards Sample.loaded)
      (Push.by_name [{| Push.rv_name := "Table"; Push.rv_id := 70 |};
                     {| Push.rv_name := "Table"; Push.rv_id := 71 |}])
      7 [] [] [Sample.chart; Sample.table]
    = Ok (vs',
          [Push.CreateVisualization
             {| Push.v_name := "Chart";
                Push.v_columns :=
                  Some [{| Push.c_name := "class"; Push.c_displayAs := Some "link";
                           Push.c_linkUrlTemplate := Some "/dashboards/3-board?p=1" |}];
                Push.v_query_id := Some 7%Z; Push.v_uploaded_id := None |};
           Push.UpdateVisualization 71
             {| Push.v_name := "Table"; Push.v_columns := None;
                Push.v_query_id := Some 7%Z; Push.v_uploaded_id := None |}],
          logged').
Proof. eexists _, _. reflexivity. Qed.

(** A saved dashboard with a text box, as fetch.py writes it. *)
Definition board_with_text : dict Push.saved_dashboard :=
  Sample.dashboard_of [Sample.widget "Chart" "Scores" 0 0;
                       {| Push.w_visualization := None;
                          Push.w_text := "Scores of the term";
                          Push.w_options := JDict [] |}].

Lemma text_widgets_raise_KeyError_witness :
  exists key, Push.update_dashboards board_with_text ready = Raise (KeyError key).
Proof.
  refine (proj1 (text_widgets_raise_KeyError board_with_text ready)
            "board" _ _ (or_introl eq_refl) (or_intror (or_introl eq_refl)) eq_refl).
Defined.

Example text_widget_key :
  Push.update_dashboards board_with_text ready = Raise (KeyError "visualization").
Proof. reflexivity. Qed.

Lemma push_sends_in_three_phases_witness :
  exists code st dashboards queries widgets,
    Push.push Sample.created_query Sample.updated_visualization
      Sample.created_visualization Sample.created_dashboard 3
      [("main", "pg")] None (Push.existing_dashboards Sample.loaded)
      (Sample.dashboard_of [Sample.widget "Chart" "Scores" 0 0;
                            Sample.widget "Table" "Teams" 0 1])
      (Push.existing_queries Sample.loaded) (Push.saved_queries Sample.loaded)
    = Ok (code, st)
    /\ Push.requests st = dashboards ++ queries ++ widgets
    /\ forallb about_dashboard dashboards = true
    /\ forallb about_queries queries = true
    /\ forallb about_widget widgets = true.
Proof.
  assert (E : exists r,
            Push.push Sample.created_query Sample.updated_visualization
              Sample.created_visualization Sample.created_dashboard 3
              [("main", "pg")] None (Push.existing_dashboards Sample.loaded)
              (Sample.dashboard_of [Sample.widget "Chart" "Scores" 0 0;
                                    Sample.widget "Table" "Teams" 0 1])
              (Push.existing_queries Sample.loaded)
              (Push.saved_queries Sample.loaded) = Ok r)
    by (vm_compute; eexists; reflexivity).
  destruct E as ([code st] & E).
  destruct (push_sends_in_three_phases _ _ _ _ _ _ _ _ _ _ _ code st E)
    as (dashboards & queries & widgets & H).
  exists code, st, dashboards, queries, widgets. split; [exact E|exact H].
Defined.

Lemma push_needs_a_data_source_witness :
  exists st,
    Push.push Sample.created_query Sample.updated_visualization
      Sample.created_visualization Sample.created_dashboard 3
      [("main", "pg"); ("other", "mysql")] None
      (Push.existing_dashboards Sample.loaded) (Sample.dashboard_of [])
      (Push.existing_queries Sample.loaded) (Push.saved_queries Sample.loaded)
    = Ok (1%Z, st)
    /\ Push.requests st = [].
Proof.
  refine (proj2 (proj1 (push_needs_a_data_source Sample.created_query
            Sample.updated_visualization Sample.created_visualization
            Sample.created_dashboard 3 [("main", "pg"); ("other", "mysql")] None
            (Push.existing_dashboards Sample.loaded) (Sample.dashboard_of [])
            (Push.existing_queries Sample.loaded)
            (Push.saved_queries Sample.loaded)) eq_refl _)).
  discriminate.
Defined.

Lemma update_dashboards_logs_each_skipped_widget_witness :
  exists code st',
    Push.update_dashboards board_with_trend ready = Ok (code, st')
    /\ Push.log st' = [ErrVisualisation "Trend" "Scores"; InfoLoadedWithErrors].
Proof.
  destruct (proj1 (update_dashboards_logs_each_skipped_widget board_with_trend ready
                     eq_refl)) as (code & st' & Hrun & Hlog & _).
  exists code, st'. split; [exact Hrun|]. rewrite Hlog. reflexivity.
Defined.
